(** * restash-js: the upload protocol and the signature generator

    A shallow embedding of the two entry points of the client,
    [createRestashUploader] and the signature generator, in the two
    revisions the repository holds:

    - [IndexTs]  : src/index.ts ([generateRestashSig], [nanoid], [File]
                   inputs, [validateStatus: () => true]);
    - [Part001]  : the revision that exports [generateSig]
                   ([randomUUID], [File | Blob] inputs, checked signature
                   and prepare responses, axios' default status check).

    Strings are [string]s read as UTF-8 byte sequences, byte counts are
    [N], HTTP statuses and timestamps are [Z].  The network, the clock,
    the random source and the ambient globals ([window], [process.env])
    are an explicit environment; every call the code makes on them, and
    on the caller's progress callback, is recorded in order in a trace.
    An async function is a run: its trace, then the value it resolves
    to or the error it rejects with.  What axios, fetch and Node's
    crypto do is written out from their documented behaviour. *)

From Stdlib Require Import String Ascii List NArith ZArith Lia Bool.
From Stdlib Require Import DecimalString DecimalPos DecimalZ.
From Stdlib Require Import Strings.Byte.
From Stdlib Require Import Floats.SpecFloat.
Import ListNotations.

Local Open Scope string_scope.
Local Open Scope list_scope.

(* ===================================================================== *)
(** ** JavaScript primitives used by the source *)
(* ===================================================================== *)

Module Js.

(** The argument of a call whose parameter list destructures it:
    [undefined] (also an omitted argument), [null], or a value whose
    properties can be read. *)
Inductive Arg (A : Type) : Type :=
| Undefined
| Null
| Object (a : A).

Arguments Undefined {A}.
Arguments Null {A}.
Arguments Object {A} a.

(** Truthiness of a string: only the empty string is falsy. *)
Definition truthy (s : string) : bool :=
  match s with
  | EmptyString => false
  | String _ _ => true
  end.

(** Truthiness of a possibly [undefined] string. *)
Definition truthy_opt (o : option string) : bool :=
  match o with
  | Some s => truthy s
  | None => false
  end.

(** Truthiness of a number (NaN does not occur on byte counts). *)
Definition truthy_num (n : N) : bool := negb (n =? 0)%N.

(** [s.startsWith(p)]. *)
Definition startsWith (s p : string) : bool := String.prefix p s.

(** [total || 1] on a possibly undefined number. *)
Definition num_or (a : option N) (d : N) : N :=
  match a with
  | Some n => if truthy_num n then n else d
  | None => d
  end.

(** [Math.round(num / den)] for non-negative integers [num] and
    [den > 0], read over the exact quotient: the nearest integer,
    halves rounded up, that is floor(num/den + 1/2)
    = floor((2*num + den) / (2*den)).  The source rounds the double
    nearest to the quotient instead ([percent_double] below); the two
    agree on the byte counts of the scenarios and can differ by one
    once the counts pass about 2^46, so only the statements about a
    percentage depend on this reading, and the others leave the
    percentage out. *)
Definition round_div (num den : N) : N := ((2 * num + den) / (2 * den))%N.

(** For reference, the same on the binary64 numbers of the source:
    the operands as doubles, product and quotient rounded to nearest
    (ties to even), and [Math.round] of a non-negative finite double,
    floor(x + 1/2) taken exactly.  The divisor is [total || 1], never
    zero, so NaN and Infinity do not occur. *)
Definition double_of_N (n : N) : spec_float :=
  binary_normalize 53 1024 (Z.of_N n) 0 false.

Definition Math_round (x : spec_float) : N :=
  match x with
  | S754_finite false m e =>
      match e with
      | Z0 => Npos m
      | Zpos p => Npos m * 2 ^ Npos p
      | Zneg p => (2 * Npos m + 2 ^ Npos p) / (2 * 2 ^ Npos p)
      end
  | _ => 0
  end%N.

Definition percent_double (loaded total : N) : N :=
  Math_round
    (SFdiv 53 1024 (SFmul 53 1024 (double_of_N loaded) (double_of_N 100))
           (double_of_N total)).

(** Number to string conversion of an integer, as a template literal
    does it: decimal digits, a leading minus sign when negative. *)
Definition string_of_number (z : Z) : string :=
  NilZero.string_of_int (Z.to_int z).

(** [s.split(sep)] for a one-character separator. *)
Fixpoint split (sep : ascii) (s : string) : list string :=
  match s with
  | EmptyString => [EmptyString]
  | String c rest =>
      if Ascii.eqb c sep then EmptyString :: split sep rest
      else match split sep rest with
           | [] => [String c EmptyString]
           | part :: parts => String c part :: parts
           end
  end.

(** Number of occurrences of a character. *)
Fixpoint count (c : ascii) (s : string) : nat :=
  match s with
  | EmptyString => 0
  | String d rest => (if Ascii.eqb d c then 1 else 0) + count c rest
  end.

(** The characters that [toString("hex")] and [digest("hex")] produce. *)
Definition is_lower_hex (c : ascii) : bool :=
  let n := N_of_ascii c in
  ((48 <=? n) && (n <=? 57) || (97 <=? n) && (n <=? 102))%N.

Fixpoint string_forallb (p : ascii -> bool) (s : string) : bool :=
  match s with
  | EmptyString => true
  | String c rest => p c && string_forallb p rest
  end.

End Js.

(* ===================================================================== *)
(** ** Node's crypto module: SHA-256, HMAC, hex, random identifiers *)
(* ===================================================================== *)

Module Crypto.

Local Open Scope N_scope.

Definition byte_of_N (n : N) : byte :=
  match Byte.of_N (n mod 256) with
  | Some b => b
  | None => x00
  end.

(** *** 32-bit words *)

Definition mask32 : N := 0xFFFFFFFF.
Definition w32 (x : N) : N := N.land x mask32.
Definition add32 (x y : N) : N := w32 (x + y).
Definition not32 (x : N) : N := N.lxor (w32 x) mask32.
Definition rotr (n x : N) : N :=
  N.lor (N.shiftr x n) (w32 (N.shiftl x (32 - n))).

Definition Ch (x y z : N) : N := N.lxor (N.land x y) (N.land (not32 x) z).
Definition Maj (x y z : N) : N :=
  N.lxor (N.lxor (N.land x y) (N.land x z)) (N.land y z).
Definition Sigma0 (x : N) : N := N.lxor (N.lxor (rotr 2 x) (rotr 13 x)) (rotr 22 x).
Definition Sigma1 (x : N) : N := N.lxor (N.lxor (rotr 6 x) (rotr 11 x)) (rotr 25 x).
Definition sigma0 (x : N) : N := N.lxor (N.lxor (rotr 7 x) (rotr 18 x)) (N.shiftr x 3).
Definition sigma1 (x : N) : N := N.lxor (N.lxor (rotr 17 x) (rotr 19 x)) (N.shiftr x 10).

(** The constants of FIPS 180-4, by their definition: the first 32
    bits of the fractional parts of the cube roots (round constants) and
    of the square roots (initial hash value) of the first primes. *)
Definition is_prime (n : nat) : bool :=
  forallb (fun d => negb (n mod d =? 0)%nat) (seq 2 (n - 2)).

Definition primes (count : nat) : list N :=
  map N.of_nat (firstn count (filter is_prime (seq 2 310))).

(** The largest [r] below [2^bits] with [r^3 <= n]. *)
Fixpoint cube_root (bits : nat) (n r : N) : N :=
  match bits with
  | O => r
  | S b =>
      let r' := r + 2 ^ N.of_nat b in
      cube_root b n (if r' * r' * r' <=? n then r' else r)
  end.

Definition K256 : list N :=
  map (fun p => w32 (cube_root 36 (p * 2 ^ 96) 0)) (primes 64).

(** The eight working words of the hash. *)
Record HashState := mkHash {
  ha : N; hb : N; hc : N; hd : N; he : N; hf : N; hg : N; hh : N
}.

Definition fraction_of_sqrt (p : N) : N := w32 (N.sqrt (p * 2 ^ 64)).

Definition H256_init : HashState :=
  mkHash (fraction_of_sqrt 2) (fraction_of_sqrt 3) (fraction_of_sqrt 5)
         (fraction_of_sqrt 7) (fraction_of_sqrt 11) (fraction_of_sqrt 13)
         (fraction_of_sqrt 17) (fraction_of_sqrt 19).

(** *** Padding and parsing *)

Definition be_bytes (width : nat) (x : N) : list byte :=
  map (fun i => byte_of_N (N.shiftr x (8 * N.of_nat i))) (rev (seq 0 width)).

Definition be_word (bs : list byte) : N :=
  fold_left (fun acc b => acc * 256 + Byte.to_N b) bs 0.

(** Zero bytes needed after the 0x80 marker so that the padded length,
    with its 8-byte length field, is a multiple of 64. *)
Definition pad_zeros (len : nat) : nat := (119 - len mod 64) mod 64.

Definition pad (msg : list byte) : list byte :=
  msg ++ x80 :: repeat x00 (pad_zeros (length msg))
      ++ be_bytes 8 (8 * N.of_nat (length msg)).

Fixpoint chunks (fuel size : nat) (l : list byte) : list (list byte) :=
  match fuel with
  | O => []
  | S fuel' =>
      match l with
      | [] => []
      | _ => firstn size l :: chunks fuel' size (skipn size l)
      end
  end.

Definition words_of_block (block : list byte) : list N :=
  map be_word (chunks 16 4 block).

(** *** Message schedule and compression *)

Fixpoint schedule (n : nat) (w : list N) : list N :=
  match n with
  | O => w
  | S n' =>
      let t := length w in
      let at_ (k : nat) := nth (t - k) w 0 in
      schedule n'
        (w ++ [add32 (add32 (add32 (sigma1 (at_ 2%nat)) (at_ 7%nat))
                            (sigma0 (at_ 15%nat))) (at_ 16%nat)])
  end.

Definition round (s : HashState) (kw : N * N) : HashState :=
  let t1 := add32 (add32 (add32 (add32 (hh s) (Sigma1 (he s)))
                                (Ch (he s) (hf s) (hg s))) (fst kw)) (snd kw) in
  let t2 := add32 (Sigma0 (ha s)) (Maj (ha s) (hb s) (hc s)) in
  mkHash (add32 t1 t2) (ha s) (hb s) (hc s) (add32 (hd s) t1) (he s) (hf s) (hg s).

Definition compress (h : HashState) (block : list byte) : HashState :=
  let w := schedule 48 (words_of_block block) in
  let s := fold_left round (combine K256 w) h in
  mkHash (add32 (ha h) (ha s)) (add32 (hb h) (hb s))
         (add32 (hc h) (hc s)) (add32 (hd h) (hd s))
         (add32 (he h) (he s)) (add32 (hf h) (hf s))
         (add32 (hg h) (hg s)) (add32 (hh h) (hh s)).

Definition digest_bytes (h : HashState) : list byte :=
  be_bytes 4 (ha h) ++ be_bytes 4 (hb h) ++ be_bytes 4 (hc h) ++
  be_bytes 4 (hd h) ++ be_bytes 4 (he h) ++ be_bytes 4 (hf h) ++
  be_bytes 4 (hg h) ++ be_bytes 4 (hh h).

Definition sha256 (msg : list byte) : list byte :=
  let padded := pad msg in
  digest_bytes (fold_left compress (chunks (length padded) 64 padded) H256_init).

(** *** HMAC (RFC 2104) with SHA-256, block size 64 *)

Definition xor_byte (c : N) (b : byte) : byte :=
  byte_of_N (N.lxor (Byte.to_N b) c).

Definition hmac_key_block (key : list byte) : list byte :=
  let k := if (64 <? length key)%nat then sha256 key else key in
  k ++ repeat x00 (64 - length k).

Definition hmac_sha256 (key msg : list byte) : list byte :=
  let k := hmac_key_block key in
  sha256 (map (xor_byte 0x5c) k ++ sha256 (map (xor_byte 0x36) k ++ msg)).

(** *** Hex encoding: two lowercase digits per byte *)

Definition hex_digit (n : N) : ascii :=
  if n <? 10 then ascii_of_N (48 + n) else ascii_of_N (87 + n).

Definition hex_of_byte (b : byte) : string :=
  String (hex_digit (Byte.to_N b / 16))
         (String (hex_digit (Byte.to_N b mod 16)) EmptyString).

Fixpoint hex (bs : list byte) : string :=
  match bs with
  | [] => EmptyString
  | b :: rest => hex_of_byte b ++ hex rest
  end.

(** [createHmac("sha256", key).update(payload).digest("hex")]: both
    strings enter as their UTF-8 bytes. *)
Definition createHmac_sha256_hex (key payload : string) : string :=
  hex (hmac_sha256 (list_byte_of_string key) (list_byte_of_string payload)).

(** *** Random values, drawn from an entropy stream *)

(** [randomBytes(n)]: the next [n] bytes of the stream. *)
Definition randomBytes (entropy : nat -> byte) (n : nat) : list byte :=
  map entropy (seq 0 n).

(** [randomUUID()]: 16 random bytes with the version (4) and variant
    (10xx) bits set, printed as 8-4-4-4-12 lowercase hex digits. *)
Definition uuid_bytes (entropy : nat -> byte) : list byte :=
  map (fun i =>
         let b := entropy i in
         if (i =? 6)%nat then byte_of_N (N.lor (N.land (Byte.to_N b) 0x0f) 0x40)
         else if (i =? 8)%nat then byte_of_N (N.lor (N.land (Byte.to_N b) 0x3f) 0x80)
         else b)
      (seq 0 16).

Definition randomUUID (entropy : nat -> byte) : string :=
  let bs := uuid_bytes entropy in
  hex (firstn 4 bs) ++ "-" ++ hex (firstn 2 (skipn 4 bs)) ++ "-" ++
  hex (firstn 2 (skipn 6 bs)) ++ "-" ++ hex (firstn 2 (skipn 8 bs)) ++ "-" ++
  hex (skipn 10 bs).

End Crypto.

(* ===================================================================== *)
(** ** Data model *)
(* ===================================================================== *)

(** What the progress callback receives. *)
Record UploadProgress := mkProgress {
  percent : N;
  loaded : N;
  total : N
}.

(** The value handed to the upload function.  A [File] is a [Blob] with
    a name; anything else ([{}] in the tests) is a plain object whose
    [name], [type] and [size] properties may be missing. *)
Inductive FileArg :=
| IsFile (name type : string) (size : N)
| IsBlob (type : string) (size : N)
| NotBlob (name type : option string) (size : option N).

Definition instanceofBlob (f : FileArg) : bool :=
  match f with
  | IsFile _ _ _ | IsBlob _ _ => true
  | NotBlob _ _ _ => false
  end.

(** Property reads [file.name], [file.type], [file.size]. *)
Definition file_name (f : FileArg) : option string :=
  match f with
  | IsFile n _ _ => Some n
  | IsBlob _ _ => None
  | NotBlob n _ _ => n
  end.

Definition file_type (f : FileArg) : option string :=
  match f with
  | IsFile _ t _ | IsBlob t _ => Some t
  | NotBlob _ t _ => t
  end.

Definition file_size (f : FileArg) : option N :=
  match f with
  | IsFile _ _ s | IsBlob _ s => Some s
  | NotBlob _ _ s => s
  end.

(** The [file] object of the prepare request; [path] only when truthy. *)
Record FileMeta := mkFileMeta {
  meta_name : string;
  meta_type : string;
  meta_size : N;
  meta_path : option string
}.

(** Request bodies, before [JSON.stringify]; an absent optional key is
    [None]. *)
Inductive RequestBody :=
| PrepareBody (file : FileMeta) (signature payload : option string)
| ConfirmBody (confirmToken : option string).

Record RequestInit := mkInit {
  method : string;
  headers : list (string * string);
  body : RequestBody
}.

(** [FormData] entries, in insertion order. *)
Inductive FormValue :=
| FormString (s : string)
| FormFile (f : FileArg).

Definition FormData := list (string * FormValue).

Record RestashError := mkRestashError {
  code : string;
  message : string
}.

(** A parsed JSON response body, restricted to the keys the client or
    its caller reads; a missing key is [None].  [UploadResult] is the
    body with [id], [url], [key], [name], [size] and [contentType]. *)
Record JsonBody := mkJson {
  j_signature : option string;
  j_payload : option string;
  j_url : option string;
  j_fields : option (list (string * string));
  j_confirmToken : option string;
  j_error : option RestashError;
  j_id : option string;
  j_key : option string;
  j_name : option string;
  j_size : option N;
  j_contentType : option string
}.

Definition sigJson (signature payload : option string) : JsonBody :=
  mkJson signature payload None None None None None None None None None.

Definition prepareJson (url : option string)
    (fields : option (list (string * string)))
    (confirmToken : option string) : JsonBody :=
  mkJson None None url fields confirmToken None None None None None None.

Definition resultJson (id url key name : string) (size : N)
    (contentType : string) : JsonBody :=
  mkJson None None (Some url) None None None (Some id) (Some key) (Some name)
         (Some size) (Some contentType).

(** How a [fetch] settles: the promise rejects, or resolves to a
    response with its [ok] flag and its body: what [json()] parses it
    to, or the reason [json()] rejects with when it is not JSON. *)
Inductive FetchOutcome :=
| FetchRejected (reason : string)
| FetchResponse (ok : bool) (body : string + JsonBody).

Definition Response : Type := (bool * (string + JsonBody))%type.

(** A transfer as axios' transport sees it: the progress events, then a
    transport failure or an HTTP response with its status. *)
Record AxiosProgressEvent := mkProgressEvent {
  ev_loaded : N;
  ev_total : option N
}.

Inductive AxiosSettled :=
| AxiosNetworkError (reason : string)
| AxiosHttp (status : Z).

Record AxiosTransfer := mkTransfer {
  progressEvents : list AxiosProgressEvent;
  settled : AxiosSettled
}.

(** Everything outside the program. *)
Record Env := mkEnv {
  fetch : string -> option RequestInit -> FetchOutcome;
  transport : option string -> FormData -> AxiosTransfer;
  entropy : nat -> byte;
  dateNow : Z;
  (** [typeof window !== "undefined"] *)
  windowDefined : bool;
  (** [process.env] *)
  processEnv : string -> option string;
  (** The identifier [nanoid(size)] of ./lib/alphabet draws in this run;
      that module is not part of the source at hand. *)
  nanoid : nat -> string
}.

(** Calls the program makes on its environment, and on the caller's
    progress callback. *)
Inductive Event :=
| EvFetch (url : string) (init : option RequestInit)
| EvAxiosPost (url : option string) (data : FormData)
| EvOnProgress (p : UploadProgress)
| EvDateNow
| EvNanoid (size : nat)
| EvRandomUUID
| EvRandomBytes (n : nat)
| EvCreateHmac (key payload : string).

Inductive JsError := Error (msg : string).

(* ===================================================================== *)
(** ** Computations: a trace of events, then a value or a thrown error *)
(* ===================================================================== *)

Definition Run (A : Type) : Type := (list Event * (JsError + A))%type.

Definition ret {A} (a : A) : Run A := ([], inr a).
Definition throw {A} (m : string) : Run A := ([], inl (Error m)).
Definition emit (e : Event) : Run unit := ([e], inr tt).
Definition emits (es : list Event) : Run unit := (es, inr tt).

Definition bind {A B} (m : Run A) (k : A -> Run B) : Run B :=
  match m with
  | (t, inl e) => (t, inl e)
  | (t, inr a) => let (t', r) := k a in (t ++ t', r)
  end.

Declare Scope run_scope.
Delimit Scope run_scope with run.
Notation "x <- m ;; k" := (bind m (fun x => k))
  (at level 61, m at next level, right associativity) : run_scope.
Notation "m ;; k" := (bind m (fun _ => k))
  (at level 61, right associativity) : run_scope.
Local Open Scope run_scope.

Definition trace {A} (r : Run A) : list Event := fst r.
Definition outcome {A} (r : Run A) : JsError + A := snd r.

Definition rejects_with {A} (r : Run A) (m : string) : Prop :=
  outcome r = inl (Error m).

(** The run throws [m] without having made a single call. *)
Definition rejects_before_any_call {A} (r : Run A) (m : string) : Prop :=
  r = ([], inl (Error m)).

(** The requests a run sent over the network, in order. *)
Definition is_network (e : Event) : bool :=
  match e with
  | EvFetch _ _ | EvAxiosPost _ _ => true
  | _ => false
  end.

Definition network_calls (t : list Event) : list Event := filter is_network t.

(** The values a run handed to the progress callback, in order. *)
Definition reported (t : list Event) : list UploadProgress :=
  flat_map (fun e => match e with EvOnProgress p => [p] | _ => [] end) t.

(* ===================================================================== *)
(** ** The pieces both revisions share *)
(* ===================================================================== *)

(** [({ property, ... }) => ...] applied to [arg]: a destructuring
    parameter throws a TypeError on [undefined] and [null], before the
    body runs (the message is V8's); any other value is read. *)
Definition destructure {A} (property : string) (arg : Js.Arg A) : Run A :=
  match arg with
  | Js.Undefined =>
      throw ("Cannot destructure property '" ++ property
             ++ "' of 'undefined' as it is undefined.")%string
  | Js.Null =>
      throw ("Cannot destructure property '" ++ property
             ++ "' of 'null' as it is null.")%string
  | Js.Object a => ret a
  end.

Definition prepareUrl : string := "https://api.restash.io/v1/uploads/prepare".
Definition confirmUrl : string := "https://api.restash.io/v1/uploads/confirm".

(** [await fetch(url, init)]. *)
Definition await_fetch (env : Env) (url : string) (init : option RequestInit)
  : Run Response :=
  emit (EvFetch url init) ;;
  match fetch env url init with
  | FetchRejected reason => throw reason
  | FetchResponse ok body => ret (ok, body)
  end.

(** [await res.json()]. *)
Definition await_json (res : Response) : Run JsonBody :=
  match snd res with
  | inl reason => throw reason
  | inr json => ret json
  end.

(** [const { error } = await res.json(); throw new Error(error.message)]:
    reading [message] off a missing [error] is a TypeError. *)
Definition throw_error_of {A} (json : JsonBody) : Run A :=
  match j_error json with
  | Some e => throw (message e)
  | None => throw "Cannot read properties of undefined (reading 'message')"
  end.

(** [...(v && { key: v })]: the key is present only for a truthy value. *)
Definition spread_if (v : option string) : option string :=
  if Js.truthy_opt v then v else None.

(** The [onUploadProgress] handler of both revisions; the caller's
    callback is taken to return normally. *)
Definition report (ev : AxiosProgressEvent) : UploadProgress :=
  let loaded := ev_loaded ev in
  let total := ev_total ev in
  let percent := Js.round_div (loaded * 100) (Js.num_or total 1) in
  mkProgress percent loaded (Js.num_or total 1).

Definition onUploadProgress (onProgress : bool) (ev : AxiosProgressEvent)
  : list Event :=
  if onProgress then [EvOnProgress (report ev)] else [].

(** axios' default [validateStatus]. *)
Definition defaultValidateStatus (status : Z) : bool :=
  ((200 <=? status) && (status <? 300))%Z.

(** [await axios.post(url, data, { onUploadProgress, validateStatus })]:
    the progress handler runs on each event; a transport failure
    rejects; a response settles as axios settles it,
    [!status || !validateStatus || validateStatus(status)] resolving
    to the response (its status) and anything else rejecting with
    axios' own error.  Without the option, [validateStatus] is axios'
    default. *)
Definition axios_post (env : Env) (url : option string) (data : FormData)
    (handler : AxiosProgressEvent -> list Event)
    (validateStatus : option (Z -> bool)) : Run Z :=
  emit (EvAxiosPost url data) ;;
  let t := transport env url data in
  emits (flat_map handler (progressEvents t)) ;;
  match settled t with
  | AxiosNetworkError reason => throw reason
  | AxiosHttp status =>
      let validate :=
        match validateStatus with
        | Some v => v
        | None => defaultValidateStatus
        end in
      if (status =? 0)%Z || validate status then ret status
      else throw ("Request failed with status code " ++ Js.string_of_number status)%string
  end.

(** [formData.append("file", file)]: a [Blob] (a [File] too) is stored
    as it is; any other value is stored as its string, which for a
    plain object is "[object Object]". *)
Definition formFileEntry (file : FileArg) : FormValue :=
  if instanceofBlob file then FormFile file else FormString "[object Object]".

(** The form sent to the destination: the returned fields in order,
    then the file under [file]. *)
Definition formDataOf (fields : list (string * string)) (file : FileArg)
  : FormData :=
  map (fun kv => (fst kv, FormString (snd kv))) fields
  ++ [("file", formFileEntry file)].

(** Step 2 of both revisions, "make fetch request to get the signed
    url": the prepare request and the parsed body of an [ok] response. *)
Definition prepareInit (hdrs : list (string * string)) (meta : FileMeta)
    (sp : option string * option string) : RequestInit :=
  mkInit "POST" hdrs (PrepareBody meta (spread_if (fst sp)) (spread_if (snd sp))).

Definition prepare (env : Env) (hdrs : list (string * string)) (meta : FileMeta)
    (sp : option string * option string) : Run JsonBody :=
  res <- await_fetch env prepareUrl (Some (prepareInit hdrs meta sp)) ;;
  if negb (fst res) then json <- await_json res ;; throw_error_of json
  else await_json res.

(** Step 3 of both revisions, "upload the file to s3": the post to the
    destination and the check of its status.  The revisions differ in
    the [validateStatus] they give axios. *)
Definition transfer (env : Env) (url : option string)
    (fields : list (string * string)) (file : FileArg) (onProgress : bool)
    (validateStatus : option (Z -> bool)) : Run unit :=
  status <- axios_post env url (formDataOf fields file)
              (onUploadProgress onProgress) validateStatus ;;
  if ((status <? 200) || (status >=? 300))%Z
  then throw "Failed to upload file"
  else ret tt.

(** Step 4 of both revisions, "confirm the upload": the body of an
    [ok] response is the result, verbatim. *)
Definition confirm (env : Env) (hdrs : list (string * string))
    (confirmToken : option string) : Run JsonBody :=
  res <- await_fetch env confirmUrl
           (Some (mkInit "POST" hdrs (ConfirmBody confirmToken))) ;;
  if negb (fst res) then json <- await_json res ;; throw_error_of json
  else await_json res.

(** What the signature generators return. *)
Record SigPayload := mkSig {
  payload : string;
  signature : string
}.

(** An upload function: the async closure the factory returns. *)
Definition Uploader (Options : Type) : Type :=
  FileArg -> Options -> Env -> Run JsonBody.

(* ===================================================================== *)
(** ** src/index.ts *)
(* ===================================================================== *)

Module IndexTs.

Record UploadOptions := mkOptions {
  path : option string;
  handleSignature : option string;
  (** whether the caller supplied [onProgress]; its calls are traced *)
  onProgress : bool
}.

(** [options = {}] *)
Definition defaultOptions : UploadOptions := mkOptions None None false.

Record FactoryOptions := mkFactoryOptions {
  publicKey : string
}.

(** [const { name, type, size } = file; if (!name || !size || !type)]:
    the three properties when all are present and truthy. *)
Definition validFile (file : FileArg) : option (string * string * N) :=
  match file_name file, file_type file, file_size file with
  | Some name, Some type, Some size =>
      if negb (Js.truthy name) || negb (Js.truthy_num size) || negb (Js.truthy type)
      then None
      else Some (name, type, size)
  | _, _, _ => None
  end.

(** [if (handleSignature) { ... }]: the signature and payload the
    caller's route returned, unchecked. *)
Definition fetchSignature (env : Env) (handleSignature : option string)
  : Run (option string * option string) :=
  match handleSignature with
  | Some hs =>
      if Js.truthy hs then
        res <- await_fetch env hs None ;;
        if negb (fst res) then throw "Failed to get signature"
        else
          sigData <- await_json res ;;
          ret (j_signature sigData, j_payload sigData)
      else ret (None, None)
  | None => ret (None, None)
  end.

(** What follows an [ok] prepare response: its [url], [fields] and
    [confirmToken] are used as they come ([confirmToken] is declared
    optional, [Object.entries] throws on missing [fields]); then the
    transfer, with a [validateStatus] that accepts every status, and
    the confirm step. *)
Definition afterPrepare (env : Env) (hdrs : list (string * string))
    (file : FileArg) (options : UploadOptions) (json : JsonBody)
  : Run JsonBody :=
  let url := j_url json in
  let confirmToken := j_confirmToken json in
  match j_fields json with
  | None => throw "Cannot convert undefined or null to object"
  | Some fields =>
      transfer env url fields file (onProgress options)
               (Some (fun _ => true)) ;;
      confirm env hdrs confirmToken
  end.

(** The async function the factory returns. *)
Definition upload (o : FactoryOptions) : Uploader UploadOptions :=
  fun file options env =>
    if negb (Js.truthy (publicKey o)) then throw "Public key is required"
    else if Js.startsWith (publicKey o) "sk_" then
      throw "Public key is invalid. You are currently using a secret key"
    else
      match validFile file with
      | None => throw "File passed in is invalid"
      | Some (name, type, size) =>
          sp <- fetchSignature env (handleSignature options) ;;
          let hdrs := [("x-public-key", publicKey o)] in
          json <- prepare env hdrs
                    (mkFileMeta name type size (spread_if (path options))) sp ;;
          afterPrepare env hdrs file options json
      end.

(** [({ publicKey }: { publicKey: string }) => { return async ... }] *)
Definition createRestashUploader (arg : Js.Arg FactoryOptions)
  : Run (Uploader UploadOptions) :=
  o <- destructure "publicKey" arg ;;
  ret (upload o).

Definition generateRestashSig (secretKey : string) (env : Env) : Run SigPayload :=
  if negb (Js.truthy secretKey) then throw "Secret key is required"
  else if Js.startsWith secretKey "pk_" then
    throw "Secret key is invalid. You are currently using a public key"
  else if windowDefined env then
    throw "Secret key should not be used in the browser. Please only use it in a server environment."
  else
    emit EvDateNow ;;
    let timestamp := dateNow env in
    emit (EvNanoid 32) ;;
    let requestId := nanoid env 32 in
    let payload := (requestId ++ ":" ++ Js.string_of_number timestamp)%string in
    emit (EvCreateHmac secretKey payload) ;;
    let signature := Crypto.createHmac_sha256_hex secretKey payload in
    ret (mkSig payload signature).

End IndexTs.

(* ===================================================================== *)
(** ** The revision that exports [generateSig] *)
(* ===================================================================== *)

Module Part001.

Record UploadOptions := mkOptions {
  name : option string;
  path : option string;
  (** whether the caller supplied [onProgress]; its calls are traced *)
  onProgress : bool
}.

(** [options = {}] *)
Definition defaultOptions : UploadOptions := mkOptions None None false.

Record RestashUploaderOptions := mkUploaderOptions {
  publicKey : string;
  handleSignature : option string
}.

(** [options.name || (isFile ? file.name : randomBytes(8).toString("hex"))];
    called on a [Blob] only. *)
Definition displayName (env : Env) (file : FileArg) (options : UploadOptions)
  : Run string :=
  let fallback :=
    match file with
    | IsFile n _ _ => ret n
    | _ =>
        emit (EvRandomBytes 8) ;;
        ret (Crypto.hex (Crypto.randomBytes (entropy env) 8))
    end in
  match name options with
  | Some n => if Js.truthy n then ret n else fallback
  | None => fallback
  end.

(** The headers of the prepare and confirm requests: the origin is
    spoofed in test mode. *)
Definition requestHeaders (env : Env) (publicKey : string)
  : list (string * string) :=
  ("x-public-key", publicKey) ::
  match processEnv env "NODE_ENV", processEnv env "SPOOFED_ORIGIN" with
  | Some mode, Some origin =>
      if String.eqb mode "test" && Js.truthy origin then [("origin", origin)]
      else []
  | _, _ => []
  end.

(** [if (handleSignature) { ... }]: both values must be truthy. *)
Definition fetchSignature (env : Env) (handleSignature : option string)
  : Run (option string * option string) :=
  match handleSignature with
  | Some hs =>
      if Js.truthy hs then
        res <- await_fetch env hs None ;;
        if negb (fst res) then throw "Failed to get signature"
        else
          sigData <- await_json res ;;
          let signature := j_signature sigData in
          let payload := j_payload sigData in
          if negb (Js.truthy_opt signature) then
            throw "Your signature endpoint did not return a valid signature"
          else if negb (Js.truthy_opt payload) then
            throw "Your signature endpoint did not return a valid payload"
          else ret (signature, payload)
      else ret (None, None)
  | None => ret (None, None)
  end.

(** What follows an [ok] prepare response: [url], [fields] and
    [confirmToken] must all be truthy (an object is, whenever present);
    then the transfer, with axios' default [validateStatus], and the
    confirm step. *)
Definition afterPrepare (env : Env) (hdrs : list (string * string))
    (file : FileArg) (options : UploadOptions) (json : JsonBody)
  : Run JsonBody :=
  let url := j_url json in
  let confirmToken := j_confirmToken json in
  match j_fields json with
  | Some fields =>
      if negb (Js.truthy_opt url) || negb (Js.truthy_opt confirmToken)
      then throw "Invalid response from prepare upload"
      else
        transfer env url fields file (onProgress options) None ;;
        confirm env hdrs confirmToken
  | None => throw "Invalid response from prepare upload"
  end.

(** The async function the factory returns. *)
Definition upload (o : RestashUploaderOptions) : Uploader UploadOptions :=
  fun file options env =>
    if negb (Js.truthy (publicKey o)) then throw "Public key is required"
    else if Js.startsWith (publicKey o) "sk_" then
      throw "Public key is invalid. You are currently using a secret key"
    else
      match file with
      | NotBlob _ _ _ =>
          throw "Invalid file passed in. Please pass in a File or Blob"
      | IsFile _ type size | IsBlob type size =>
          name <- displayName env file options ;;
          let hdrs := requestHeaders env (publicKey o) in
          sp <- fetchSignature env (handleSignature o) ;;
          json <- prepare env hdrs
                    (mkFileMeta name type size (spread_if (path options))) sp ;;
          afterPrepare env hdrs file options json
      end.

(** [({ publicKey, handleSignature }: RestashUploaderOptions) =>
    { return async ... }] *)
Definition createRestashUploader (arg : Js.Arg RestashUploaderOptions)
  : Run (Uploader UploadOptions) :=
  o <- destructure "publicKey" arg ;;
  ret (upload o).

Definition generateSig (secretKey : string) (env : Env) : Run SigPayload :=
  if negb (Js.truthy secretKey) then throw "Secret key is required"
  else if Js.startsWith secretKey "pk_" then
    throw "Secret key is invalid. You are currently using a public key"
  else if windowDefined env then
    throw "Secret key should not be used in the browser. Please only use it in a server environment."
  else
    emit EvDateNow ;;
    let timestamp := dateNow env in
    emit EvRandomUUID ;;
    let requestId := Crypto.randomUUID (entropy env) in
    let payload := (requestId ++ ":" ++ Js.string_of_number timestamp)%string in
    emit (EvCreateHmac secretKey payload) ;;
    let signature := Crypto.createHmac_sha256_hex secretKey payload in
    ret (mkSig payload signature).

End Part001.

(* ===================================================================== *)
(** ** Concrete scenarios, after the repository's tests *)
(* ===================================================================== *)

Module Scenario.

(** [new File(["test"], "test.txt", { type: "text/plain" })] *)
Definition testFile : FileArg := IsFile "test.txt" "text/plain" 4%N.

(** [new Blob(["test"], { type: "text/plain" })] *)
Definition testBlob : FileArg := IsBlob "text/plain" 4%N.

Definition goodSignature : FetchOutcome :=
  FetchResponse true (inr (sigJson (Some "c0ffee") (Some "id:1700000000000"))).

(** [{ signature: "", payload: "123" }] *)
Definition emptySignature : FetchOutcome :=
  FetchResponse true (inr (sigJson (Some "") (Some "123"))).

Definition goodPrepare : FetchOutcome :=
  FetchResponse true
    (inr (prepareJson (Some "https://bucket.example/upload")
                      (Some [("key", "uploads/test.txt")]) (Some "tok_1"))).

(** [{ url: "my-url", fields: { key: "test" }, confirmToken: "" }] *)
Definition emptyTokenPrepare : FetchOutcome :=
  FetchResponse true
    (inr (prepareJson (Some "my-url") (Some [("key", "test")]) (Some ""))).

Definition goodConfirm : FetchOutcome :=
  FetchResponse true
    (inr (resultJson "file_1" "https://cdn.example/uploads/test.txt"
                     "uploads/test.txt" "test.txt" 4%N "text/plain")).

Definition goodTransfer : AxiosTransfer :=
  mkTransfer [mkProgressEvent 2%N (Some 4%N); mkProgressEvent 4%N (Some 4%N)]
             (AxiosHttp 204%Z).

(** The destination answers 403 Forbidden. *)
Definition forbiddenTransfer : AxiosTransfer :=
  mkTransfer [mkProgressEvent 4%N (Some 4%N)] (AxiosHttp 403%Z).

(** Five bytes sent, total length not computable. *)
Definition unknownTotalTransfer : AxiosTransfer :=
  mkTransfer [mkProgressEvent 5%N None] (AxiosHttp 204%Z).

(** An environment that answers the signature route, the prepare
    endpoint, the destination and the confirm endpoint as given;
    a server context with a fixed clock and entropy stream. *)
Definition scenario (sig prep : FetchOutcome) (xfer : AxiosTransfer)
    (conf : FetchOutcome) : Env :=
  mkEnv
    (fun url _ =>
       if String.eqb url prepareUrl then prep
       else if String.eqb url confirmUrl then conf
       else sig)
    (fun _ _ => xfer)
    (fun i => Crypto.byte_of_N (N.of_nat (17 * i + 3)))
    1700000000000%Z
    false
    (fun _ => None)
    (fun size => string_of_list_ascii (repeat "A"%char size)).

Definition happy : Env := scenario goodSignature goodPrepare goodTransfer goodConfirm.

(** The prepare endpoint returns an empty confirmation token. *)
Definition missingToken : Env :=
  scenario goodSignature emptyTokenPrepare goodTransfer goodConfirm.

(** The caller's route returns an empty signature. *)
Definition badSignature : Env :=
  scenario emptySignature goodPrepare goodTransfer goodConfirm.

Definition forbidden : Env :=
  scenario goodSignature goodPrepare forbiddenTransfer goodConfirm.

Definition unknownTotal : Env :=
  scenario goodSignature goodPrepare unknownTotalTransfer goodConfirm.

(** The prepare request for [testFile] under the key "pk_123", without
    and with what the signature route returned. *)
Definition testPrepare : RequestInit :=
  prepareInit [("x-public-key", "pk_123")]
    (mkFileMeta "test.txt" "text/plain" 4%N None) (None, None).

Definition testPrepareSigned (signature : option string) : RequestInit :=
  prepareInit [("x-public-key", "pk_123")]
    (mkFileMeta "test.txt" "text/plain" 4%N None) (signature, Some "123").

Definition testForm (file : FileArg) : FormData :=
  [("key", FormString "uploads/test.txt"); ("file", FormFile file)].

(** The same environment seen from a browser. *)
Definition inBrowser (env : Env) : Env :=
  mkEnv (fetch env) (transport env) (entropy env) (dateNow env) true
        (processEnv env) (nanoid env).

End Scenario.

(** Answers that end an upload early. *)
Module Refusal.

Definition errorJson (code message : string) : JsonBody :=
  mkJson None None None None None (Some (mkRestashError code message))
         None None None None None.

(** 401 from the prepare endpoint. *)
Definition refusedPrepare : FetchOutcome :=
  FetchResponse false (inr (errorJson "unauthorized" "Invalid public key")).

(** An [ok] prepare response without a url. *)
Definition urllessPrepare : FetchOutcome :=
  FetchResponse true
    (inr (prepareJson None (Some [("key", "test")]) (Some "tok_1"))).

(** The caller's signature route answers 500 with an HTML page. *)
Definition signatureDown : FetchOutcome :=
  FetchResponse false (inl "Unexpected token '<'").

(** [{ signature: "c0ffee" }] *)
Definition signatureOnly : FetchOutcome :=
  FetchResponse true (inr (sigJson (Some "c0ffee") None)).

Definition prepareRefused : Env :=
  Scenario.scenario Scenario.goodSignature refusedPrepare Scenario.goodTransfer
                    Scenario.goodConfirm.

Definition prepareWithoutUrl : Env :=
  Scenario.scenario Scenario.goodSignature urllessPrepare Scenario.goodTransfer
                    Scenario.goodConfirm.

Definition routeDown : Env :=
  Scenario.scenario signatureDown Scenario.goodPrepare Scenario.goodTransfer
                    Scenario.goodConfirm.

Definition routeWithoutPayload : Env :=
  Scenario.scenario signatureOnly Scenario.goodPrepare Scenario.goodTransfer
                    Scenario.goodConfirm.

(** The connection to the destination drops half way. *)
Definition lostTransfer : AxiosTransfer :=
  mkTransfer [mkProgressEvent 2%N (Some 4%N)] (AxiosNetworkError "Network Error").

Definition connectionLost : Env :=
  Scenario.scenario Scenario.goodSignature Scenario.goodPrepare lostTransfer
                    Scenario.goodConfirm.

(** Test mode with a spoofed origin. *)
Definition testMode (env : Env) : Env :=
  mkEnv (fetch env) (transport env) (entropy env) (dateNow env)
        (windowDefined env)
        (fun k => if String.eqb k "NODE_ENV" then Some "test"
                  else if String.eqb k "SPOOFED_ORIGIN" then Some "https://app.example"
                  else None)
        (nanoid env).

End Refusal.

(* ===================================================================== *)
(** ** The order of the protocol *)
(* ===================================================================== *)




(* ===================================================================== *)
(** ** Known answers for the primitives *)
(* ===================================================================== *)

(** The first and last round constants and the initial hash value, as
    FIPS 180-4 prints them. *)
Example K256_ends :
  length Crypto.K256 = 64 /\
  hd 0%N Crypto.K256 = 0x428a2f98%N /\ last Crypto.K256 0%N = 0xc67178f2%N.
Proof. vm_compute. repeat split. Qed.

Example H256_init_value :
  Crypto.digest_bytes Crypto.H256_init
  = [x6a; x09; xe6; x67; xbb; x67; xae; x85; x3c; x6e; xf3; x72; xa5; x4f;
     xf5; x3a; x51; x0e; x52; x7f; x9b; x05; x68; x8c; x1f; x83; xd9; xab;
     x5b; xe0; xcd; x19].
Proof. vm_compute. reflexivity. Qed.

(** FIPS 180-4 examples. *)
Example sha256_abc :
  Crypto.hex (Crypto.sha256 (list_byte_of_string "abc"))
  = "ba7816bf8f01cfea414140de5dae2223b00361a396177a9cb410ff61f20015ad".
Proof. vm_compute. reflexivity. Qed.

Example sha256_empty :
  Crypto.hex (Crypto.sha256 [])
  = "e3b0c44298fc1c149afbf4c8996fb92427ae41e4649b934ca495991b7852b855".
Proof. vm_compute. reflexivity. Qed.

Example sha256_two_blocks :
  Crypto.hex (Crypto.sha256 (list_byte_of_string
     "abcdbcdecdefdefgefghfghighijhijkijkljklmklmnlmnomnopnopq"))
  = "248d6a61d20638b8e5c026930c3e6039a33ce45964ff2167f6ecedd419db06c1".
Proof. vm_compute. reflexivity. Qed.

(** RFC 4231, test case 2. *)
Example hmac_sha256_jefe :
  Crypto.createHmac_sha256_hex "Jefe" "what do ya want for nothing?"
  = "5bdcc146bf60754e6a042426089575c75a003f089d2739839dec58b964ec3843".
Proof. vm_compute. reflexivity. Qed.

(** RFC 4231, test case 6: a key longer than the block is hashed first. *)
Example hmac_sha256_long_key :
  Crypto.hex (Crypto.hmac_sha256 (repeat xaa 131)
    (list_byte_of_string "Test Using Larger Than Block-Size Key - Hash Key First"))
  = "60e431591ee0b67f0d8a26aacbf5b77f8e0bc6213728c5140546040f0ee37f54".
Proof. vm_compute. reflexivity. Qed.

Example randomUUID_zero_entropy :
  Crypto.randomUUID (fun _ => x00) = "00000000-0000-4000-8000-000000000000".
Proof. vm_compute. reflexivity. Qed.

Example randomUUID_ones_entropy :
  Crypto.randomUUID (fun _ => xff) = "ffffffff-ffff-4fff-bfff-ffffffffffff".
Proof. vm_compute. reflexivity. Qed.

Example string_of_number_now :
  Js.string_of_number 1700000000000 = "1700000000000".
Proof. vm_compute. reflexivity. Qed.

Example string_of_number_zero : Js.string_of_number 0 = "0".
Proof. vm_compute. reflexivity. Qed.

Example split_payload : Js.split ":" "ab:12" = ["ab"; "12"].
Proof. vm_compute. reflexivity. Qed.

Example split_edges : Js.split ":" ":a:" = [""; "a"; ""].
Proof. vm_compute. reflexivity. Qed.

(** The signature of the scenario's payload under "sk_123". *)
Example generateSig_scenario :
  outcome (Part001.generateSig "sk_123" Scenario.happy)
  = inr (mkSig "03142536-4758-497a-8b9c-adbecfe0f102:1700000000000"
               "d059e41946729b7d052d4fb5dffbe6d0502d9640e423657e59ef0d1375f59bf3").
Proof. vm_compute. reflexivity. Qed.

(** [Math.round] on quotients: 12.5 rounds up, 33.33 down, 66.67 up. *)
(** The exact reading and the doubles of the source: the same on the
    progress events of the scenarios, one apart on a transfer of 64
    terabytes. *)
Example percent_double_examples :
  Js.percent_double 5 1 = Js.round_div (5 * 100) 1 /\
  Js.percent_double 2 4 = Js.round_div (2 * 100) 4 /\
  Js.percent_double 1 3 = Js.round_div (1 * 100) 3 /\
  Js.percent_double 63683713480928 70368744177821 = 91%N /\
  Js.round_div (63683713480928 * 100) 70368744177821 = 90%N.
Proof. vm_compute. repeat split. Qed.

Example round_div_examples :
  Js.round_div 100 8 = 13%N /\ Js.round_div 100 3 = 33%N /\ Js.round_div 200 3 = 67%N.
Proof. vm_compute. repeat split. Qed.

(** The test suite's happy path: a 4-byte text file is stored under its
    own name. *)
Example upload_test_file :
  outcome (Part001.upload (Part001.mkUploaderOptions "pk_123" None)
             Scenario.testFile Part001.defaultOptions Scenario.happy)
  = inr (resultJson "file_1" "https://cdn.example/uploads/test.txt"
                    "uploads/test.txt" "test.txt" 4 "text/plain").
Proof. vm_compute. reflexivity. Qed.

(* ===================================================================== *)
(** ** Traces and outcomes of composed runs *)
(* ===================================================================== *)

Lemma bind_trace {A B} (m : Run A) (k : A -> Run B) :
  trace (bind m k)
  = trace m ++ match outcome m with
               | inl _ => []
               | inr a => trace (k a)
               end.
Proof.
  destruct m as [t [e|a]]; simpl.
  - now rewrite app_nil_r.
  - destruct (k a); reflexivity.
Qed.

Lemma bind_outcome {A B} (m : Run A) (k : A -> Run B) :
  outcome (bind m k)
  = match outcome m with
    | inl e => inl e
    | inr a => outcome (k a)
    end.
Proof.
  destruct m as [t [e|a]]; simpl; [reflexivity|].
  destruct (k a); reflexivity.
Qed.

Lemma await_fetch_trace env url init :
  trace (await_fetch env url init) = [EvFetch url init].
Proof.
  unfold await_fetch. rewrite bind_trace. simpl.
  destruct (fetch env url init); reflexivity.
Qed.

Lemma await_fetch_outcome env url init :
  outcome (await_fetch env url init)
  = match fetch env url init with
    | FetchRejected reason => inl (Error reason)
    | FetchResponse ok body => inr (ok, body)
    end.
Proof.
  unfold await_fetch. rewrite bind_outcome. simpl.
  destruct (fetch env url init); reflexivity.
Qed.

Lemma await_json_run (res : Response) :
  await_json res
  = ([], match snd res with
         | inl reason => inl (Error reason)
         | inr json => inr json
         end).
Proof. unfold await_json. destruct (snd res); reflexivity. Qed.

(** A [File] always has a display name, and no random draw is needed. *)
Lemma displayName_file env n t s o :
  exists nm, Part001.displayName env (IsFile n t s) o = ([], inr nm).
Proof.
  unfold Part001.displayName.
  destruct (Part001.name o) as [nm|]; [destruct (Js.truthy nm)|];
    eexists; reflexivity.
Qed.

Lemma truthy_of_nonempty (s : string) : s <> "" -> Js.truthy s = true.
Proof. destruct s; [congruence | reflexivity]. Qed.

(* ===================================================================== *)
(** ** The protocol steps, one by one *)
(* ===================================================================== *)

Lemma throw_error_of_run {A} (json : JsonBody) :
  exists m, @throw_error_of A json = ([], inl (Error m)).
Proof.
  unfold throw_error_of. destruct (j_error json); eexists; reflexivity.
Qed.

(** An [ok] flag and a body, read as the prepare and confirm steps
    read them. *)
Lemma read_body_run (ok : bool) (body : string + JsonBody) :
  (if negb (fst (ok, body))
   then json <- await_json (ok, body) ;; throw_error_of json
   else await_json (ok, body))
  = ([], match body with
         | inl reason => inl (Error reason)
         | inr json => if ok then inr json
                       else outcome (@throw_error_of JsonBody json)
         end).
Proof.
  cbn [fst]. rewrite await_json_run. cbn [snd].
  destruct ok, body as [reason | json]; cbn [negb]; try reflexivity.
  destruct (@throw_error_of_run JsonBody json) as [m Hm].
  unfold bind. rewrite Hm. reflexivity.
Qed.

Lemma prepare_trace env hdrs meta sp :
  trace (prepare env hdrs meta sp)
  = [EvFetch prepareUrl (Some (prepareInit hdrs meta sp))].
Proof.
  unfold prepare. rewrite bind_trace, await_fetch_trace, await_fetch_outcome.
  destruct (fetch env prepareUrl _) as [r | ok body]; [reflexivity|].
  now rewrite read_body_run.
Qed.

(** The prepare step yields a body exactly on an [ok] response with a
    JSON body. *)
Lemma prepare_outcome env hdrs meta sp :
  outcome (prepare env hdrs meta sp)
  = match fetch env prepareUrl (Some (prepareInit hdrs meta sp)) with
    | FetchRejected reason => inl (Error reason)
    | FetchResponse _ (inl reason) => inl (Error reason)
    | FetchResponse true (inr json) => inr json
    | FetchResponse false (inr json) => outcome (@throw_error_of JsonBody json)
    end.
Proof.
  unfold prepare. rewrite bind_outcome, await_fetch_outcome.
  destruct (fetch env prepareUrl _) as [r | ok body]; [reflexivity|].
  rewrite read_body_run. destruct ok, body; reflexivity.
Qed.

Lemma confirm_trace env hdrs tok :
  trace (confirm env hdrs tok)
  = [EvFetch confirmUrl (Some (mkInit "POST" hdrs (ConfirmBody tok)))].
Proof.
  unfold confirm. rewrite bind_trace, await_fetch_trace, await_fetch_outcome.
  destruct (fetch env confirmUrl _) as [r | ok body]; [reflexivity|].
  now rewrite read_body_run.
Qed.

Lemma axios_post_trace env url data handler validateStatus :
  trace (axios_post env url data handler validateStatus)
  = EvAxiosPost url data
      :: flat_map handler (progressEvents (transport env url data)).
Proof.
  unfold axios_post. rewrite !bind_trace. cbn [emit emits trace outcome fst snd].
  destruct (settled (transport env url data)) as [r | status].
  - cbn. now rewrite app_nil_r.
  - destruct ((status =? 0)%Z
              || match validateStatus with Some v => v | None => _ end status);
      cbn; now rewrite app_nil_r.
Qed.

Lemma axios_post_outcome env url data handler validateStatus :
  outcome (axios_post env url data handler validateStatus)
  = match settled (transport env url data) with
    | AxiosNetworkError reason => inl (Error reason)
    | AxiosHttp status =>
        if (status =? 0)%Z
           || match validateStatus with
              | Some v => v
              | None => defaultValidateStatus
              end status
        then inr status
        else inl (Error ("Request failed with status code "
                           ++ Js.string_of_number status))
    end.
Proof.
  unfold axios_post. rewrite !bind_outcome. cbn [emit emits trace outcome fst snd].
  destruct (settled (transport env url data)) as [r | status]; [reflexivity|].
  destruct ((status =? 0)%Z
            || match validateStatus with Some v => v | None => _ end status);
    reflexivity.
Qed.

Lemma transfer_trace env url fields file onProgress validateStatus :
  trace (transfer env url fields file onProgress validateStatus)
  = EvAxiosPost url (formDataOf fields file)
      :: flat_map (onUploadProgress onProgress)
           (progressEvents (transport env url (formDataOf fields file))).
Proof.
  unfold transfer. rewrite bind_trace, axios_post_trace.
  destruct (outcome (axios_post _ _ _ _ _)) as [e | status].
  - now rewrite app_nil_r.
  - destruct ((status <? 200)%Z || (status >=? 300)%Z); cbn; now rewrite app_nil_r.
Qed.

Lemma transfer_outcome env url fields file onProgress validateStatus :
  outcome (transfer env url fields file onProgress validateStatus)
  = match outcome (axios_post env url (formDataOf fields file)
                     (onUploadProgress onProgress) validateStatus) with
    | inl e => inl e
    | inr status =>
        if ((status <? 200) || (status >=? 300))%Z
        then inl (Error "Failed to upload file")
        else inr tt
    end.
Proof.
  unfold transfer. rewrite bind_outcome.
  destruct (outcome (axios_post _ _ _ _ _)) as [e | status]; [reflexivity|].
  destruct ((status <? 200)%Z || (status >=? 300)%Z); reflexivity.
Qed.

(** The signature step of the [generateSig] revision: no call without
    a route; with one, a single fetch, and a pair only when both values
    are truthy. *)
Lemma part001_fetchSignature_cases env hso :
  (Js.truthy_opt hso = false /\
   Part001.fetchSignature env hso = ([], inr (None, None))) \/
  (exists hs, hso = Some hs /\ Js.truthy hs = true /\
     trace (Part001.fetchSignature env hso) = [EvFetch hs None] /\
     outcome (Part001.fetchSignature env hso)
     = match fetch env hs None with
       | FetchRejected reason => inl (Error reason)
       | FetchResponse false _ => inl (Error "Failed to get signature")
       | FetchResponse true (inl reason) => inl (Error reason)
       | FetchResponse true (inr json) =>
           if negb (Js.truthy_opt (j_signature json)) then
             inl (Error "Your signature endpoint did not return a valid signature")
           else if negb (Js.truthy_opt (j_payload json)) then
             inl (Error "Your signature endpoint did not return a valid payload")
           else inr (j_signature json, j_payload json)
       end).
Proof.
  destruct hso as [hs|]; [|left; split; reflexivity].
  destruct (Js.truthy hs) eqn:Ht.
  - right. exists hs. repeat split; [assumption| |].
    + unfold Part001.fetchSignature. rewrite Ht, bind_trace, await_fetch_trace,
        await_fetch_outcome.
      destruct (fetch env hs None) as [r | ok body]; [reflexivity|].
      cbn [fst snd]. destruct ok; cbn [negb]; [|reflexivity].
      rewrite await_json_run. cbn [snd]. destruct body as [reason | json];
        [reflexivity|].
      unfold bind.
      destruct (Js.truthy_opt (j_signature json)); [|reflexivity].
      destruct (Js.truthy_opt (j_payload json)); reflexivity.
    + unfold Part001.fetchSignature. rewrite Ht, bind_outcome, await_fetch_outcome.
      destruct (fetch env hs None) as [r | ok body]; [reflexivity|].
      cbn [fst snd]. destruct ok; cbn [negb]; [|reflexivity].
      rewrite await_json_run. cbn [snd]. destruct body as [reason | json];
        [reflexivity|].
      unfold bind.
      destruct (Js.truthy_opt (j_signature json)); [|reflexivity].
      destruct (Js.truthy_opt (j_payload json)); reflexivity.
  - left. split; [exact Ht|]. unfold Part001.fetchSignature. now rewrite Ht.
Qed.

(** The signature step of src/index.ts: the two values are passed on
    as they come. *)
Lemma index_ts_fetchSignature_cases env hso :
  (Js.truthy_opt hso = false /\
   IndexTs.fetchSignature env hso = ([], inr (None, None))) \/
  (exists hs, hso = Some hs /\ Js.truthy hs = true /\
     trace (IndexTs.fetchSignature env hso) = [EvFetch hs None] /\
     outcome (IndexTs.fetchSignature env hso)
     = match fetch env hs None with
       | FetchRejected reason => inl (Error reason)
       | FetchResponse false _ => inl (Error "Failed to get signature")
       | FetchResponse true (inl reason) => inl (Error reason)
       | FetchResponse true (inr json) => inr (j_signature json, j_payload json)
       end).
Proof.
  destruct hso as [hs|]; [|left; split; reflexivity].
  destruct (Js.truthy hs) eqn:Ht.
  - right. exists hs. repeat split; [assumption| |].
    + unfold IndexTs.fetchSignature. rewrite Ht, bind_trace, await_fetch_trace,
        await_fetch_outcome.
      destruct (fetch env hs None) as [r | ok body]; [reflexivity|].
      cbn [fst snd]. destruct ok; cbn [negb]; [|reflexivity].
      rewrite await_json_run. cbn [snd]. destruct body; reflexivity.
    + unfold IndexTs.fetchSignature. rewrite Ht, bind_outcome, await_fetch_outcome.
      destruct (fetch env hs None) as [r | ok body]; [reflexivity|].
      cbn [fst snd]. destruct ok; cbn [negb]; [|reflexivity].
      rewrite await_json_run. cbn [snd]. destruct body; reflexivity.
  - left. split; [exact Ht|]. unfold IndexTs.fetchSignature. now rewrite Ht.
Qed.

(** The display name: the option when truthy, else the file's name, else
    16 hex digits off 8 random bytes. *)
Lemma displayName_cases env file options :
  (exists n, Part001.name options = Some n /\ Js.truthy n = true /\
     Part001.displayName env file options = ([], inr n)) \/
  (Js.truthy_opt (Part001.name options) = false /\
   match file with
   | IsFile n _ _ => Part001.displayName env file options = ([], inr n)
   | _ => Part001.displayName env file options
          = ([EvRandomBytes 8],
             inr (Crypto.hex (Crypto.randomBytes (entropy env) 8)))
   end).
Proof.
  unfold Part001.displayName.
  destruct (Part001.name options) as [n|]; cbn [Js.truthy_opt].
  - destruct (Js.truthy n) eqn:Ht.
    + left. exists n. auto.
    + right. split; [reflexivity|]. destruct file; reflexivity.
  - right. split; [reflexivity|]. destruct file; reflexivity.
Qed.

Lemma bind_run {A B} (m : Run A) (k : A -> Run B) :
  bind m k
  = (trace m ++ match outcome m with inl _ => [] | inr a => trace (k a) end,
     match outcome m with inl e => inl e | inr a => outcome (k a) end).
Proof.
  rewrite <- bind_trace, <- bind_outcome. destruct (bind m k); reflexivity.
Qed.

Lemma displayName_run env file options :
  exists tn nm,
    Part001.displayName env file options = (tn, inr nm) /\
    (tn = [] \/ tn = [EvRandomBytes 8]).
Proof.
  destruct (displayName_cases env file options) as [(n & _ & _ & H) | [_ H]].
  - eexists _, _. split; [exact H | now left].
  - destruct file; eexists _, _; (split; [exact H | (now left) || (now right)]).
Qed.

(** Events of the transfer and confirm steps. *)
Lemma transfer_events env url fields file onProgress validateStatus e :
  In e (trace (transfer env url fields file onProgress validateStatus)) ->
  e = EvAxiosPost url (formDataOf fields file) \/
  exists ev,
    In ev (progressEvents (transport env url (formDataOf fields file))) /\
    onProgress = true /\ e = EvOnProgress (report ev).
Proof.
  rewrite transfer_trace. intros [<- | Hin]; [now left | right].
  apply in_flat_map in Hin. destruct Hin as (ev & Hev & He).
  unfold onUploadProgress in He. destruct onProgress; [|destruct He].
  destruct He as [<- | []]. exists ev. auto.
Qed.

Lemma part001_afterPrepare_events env hdrs file options json e :
  In e (trace (Part001.afterPrepare env hdrs file options json)) ->
  (exists url data, e = EvAxiosPost url data) \/
  (exists ev, e = EvOnProgress (report ev)) \/
  (exists init, e = EvFetch confirmUrl (Some init)).
Proof.
  unfold Part001.afterPrepare.
  destruct (j_fields json) as [fields|]; [|intros []].
  destruct (negb _ || negb _); [intros []|].
  rewrite bind_trace. intros Hin. apply in_app_or in Hin. destruct Hin as [Hin | Hin].
  - apply transfer_events in Hin. destruct Hin as [-> | (ev & _ & _ & ->)]; eauto.
  - destruct (outcome (transfer _ _ _ _ _ _)); [destruct Hin|].
    rewrite confirm_trace in Hin. destruct Hin as [<- | []]. eauto.
Qed.

Lemma index_ts_afterPrepare_events env hdrs file options json e :
  In e (trace (IndexTs.afterPrepare env hdrs file options json)) ->
  (exists url data, e = EvAxiosPost url data) \/
  (exists ev, e = EvOnProgress (report ev)) \/
  (exists init, e = EvFetch confirmUrl (Some init)).
Proof.
  unfold IndexTs.afterPrepare.
  destruct (j_fields json) as [fields|]; [|intros []].
  rewrite bind_trace. intros Hin. apply in_app_or in Hin. destruct Hin as [Hin | Hin].
  - apply transfer_events in Hin. destruct Hin as [-> | (ev & _ & _ & ->)]; eauto.
  - destruct (outcome (transfer _ _ _ _ _ _)); [destruct Hin|].
    rewrite confirm_trace in Hin. destruct Hin as [<- | []]. eauto.
Qed.

(** The run of the [generateSig] revision around its prepare request: what
    came before is the random draw and the signature fetch at most, and
    what comes after is decided by the response. *)
Lemma part001_prepare_inv o file options env init :
  In (EvFetch prepareUrl (Some init)) (trace (Part001.upload o file options env)) ->
  exists pre,
    (forall e, In e pre -> e = EvRandomBytes 8 \/ exists hs, e = EvFetch hs None) /\
    Part001.upload o file options env
    = (emits (pre ++ [EvFetch prepareUrl (Some init)]) ;;
       match fetch env prepareUrl (Some init) with
       | FetchRejected reason => throw reason
       | FetchResponse _ (inl reason) => throw reason
       | FetchResponse true (inr json) =>
           Part001.afterPrepare env
             (Part001.requestHeaders env (Part001.publicKey o)) file options json
       | FetchResponse false (inr json) => throw_error_of json
       end).
Proof.
  unfold Part001.upload.
  destruct (negb (Js.truthy (Part001.publicKey o))); [intros []|].
  destruct (Js.startsWith (Part001.publicKey o) "sk_"); [intros []|].
  set (hdrs := Part001.requestHeaders env (Part001.publicKey o)).
  assert (Hgen : forall type size,
    let r := (name <- Part001.displayName env file options ;;
              sp <- Part001.fetchSignature env (Part001.handleSignature o) ;;
              json <- prepare env hdrs
                (mkFileMeta name type size (spread_if (Part001.path options))) sp ;;
              Part001.afterPrepare env hdrs file options json) in
    In (EvFetch prepareUrl (Some init)) (trace r) ->
    exists pre,
      (forall e, In e pre -> e = EvRandomBytes 8 \/ exists hs, e = EvFetch hs None) /\
      r = (emits (pre ++ [EvFetch prepareUrl (Some init)]) ;;
           match fetch env prepareUrl (Some init) with
           | FetchRejected reason => throw reason
           | FetchResponse _ (inl reason) => throw reason
           | FetchResponse true (inr json) =>
               Part001.afterPrepare env hdrs file options json
           | FetchResponse false (inr json) => throw_error_of json
           end)).
  { intros type size r Hin. subst r.
    destruct (displayName_run env file options) as (tn & nm & Hn & Htn).
    rewrite Hn in *. rewrite bind_run in *. cbn [trace outcome fst snd] in *.
    set (meta := mkFileMeta nm type size (spread_if (Part001.path options))) in *.
    rewrite bind_run in *. cbn [trace outcome fst snd] in *.
    destruct (outcome (Part001.fetchSignature env (Part001.handleSignature o)))
      as [err | sp] eqn:Hso.
    - (* the signature step failed: no prepare request was sent *)
      exfalso. rewrite app_nil_r in Hin. apply in_app_or in Hin.
      destruct Hin as [Hin | Hin].
      + destruct Htn as [-> | ->]; [destruct Hin | destruct Hin as [Hin | []]; discriminate].
      + destruct (part001_fetchSignature_cases env (Part001.handleSignature o))
          as [[_ Hs] | (hs & _ & _ & Hst & _)].
        * rewrite Hs in Hin. destruct Hin.
        * rewrite Hst in Hin. destruct Hin as [Hin | []]; discriminate.
    - rewrite bind_run in *. rewrite prepare_trace, prepare_outcome in *.
      cbn [trace outcome fst snd] in *.
      assert (Hpre : forall e,
                In e (tn ++ trace (Part001.fetchSignature env (Part001.handleSignature o))) ->
                e = EvRandomBytes 8 \/ exists hs, e = EvFetch hs None).
      { intros e He. apply in_app_or in He. destruct He as [He | He].
        - destruct Htn as [-> | ->]; [destruct He | destruct He as [<- | []]; now left].
        - destruct (part001_fetchSignature_cases env (Part001.handleSignature o))
            as [[_ Hs] | (hs & _ & _ & Hst & _)].
          + rewrite Hs in He. destruct He.
          + rewrite Hst in He. destruct He as [<- | []]. right. eauto. }
      assert (Hinit : prepareInit hdrs meta sp = init).
      { apply in_app_or in Hin. destruct Hin as [Hin | Hin].
        - destruct Htn as [-> | ->]; [destruct Hin | destruct Hin as [Hin | []]; discriminate].
        - apply in_app_or in Hin. destruct Hin as [Hin | Hin].
          + apply (fun H => Hpre _ (in_or_app tn _ _ (or_intror H))) in Hin.
            destruct Hin as [Hin | (hs & Hin)]; discriminate.
          + destruct Hin as [Hin | Hin]; [congruence|].
            exfalso.
            destruct (fetch env prepareUrl (Some (prepareInit hdrs meta sp)))
              as [r | [|] [reason | json]]; cbn in Hin; try (destruct Hin; fail).
            * apply part001_afterPrepare_events in Hin.
              destruct Hin as [(u & d & Hin) | [(ev & Hin) | (i & Hin)]];
                try discriminate.
            * destruct (@throw_error_of_run JsonBody json) as [m Hm].
              rewrite Hm in Hin. destruct Hin. }
      rewrite Hinit in *.
      exists (tn ++ trace (Part001.fetchSignature env (Part001.handleSignature o))).
      split; [exact Hpre|].
      rewrite bind_run. cbn [emits trace outcome fst snd].
      rewrite <- !app_assoc. cbn [app].
      destruct (fetch env prepareUrl (Some init)) as [r | [|] [reason | json]];
        try reflexivity.
      destruct (@throw_error_of_run JsonBody json) as [m ->]. reflexivity. }
  destruct file as [n type size | type size | n t s]; [apply Hgen | apply Hgen | intros []].
Qed.

(** Without a confirmation token the [generateSig] revision stops at once. *)
Lemma part001_afterPrepare_no_token env hdrs file options json :
  Js.truthy_opt (j_confirmToken json) = false ->
  Part001.afterPrepare env hdrs file options json
  = ([], inl (Error "Invalid response from prepare upload")).
Proof.
  intros Htok. unfold Part001.afterPrepare. rewrite Htok.
  destruct (j_fields json); [|reflexivity].
  now rewrite orb_true_r.
Qed.

(* ===================================================================== *)
(** ** Validation order and key checks *)
(* ===================================================================== *)

Lemma truthy_false_iff (s : string) : Js.truthy s = false <-> s = "".
Proof. destruct s; simpl; split; congruence. Qed.

Lemma startsWith_truthy (s p : string) :
  Js.truthy p = true -> Js.startsWith s p = true -> Js.truthy s = true.
Proof.
  unfold Js.startsWith. destruct p; [discriminate|].
  destruct s; simpl; [discriminate | reflexivity].
Qed.

(** C9: with an empty public key, the function the factory returns
    rejects with "Public key is required", whatever the file and the
    options, and no call (network or other) has been made. *)
Theorem C9_empty_public_key_rejected :
  forall (handleSignature : option string) (file : FileArg)
         (o1 : IndexTs.UploadOptions) (o2 : Part001.UploadOptions) (env : Env),
    rejects_before_any_call
      (up <- IndexTs.createRestashUploader
               (Js.Object (IndexTs.mkFactoryOptions "")) ;;
       up file o1 env)
      "Public key is required" /\
    rejects_before_any_call
      (up <- Part001.createRestashUploader
               (Js.Object (Part001.mkUploaderOptions "" handleSignature)) ;;
       up file o2 env)
      "Public key is required".
Proof. intros. split; reflexivity. Qed.

(** C10: applied to an options object the factory returns the upload
    function without throwing and without any call, for every key, and
    an options object is the only argument it does so for: it
    destructures its parameter, so [undefined] and [null] make it
    throw.  The checks run when the returned function is called, the
    public key first (presence, then prefix) and the file after: on a
    file that the revision's file check refuses, an empty key gives
    "Public key is required", a key with the secret prefix gives the
    secret-key message, and only another key gives the file error. *)
Theorem C10_validation_deferred_key_checks_first :
  forall (pk : string) (handleSignature : option string)
         (file1 file2 : FileArg)
         (o1 : IndexTs.UploadOptions) (o2 : Part001.UploadOptions) (env : Env),
    IndexTs.validFile file1 = None ->
    instanceofBlob file2 = false ->
    let f1 := IndexTs.mkFactoryOptions pk in
    let f2 := Part001.mkUploaderOptions pk handleSignature in
    IndexTs.createRestashUploader (Js.Object f1) = ([], inr (IndexTs.upload f1)) /\
    Part001.createRestashUploader (Js.Object f2) = ([], inr (Part001.upload f2)) /\
    (forall arg,
       (exists up, outcome (IndexTs.createRestashUploader arg) = inr up)
       <-> exists o, arg = Js.Object o) /\
    (forall arg,
       (exists up, outcome (Part001.createRestashUploader arg) = inr up)
       <-> exists o, arg = Js.Object o) /\
    (pk = "" ->
       rejects_before_any_call (IndexTs.upload f1 file1 o1 env)
         "Public key is required" /\
       rejects_before_any_call (Part001.upload f2 file2 o2 env)
         "Public key is required") /\
    (Js.startsWith pk "sk_" = true ->
       rejects_before_any_call (IndexTs.upload f1 file1 o1 env)
         "Public key is invalid. You are currently using a secret key" /\
       rejects_before_any_call (Part001.upload f2 file2 o2 env)
         "Public key is invalid. You are currently using a secret key") /\
    (pk <> "" -> Js.startsWith pk "sk_" = false ->
       rejects_before_any_call (IndexTs.upload f1 file1 o1 env)
         "File passed in is invalid" /\
       rejects_before_any_call (Part001.upload f2 file2 o2 env)
         "Invalid file passed in. Please pass in a File or Blob").
Proof.
  intros pk hs file1 file2 o1 o2 env Hv Hb f1 f2.
  split; [reflexivity|]. split; [reflexivity|].
  split.
  { intros [| |o]; (split; [intros [up H] | intros [o' H]]);
      try discriminate H; [exists o | eexists]; reflexivity. }
  split.
  { intros [| |o]; (split; [intros [up H] | intros [o' H]]);
      try discriminate H; [exists o | eexists]; reflexivity. }
  unfold rejects_before_any_call, IndexTs.upload, Part001.upload; simpl.
  rewrite Hv.
  destruct file2 as [n t s | t s | n t s]; simpl in Hb; try discriminate.
  split; [|split].
  - intros ->. split; reflexivity.
  - intros Hsk.
    rewrite (startsWith_truthy pk "sk_" eq_refl Hsk), Hsk. split; reflexivity.
  - intros Hne Hsk. rewrite Hsk.
    destruct (Js.truthy pk) eqn:Ht.
    + split; reflexivity.
    + apply truthy_false_iff in Ht. contradiction.
Qed.

Lemma C10_witness :
  rejects_before_any_call
    (IndexTs.upload (IndexTs.mkFactoryOptions "") (NotBlob None None None)
       IndexTs.defaultOptions Scenario.happy)
    "Public key is required" /\
  rejects_before_any_call
    (Part001.upload (Part001.mkUploaderOptions "" None) (NotBlob None None None)
       Part001.defaultOptions Scenario.happy)
    "Public key is required".
Proof.
  destruct (C10_validation_deferred_key_checks_first
              "" None (NotBlob None None None) (NotBlob None None None)
              IndexTs.defaultOptions Part001.defaultOptions Scenario.happy
              eq_refl eq_refl) as (_ & _ & _ & _ & H & _).
  apply H. reflexivity.
Defined.

(** C10 fails for "every argument": called without options, or with
    [null], the factory of either revision throws at once, and no
    upload function is returned. *)
Lemma C10_factory_throws_without_options :
  (exists m, IndexTs.createRestashUploader Js.Undefined = ([], inl (Error m))) /\
  (exists m, IndexTs.createRestashUploader Js.Null = ([], inl (Error m))) /\
  (exists m, Part001.createRestashUploader Js.Undefined = ([], inl (Error m))) /\
  (exists m, Part001.createRestashUploader Js.Null = ([], inl (Error m))).
Proof. repeat split; eexists; reflexivity. Qed.

(** C6: a public key with the secret prefix is rejected with the
    secret-key message, a secret key with the public prefix makes the
    signature generator throw the public-key message, and nothing else
    is asked of a key: every other non-empty public key passes on to
    the prepare request, which carries it, and every other non-empty
    secret key yields a signature (outside a browser). *)
Theorem C6_key_prefix_checks :
  forall (pk sk : string) (handleSignature : option string) (file : FileArg)
         (o1 : IndexTs.UploadOptions) (o2 : Part001.UploadOptions) (env : Env),
    (Js.startsWith pk "sk_" = true ->
       rejects_before_any_call
         (IndexTs.upload (IndexTs.mkFactoryOptions pk) file o1 env)
         "Public key is invalid. You are currently using a secret key" /\
       rejects_before_any_call
         (Part001.upload (Part001.mkUploaderOptions pk handleSignature) file o2 env)
         "Public key is invalid. You are currently using a secret key") /\
    (Js.startsWith sk "pk_" = true ->
       rejects_before_any_call (IndexTs.generateRestashSig sk env)
         "Secret key is invalid. You are currently using a public key" /\
       rejects_before_any_call (Part001.generateSig sk env)
         "Secret key is invalid. You are currently using a public key") /\
    (pk <> "" -> Js.startsWith pk "sk_" = false ->
       forall (name type : string) (size : N),
         IndexTs.validFile (IsFile name type size) = Some (name, type, size) ->
         (exists init rest,
            trace (IndexTs.upload (IndexTs.mkFactoryOptions pk)
                     (IsFile name type size)
                     (IndexTs.mkOptions (IndexTs.path o1) None (IndexTs.onProgress o1))
                     env)
            = EvFetch prepareUrl (Some init) :: rest /\
            headers init = [("x-public-key", pk)]) /\
         (exists init rest,
            trace (Part001.upload (Part001.mkUploaderOptions pk None)
                     (IsFile name type size) o2 env)
            = EvFetch prepareUrl (Some init) :: rest /\
            In ("x-public-key", pk) (headers init))) /\
    (sk <> "" -> Js.startsWith sk "pk_" = false -> windowDefined env = false ->
       (exists p, outcome (IndexTs.generateRestashSig sk env) = inr p) /\
       (exists p, outcome (Part001.generateSig sk env) = inr p)).
Proof.
  intros pk sk hs file o1 o2 env.
  split; [|split; [|split]].
  - intros Hsk. unfold rejects_before_any_call, IndexTs.upload, Part001.upload; simpl.
    rewrite (startsWith_truthy pk "sk_" eq_refl Hsk), Hsk. split; reflexivity.
  - intros Hpk.
    unfold rejects_before_any_call, IndexTs.generateRestashSig, Part001.generateSig.
    rewrite (startsWith_truthy sk "pk_" eq_refl Hpk), Hpk. split; reflexivity.
  - intros Hne Hsk name type size Hvalid.
    pose proof (truthy_of_nonempty pk Hne) as Ht.
    split.
    + unfold IndexTs.upload. simpl IndexTs.publicKey. rewrite Ht, Hsk, Hvalid.
      cbn [negb IndexTs.handleSignature IndexTs.fetchSignature].
      rewrite bind_trace. cbn [ret trace outcome fst snd app].
      rewrite bind_trace, prepare_trace.
      eexists _, _. split; reflexivity.
    + unfold Part001.upload. simpl Part001.publicKey. rewrite Ht, Hsk.
      cbn [negb Part001.handleSignature Part001.fetchSignature].
      destruct (displayName_file env name type size o2) as [nm ->].
      rewrite bind_trace. cbn [ret trace outcome fst snd app].
      rewrite bind_trace. cbn [ret trace outcome fst snd app].
      rewrite bind_trace, prepare_trace.
      eexists _, _. split; [reflexivity|]. left. reflexivity.
  - intros Hne Hpk Hw.
    pose proof (truthy_of_nonempty sk Hne) as Ht.
    unfold IndexTs.generateRestashSig, Part001.generateSig.
    rewrite Ht, Hpk, Hw. simpl. split; eexists; reflexivity.
Qed.

(** The two rejections at the keys of the test suite, and two keys
    that pass. *)
Lemma C6_witness :
  (rejects_before_any_call
     (IndexTs.upload (IndexTs.mkFactoryOptions "sk_1234567890")
        Scenario.testFile IndexTs.defaultOptions Scenario.happy)
     "Public key is invalid. You are currently using a secret key" /\
   rejects_before_any_call
     (Part001.upload (Part001.mkUploaderOptions "sk_1234567890" None)
        Scenario.testFile Part001.defaultOptions Scenario.happy)
     "Public key is invalid. You are currently using a secret key") /\
  (rejects_before_any_call
     (IndexTs.generateRestashSig "pk_1234567890" Scenario.happy)
     "Secret key is invalid. You are currently using a public key" /\
   rejects_before_any_call
     (Part001.generateSig "pk_1234567890" Scenario.happy)
     "Secret key is invalid. You are currently using a public key") /\
  (exists init rest,
     trace (Part001.upload (Part001.mkUploaderOptions "anything" None)
              (IsFile "test.txt" "text/plain" 4) Part001.defaultOptions
              Scenario.happy)
     = EvFetch prepareUrl (Some init) :: rest /\
     In ("x-public-key", "anything") (headers init)) /\
  (exists p, outcome (Part001.generateSig "anything" Scenario.happy) = inr p).
Proof.
  destruct (C6_key_prefix_checks "sk_1234567890" "pk_1234567890" None
              Scenario.testFile IndexTs.defaultOptions Part001.defaultOptions
              Scenario.happy) as (H1 & H2 & _).
  destruct (C6_key_prefix_checks "anything" "anything" None
              Scenario.testFile IndexTs.defaultOptions Part001.defaultOptions
              Scenario.happy) as (_ & _ & H3 & H4).
  split; [apply H1; reflexivity|].
  split; [apply H2; reflexivity|].
  split.
  - apply (H3 ltac:(discriminate) eq_refl "test.txt" "text/plain" 4%N eq_refl).
  - apply H4; [discriminate | reflexivity | reflexivity].
Defined.

(* ===================================================================== *)
(** ** Strings, hex digits and digests *)
(* ===================================================================== *)

Lemma string_length_app (a b : string) :
  String.length (a ++ b) = String.length a + String.length b.
Proof. induction a as [|c a IH]; simpl; [reflexivity | now rewrite IH]. Qed.

Lemma string_forallb_app p (a b : string) :
  Js.string_forallb p (a ++ b) = Js.string_forallb p a && Js.string_forallb p b.
Proof.
  induction a as [|c a IH]; simpl; [reflexivity|].
  now rewrite IH, andb_assoc.
Qed.

Lemma count_app c (a b : string) :
  Js.count c (a ++ b) = Js.count c a + Js.count c b.
Proof.
  induction a as [|d a IH]; simpl; [reflexivity|].
  rewrite IH. lia.
Qed.

Lemma split_without_separator sep (s : string) :
  Js.count sep s = 0 -> Js.split sep s = [s].
Proof.
  induction s as [|c s IH]; simpl; [reflexivity|].
  destruct (Ascii.eqb c sep); [discriminate|].
  intros H. now rewrite (IH H).
Qed.

(** Two separator-free parts joined by the separator split back into
    exactly those two parts. *)
Lemma split_joined sep (a b : string) :
  Js.count sep a = 0 -> Js.count sep b = 0 ->
  Js.split sep (a ++ String sep b) = [a; b].
Proof.
  intros Ha Hb. induction a as [|c a IH]; simpl in *.
  - rewrite Ascii.eqb_refl. now rewrite (split_without_separator sep b Hb).
  - destruct (Ascii.eqb c sep); [discriminate|].
    now rewrite (IH Ha).
Qed.

Lemma hex_of_byte_lower b : Js.string_forallb Js.is_lower_hex (Crypto.hex_of_byte b) = true.
Proof. destruct b; reflexivity. Qed.

Lemma hex_of_byte_no_colon b : Js.count ":" (Crypto.hex_of_byte b) = 0.
Proof. destruct b; reflexivity. Qed.

Lemma hex_lower bs : Js.string_forallb Js.is_lower_hex (Crypto.hex bs) = true.
Proof.
  induction bs as [|b bs IH]; [reflexivity|].
  cbn [Crypto.hex]. now rewrite string_forallb_app, hex_of_byte_lower, IH.
Qed.

Lemma hex_no_colon bs : Js.count ":" (Crypto.hex bs) = 0.
Proof.
  induction bs as [|b bs IH]; [reflexivity|].
  cbn [Crypto.hex]. now rewrite count_app, hex_of_byte_no_colon, IH.
Qed.

Lemma hex_length bs : String.length (Crypto.hex bs) = 2 * List.length bs.
Proof.
  induction bs as [|b bs IH]; [reflexivity|].
  cbn [Crypto.hex List.length]. rewrite string_length_app, IH.
  unfold Crypto.hex_of_byte. simpl String.length. lia.
Qed.

Lemma randomBytes_length entropy n :
  List.length (Crypto.randomBytes entropy n) = n.
Proof. unfold Crypto.randomBytes. now rewrite length_map, length_seq. Qed.

(** A SHA-256 digest is 32 bytes, and so is the HMAC built on it. *)
Lemma sha256_length msg : List.length (Crypto.sha256 msg) = 32.
Proof. reflexivity. Qed.

Lemma hmac_sha256_length key msg : List.length (Crypto.hmac_sha256 key msg) = 32.
Proof. apply sha256_length. Qed.

Lemma randomUUID_no_colon entropy : Js.count ":" (Crypto.randomUUID entropy) = 0.
Proof.
  unfold Crypto.randomUUID. rewrite !count_app, !hex_no_colon. reflexivity.
Qed.

Lemma randomUUID_length entropy : String.length (Crypto.randomUUID entropy) = 36.
Proof.
  unfold Crypto.randomUUID. rewrite !string_length_app, !hex_length. reflexivity.
Qed.

Lemma string_of_uint_no_colon d : Js.count ":" (NilEmpty.string_of_uint d) = 0.
Proof. induction d; [reflexivity | ..]; exact IHd. Qed.

Lemma string_of_number_no_colon z : Js.count ":" (Js.string_of_number z) = 0.
Proof.
  unfold Js.string_of_number, NilZero.string_of_int, NilZero.string_of_uint.
  destruct (Z.to_int z) as [d | d]; destruct d; simpl;
    try reflexivity; apply string_of_uint_no_colon.
Qed.

Lemma signature_hex_shape key payload :
  String.length (Crypto.createHmac_sha256_hex key payload) = 64 /\
  Js.string_forallb Js.is_lower_hex (Crypto.createHmac_sha256_hex key payload) = true.
Proof.
  unfold Crypto.createHmac_sha256_hex. split.
  - now rewrite hex_length, hmac_sha256_length.
  - apply hex_lower.
Qed.

Lemma payload_shape (requestId : string) (timestamp : Z) :
  Js.count ":" requestId = 0 ->
  Js.split ":" (requestId ++ ":" ++ Js.string_of_number timestamp)
  = [requestId; Js.string_of_number timestamp] /\
  Js.count ":" (requestId ++ ":" ++ Js.string_of_number timestamp) = 1.
Proof.
  intros Hid. split.
  - apply split_joined; [exact Hid | apply string_of_number_no_colon].
  - rewrite count_app, Hid. cbn [append Js.count].
    now rewrite string_of_number_no_colon.
Qed.

(* ===================================================================== *)
(** ** The signature generator *)
(* ===================================================================== *)

(** C8: where [window] is defined the signature generator throws for
    every secret key, the browser message when the key itself is
    acceptable, and it has made no call by then: neither the clock nor
    the random source has been read and no HMAC has been computed. *)
Theorem C8_browser_context_throws_before_hmac :
  forall (sk : string) (env : Env),
    windowDefined env = true ->
    (trace (IndexTs.generateRestashSig sk env) = [] /\
     (exists e, outcome (IndexTs.generateRestashSig sk env) = inl e) /\
     (sk <> "" -> Js.startsWith sk "pk_" = false ->
      rejects_before_any_call (IndexTs.generateRestashSig sk env)
        "Secret key should not be used in the browser. Please only use it in a server environment.")) /\
    (trace (Part001.generateSig sk env) = [] /\
     (exists e, outcome (Part001.generateSig sk env) = inl e) /\
     (sk <> "" -> Js.startsWith sk "pk_" = false ->
      rejects_before_any_call (Part001.generateSig sk env)
        "Secret key should not be used in the browser. Please only use it in a server environment.")).
Proof.
  intros sk env Hw.
  unfold rejects_before_any_call, IndexTs.generateRestashSig, Part001.generateSig.
  rewrite Hw.
  destruct (Js.truthy sk) eqn:Ht; simpl.
  - destruct (Js.startsWith sk "pk_") eqn:Hp.
    + repeat split; try (eexists; reflexivity); intros; discriminate.
    + repeat split; try (eexists; reflexivity).
  - apply truthy_false_iff in Ht.
    repeat split; try (eexists; reflexivity); intros; contradiction.
Qed.

Lemma C8_witness :
  trace (Part001.generateSig "sk_123" (Scenario.inBrowser Scenario.happy)) = [] /\
  rejects_before_any_call
    (IndexTs.generateRestashSig "sk_123" (Scenario.inBrowser Scenario.happy))
    "Secret key should not be used in the browser. Please only use it in a server environment.".
Proof.
  destruct (C8_browser_context_throws_before_hmac
              "sk_123" (Scenario.inBrowser Scenario.happy) eq_refl)
    as ((_ & _ & H1) & (H2 & _)).
  split; [exact H2 | apply H1; [discriminate | reflexivity]].
Defined.

(** C7: for a non-empty secret key without the public prefix, outside a
    browser, the generator reads the clock, draws the identifier and
    computes one HMAC, and returns a payload that splits at ":" into
    exactly the identifier and the decimal timestamp (one ":" in all),
    with a signature of 64 lowercase hex digits, the hex of the
    HMAC-SHA256 of the payload under the key.  The identifier is a
    36-character UUID in the [generateSig] revision; in src/index.ts it
    comes from [nanoid], whose alphabet is taken to have no ":". *)
Theorem C7_signature_shape :
  forall (sk : string) (env : Env),
    sk <> "" -> Js.startsWith sk "pk_" = false -> windowDefined env = false ->
    (exists p,
       Part001.generateSig sk env
       = ([EvDateNow; EvRandomUUID; EvCreateHmac sk (payload p)], inr p) /\
       Js.split ":" (payload p)
       = [Crypto.randomUUID (entropy env); Js.string_of_number (dateNow env)] /\
       String.length (Crypto.randomUUID (entropy env)) = 36 /\
       Js.count ":" (payload p) = 1 /\
       String.length (signature p) = 64 /\
       Js.string_forallb Js.is_lower_hex (signature p) = true /\
       signature p
       = Crypto.hex (Crypto.hmac_sha256 (list_byte_of_string sk)
                       (list_byte_of_string (payload p)))) /\
    (Js.count ":" (nanoid env 32) = 0 ->
     exists p,
       IndexTs.generateRestashSig sk env
       = ([EvDateNow; EvNanoid 32; EvCreateHmac sk (payload p)], inr p) /\
       Js.split ":" (payload p)
       = [nanoid env 32; Js.string_of_number (dateNow env)] /\
       Js.count ":" (payload p) = 1 /\
       String.length (signature p) = 64 /\
       Js.string_forallb Js.is_lower_hex (signature p) = true /\
       signature p
       = Crypto.hex (Crypto.hmac_sha256 (list_byte_of_string sk)
                       (list_byte_of_string (payload p)))).
Proof.
  intros sk env Hne Hpk Hw.
  pose proof (truthy_of_nonempty sk Hne) as Ht.
  unfold Part001.generateSig, IndexTs.generateRestashSig.
  rewrite Ht, Hpk, Hw. cbn [negb]. split.
  - eexists (mkSig _ _). split; [reflexivity|]. cbn [payload signature].
    destruct (payload_shape (Crypto.randomUUID (entropy env)) (dateNow env)
                (randomUUID_no_colon (entropy env))) as [Hsplit Hcount].
    destruct (signature_hex_shape sk
                (Crypto.randomUUID (entropy env) ++ ":" ++
                 Js.string_of_number (dateNow env))) as [Hlen Hhex].
    pose proof (randomUUID_length (entropy env)) as Hid.
    repeat split; assumption.
  - intros Hid. eexists (mkSig _ _). split; [reflexivity|]. cbn [payload signature].
    destruct (payload_shape (nanoid env 32) (dateNow env) Hid) as [Hsplit Hcount].
    destruct (signature_hex_shape sk
                (nanoid env 32 ++ ":" ++ Js.string_of_number (dateNow env)))
      as [Hlen Hhex].
    repeat split; assumption.
Qed.

(** The two generators under the key "sk_123", on a server. *)
Lemma C7_witness :
  (exists p,
     Part001.generateSig "sk_123" Scenario.happy
     = ([EvDateNow; EvRandomUUID; EvCreateHmac "sk_123" (payload p)], inr p) /\
     Js.split ":" (payload p)
     = ["03142536-4758-497a-8b9c-adbecfe0f102"; "1700000000000"] /\
     String.length "03142536-4758-497a-8b9c-adbecfe0f102" = 36 /\
     Js.count ":" (payload p) = 1 /\
     String.length (signature p) = 64 /\
     Js.string_forallb Js.is_lower_hex (signature p) = true /\
     signature p
     = Crypto.hex (Crypto.hmac_sha256 (list_byte_of_string "sk_123")
                     (list_byte_of_string (payload p)))) /\
  (exists p,
     IndexTs.generateRestashSig "sk_123" Scenario.happy
     = ([EvDateNow; EvNanoid 32; EvCreateHmac "sk_123" (payload p)], inr p) /\
     Js.split ":" (payload p)
     = ["AAAAAAAAAAAAAAAAAAAAAAAAAAAAAAAA"; "1700000000000"] /\
     Js.count ":" (payload p) = 1 /\
     String.length (signature p) = 64 /\
     Js.string_forallb Js.is_lower_hex (signature p) = true /\
     signature p
     = Crypto.hex (Crypto.hmac_sha256 (list_byte_of_string "sk_123")
                     (list_byte_of_string (payload p)))).
Proof.
  destruct (C7_signature_shape "sk_123" Scenario.happy
              ltac:(discriminate) eq_refl eq_refl) as [H1 H2].
  split; [exact H1 | exact (H2 eq_refl)].
Defined.

(* ===================================================================== *)
(** ** Malformed responses *)
(* ===================================================================== *)

(** In the [generateSig] revision a prepare response without a
    confirmation token ends the upload before the transfer. *)
Lemma part001_missing_token_stops :
  forall (o : Part001.RestashUploaderOptions) (file : FileArg)
         (options : Part001.UploadOptions) (env : Env)
         (init : RequestInit) (ok : bool) (json : JsonBody),
    In (EvFetch prepareUrl (Some init))
       (trace (Part001.upload o file options env)) ->
    fetch env prepareUrl (Some init) = FetchResponse ok (inr json) ->
    Js.truthy_opt (j_confirmToken json) = false ->
    (exists e, outcome (Part001.upload o file options env) = inl e) /\
    (ok = true ->
     rejects_with (Part001.upload o file options env)
       "Invalid response from prepare upload") /\
    (forall url data,
       ~ In (EvAxiosPost url data) (trace (Part001.upload o file options env))).
Proof.
  intros o file options env init ok json Hin Hfetch Htok.
  destruct (part001_prepare_inv o file options env init Hin) as (pre & Hpre & Hrun).
  rewrite Hrun, Hfetch. unfold rejects_with. rewrite bind_run.
  cbn [emits trace outcome fst snd].
  assert (Htail : exists m,
            (if ok then Part001.afterPrepare env
                          (Part001.requestHeaders env (Part001.publicKey o))
                          file options json
             else throw_error_of json) = ([], inl (Error m)) /\
            (ok = true -> m = "Invalid response from prepare upload")).
  { destruct ok.
    - eexists. split; [now apply part001_afterPrepare_no_token | reflexivity].
    - destruct (@throw_error_of_run JsonBody json) as [m Hm].
      exists m. split; [exact Hm | discriminate]. }
  destruct Htail as (m & Hm & Hmsg).
  replace (match ok with
           | true => Part001.afterPrepare env
                       (Part001.requestHeaders env (Part001.publicKey o))
                       file options json
           | false => throw_error_of json
           end) with (@pair (list Event) (JsError + JsonBody) [] (inl (Error m)))
    by (rewrite <- Hm; destruct ok; reflexivity).
  cbn [trace outcome fst snd].
  split; [eauto|]. split.
  - intros Hok. now rewrite (Hmsg Hok).
  - intros url data Hpost. rewrite app_nil_r in Hpost.
    apply in_app_or in Hpost. destruct Hpost as [Hpost | [Hpost | []]].
    + apply Hpre in Hpost. destruct Hpost as [? | [? ?]]; discriminate.
    + discriminate.
Qed.

(** The run of src/index.ts around its prepare request. *)
Lemma index_ts_prepare_inv o file options env init :
  In (EvFetch prepareUrl (Some init)) (trace (IndexTs.upload o file options env)) ->
  exists pre,
    (forall e, In e pre -> exists hs, e = EvFetch hs None) /\
    IndexTs.upload o file options env
    = (emits (pre ++ [EvFetch prepareUrl (Some init)]) ;;
       match fetch env prepareUrl (Some init) with
       | FetchRejected reason => throw reason
       | FetchResponse _ (inl reason) => throw reason
       | FetchResponse true (inr json) =>
           IndexTs.afterPrepare env [("x-public-key", IndexTs.publicKey o)]
             file options json
       | FetchResponse false (inr json) => throw_error_of json
       end).
Proof.
  unfold IndexTs.upload.
  destruct (negb (Js.truthy (IndexTs.publicKey o))); [intros []|].
  destruct (Js.startsWith (IndexTs.publicKey o) "sk_"); [intros []|].
  destruct (IndexTs.validFile file) as [[[name type] size]|]; [|intros []].
  set (hdrs := [("x-public-key", IndexTs.publicKey o)]).
  set (meta := mkFileMeta name type size (spread_if (IndexTs.path options))).
  intros Hin. rewrite bind_run in *. cbn [trace outcome fst snd] in *.
  assert (Hpre : forall e,
            In e (trace (IndexTs.fetchSignature env (IndexTs.handleSignature options))) ->
            exists hs, e = EvFetch hs None).
  { intros e He.
    destruct (index_ts_fetchSignature_cases env (IndexTs.handleSignature options))
      as [[_ Hs] | (hs & _ & _ & Hst & _)].
    - rewrite Hs in He. destruct He.
    - rewrite Hst in He. destruct He as [<- | []]. eauto. }
  destruct (outcome (IndexTs.fetchSignature env (IndexTs.handleSignature options)))
    as [err | sp] eqn:Hso.
  - exfalso. rewrite app_nil_r in Hin. apply Hpre in Hin.
    destruct Hin as [hs Hin]. discriminate.
  - rewrite bind_run in *. rewrite prepare_trace, prepare_outcome in *.
    cbn [trace outcome fst snd] in *.
    assert (Hinit : prepareInit hdrs meta sp = init).
    { apply in_app_or in Hin. destruct Hin as [Hin | Hin].
      - apply Hpre in Hin. destruct Hin as [hs Hin]. discriminate.
      - destruct Hin as [Hin | Hin]; [congruence|].
        exfalso.
        destruct (fetch env prepareUrl (Some (prepareInit hdrs meta sp)))
          as [r | [|] [reason | json]]; cbn in Hin; try (destruct Hin; fail).
        + apply index_ts_afterPrepare_events in Hin.
          destruct Hin as [(u & d & Hin) | [(ev & Hin) | (i & Hin)]];
            try discriminate.
        + destruct (@throw_error_of_run JsonBody json) as [m Hm].
          rewrite Hm in Hin. destruct Hin. }
    rewrite Hinit in *.
    exists (trace (IndexTs.fetchSignature env (IndexTs.handleSignature options))).
    split; [exact Hpre|].
    rewrite bind_run. cbn [emits trace outcome fst snd].
    rewrite <- !app_assoc. cbn [app].
    destruct (fetch env prepareUrl (Some init)) as [r | [|] [reason | json]];
      try reflexivity.
    destruct (@throw_error_of_run JsonBody json) as [m ->]. reflexivity.
Qed.

(** In src/index.ts the transfer follows every [ok] prepare response
    that has [fields], whatever its confirmation token, and a confirm
    request with that token follows a transfer answered 2xx. *)
Lemma index_ts_transfers_whatever_the_token o file options env init json fields :
  In (EvFetch prepareUrl (Some init)) (trace (IndexTs.upload o file options env)) ->
  fetch env prepareUrl (Some init) = FetchResponse true (inr json) ->
  j_fields json = Some fields ->
  In (EvAxiosPost (j_url json) (formDataOf fields file))
     (trace (IndexTs.upload o file options env)) /\
  (forall status,
     settled (transport env (j_url json) (formDataOf fields file)) = AxiosHttp status ->
     (200 <= status < 300)%Z ->
     In (EvFetch confirmUrl
           (Some (mkInit "POST" [("x-public-key", IndexTs.publicKey o)]
                    (ConfirmBody (j_confirmToken json)))))
        (trace (IndexTs.upload o file options env))).
Proof.
  intros Hin Hfetch Hfields.
  destruct (index_ts_prepare_inv o file options env init Hin) as (pre & _ & Hrun).
  rewrite Hrun, Hfetch. rewrite bind_trace. cbn [emits trace outcome fst snd].
  unfold IndexTs.afterPrepare. rewrite Hfields.
  rewrite bind_trace, transfer_trace, transfer_outcome, axios_post_outcome.
  split.
  - apply in_or_app. right. left. reflexivity.
  - intros status Hset Hst. rewrite Hset. rewrite orb_true_r.
    replace ((status <? 200)%Z || (status >=? 300)%Z) with false
      by (symmetry; apply orb_false_iff; split; lia).
    rewrite confirm_trace.
    apply in_or_app. right. apply in_or_app. right. left. reflexivity.
Qed.

(** C2, by revision.  Where the prepare response is checked (the
    [generateSig] revision): whenever the prepare request has been sent
    and its response carries no confirmation token, or an empty one,
    the upload ends in an error, "Invalid response from prepare upload"
    when the response was [ok], and no transfer request has been made.
    In src/index.ts, where the token is optional: the transfer follows
    every [ok] prepare response that has [fields], and after a transfer
    answered 2xx the confirm request carries the token as it came. *)
Theorem C2_confirm_token_by_revision :
  (forall (o : Part001.RestashUploaderOptions) (file : FileArg)
          (options : Part001.UploadOptions) (env : Env)
          (init : RequestInit) (ok : bool) (json : JsonBody),
     In (EvFetch prepareUrl (Some init))
        (trace (Part001.upload o file options env)) ->
     fetch env prepareUrl (Some init) = FetchResponse ok (inr json) ->
     Js.truthy_opt (j_confirmToken json) = false ->
     (exists e, outcome (Part001.upload o file options env) = inl e) /\
     (ok = true ->
      rejects_with (Part001.upload o file options env)
        "Invalid response from prepare upload") /\
     (forall url data,
        ~ In (EvAxiosPost url data) (trace (Part001.upload o file options env)))) /\
  (forall (o : IndexTs.FactoryOptions) (file : FileArg)
          (options : IndexTs.UploadOptions) (env : Env)
          (init : RequestInit) (json : JsonBody) (fields : list (string * string)),
     In (EvFetch prepareUrl (Some init))
        (trace (IndexTs.upload o file options env)) ->
     fetch env prepareUrl (Some init) = FetchResponse true (inr json) ->
     j_fields json = Some fields ->
     In (EvAxiosPost (j_url json) (formDataOf fields file))
        (trace (IndexTs.upload o file options env)) /\
     (forall status,
        settled (transport env (j_url json) (formDataOf fields file))
        = AxiosHttp status ->
        (200 <= status < 300)%Z ->
        In (EvFetch confirmUrl
              (Some (mkInit "POST" [("x-public-key", IndexTs.publicKey o)]
                       (ConfirmBody (j_confirmToken json)))))
           (trace (IndexTs.upload o file options env)))).
Proof.
  split.
  - exact part001_missing_token_stops.
  - exact index_ts_transfers_whatever_the_token.
Qed.

(** The mocked prepare response of the test suite, in both revisions. *)
Lemma C2_witness :
  rejects_with
    (Part001.upload (Part001.mkUploaderOptions "pk_123" None) Scenario.testFile
       Part001.defaultOptions Scenario.missingToken)
    "Invalid response from prepare upload" /\
  In (EvAxiosPost (Some "my-url")
        [("key", FormString "test"); ("file", FormFile Scenario.testFile)])
     (trace (IndexTs.upload (IndexTs.mkFactoryOptions "pk_123") Scenario.testFile
               IndexTs.defaultOptions Scenario.missingToken)).
Proof.
  split.
  - refine (proj1 (proj2 (proj1 C2_confirm_token_by_revision
              (Part001.mkUploaderOptions "pk_123" None) Scenario.testFile
              Part001.defaultOptions Scenario.missingToken Scenario.testPrepare true
              (prepareJson (Some "my-url") (Some [("key", "test")]) (Some ""))
              _ _ _)) eq_refl).
    + left. reflexivity.
    + reflexivity.
    + reflexivity.
  - refine (proj1 (proj2 C2_confirm_token_by_revision
              (IndexTs.mkFactoryOptions "pk_123") Scenario.testFile
              IndexTs.defaultOptions Scenario.missingToken Scenario.testPrepare
              (prepareJson (Some "my-url") (Some [("key", "test")]) (Some ""))
              [("key", "test")] _ _ _)).
    + left. reflexivity.
    + reflexivity.
    + reflexivity.
Defined.

(** C2 fails on src/index.ts: the same response, with its empty
    confirmation token, is followed by the transfer and by a confirm
    request that carries the empty token, and the upload succeeds. *)
Lemma C2_index_ts_transfers_without_token :
  fetch Scenario.missingToken prepareUrl (Some Scenario.testPrepare)
  = FetchResponse true
      (inr (prepareJson (Some "my-url") (Some [("key", "test")]) (Some ""))) /\
  network_calls
    (trace (IndexTs.upload (IndexTs.mkFactoryOptions "pk_123") Scenario.testFile
              IndexTs.defaultOptions Scenario.missingToken))
  = [EvFetch prepareUrl (Some Scenario.testPrepare);
     EvAxiosPost (Some "my-url")
       [("key", FormString "test"); ("file", FormFile Scenario.testFile)];
     EvFetch confirmUrl
       (Some (mkInit "POST" [("x-public-key", "pk_123")] (ConfirmBody (Some ""))))] /\
  outcome (IndexTs.upload (IndexTs.mkFactoryOptions "pk_123") Scenario.testFile
             IndexTs.defaultOptions Scenario.missingToken)
  = inr (resultJson "file_1" "https://cdn.example/uploads/test.txt"
                    "uploads/test.txt" "test.txt" 4 "text/plain").
Proof. repeat split. Qed.

(** Events from the prepare request on, in the [generateSig] revision. *)
Lemma part001_from_prepare_events env hdrs meta sp file options e :
  In e (trace (json <- prepare env hdrs meta sp ;;
               Part001.afterPrepare env hdrs file options json)) ->
  (exists init, e = EvFetch prepareUrl (Some init)) \/
  (exists url data, e = EvAxiosPost url data) \/
  (exists ev, e = EvOnProgress (report ev)) \/
  (exists init, e = EvFetch confirmUrl (Some init)).
Proof.
  rewrite bind_trace, prepare_trace. intros [<- | Hin]; [eauto|].
  destruct (outcome (prepare env hdrs meta sp)); [destruct Hin|].
  right. now apply part001_afterPrepare_events in Hin.
Qed.

(** The same in src/index.ts. *)
Lemma index_ts_from_prepare_events env hdrs meta sp file options e :
  In e (trace (json <- prepare env hdrs meta sp ;;
               IndexTs.afterPrepare env hdrs file options json)) ->
  (exists init, e = EvFetch prepareUrl (Some init)) \/
  (exists url data, e = EvAxiosPost url data) \/
  (exists ev, e = EvOnProgress (report ev)) \/
  (exists init, e = EvFetch confirmUrl (Some init)).
Proof.
  rewrite bind_trace, prepare_trace. intros [<- | Hin]; [eauto|].
  destruct (outcome (prepare env hdrs meta sp)); [destruct Hin|].
  right. now apply index_ts_afterPrepare_events in Hin.
Qed.

(** In the [generateSig] revision an [ok] signature response without
    a signature ends the upload before the prepare request. *)
Lemma part001_empty_signature_stops :
  forall (o : Part001.RestashUploaderOptions) (file : FileArg)
         (options : Part001.UploadOptions) (env : Env)
         (hs : string) (json : JsonBody),
    In (EvFetch hs None) (trace (Part001.upload o file options env)) ->
    fetch env hs None = FetchResponse true (inr json) ->
    Js.truthy_opt (j_signature json) = false ->
    rejects_with (Part001.upload o file options env)
      "Your signature endpoint did not return a valid signature" /\
    network_calls (trace (Part001.upload o file options env)) = [EvFetch hs None].
Proof.
  intros o file options env hs json Hin Hfetch Hsig.
  unfold Part001.upload, rejects_with in *.
  destruct (negb (Js.truthy (Part001.publicKey o))); [destruct Hin|].
  destruct (Js.startsWith (Part001.publicKey o) "sk_"); [destruct Hin|].
  set (hdrs := Part001.requestHeaders env (Part001.publicKey o)) in *.
  assert (Hgen : forall type size,
    let r := (name <- Part001.displayName env file options ;;
              sp <- Part001.fetchSignature env (Part001.handleSignature o) ;;
              json <- prepare env hdrs
                (mkFileMeta name type size (spread_if (Part001.path options))) sp ;;
              Part001.afterPrepare env hdrs file options json) in
    In (EvFetch hs None) (trace r) ->
    outcome r
    = inl (Error "Your signature endpoint did not return a valid signature") /\
    network_calls (trace r) = [EvFetch hs None]).
  { clear Hin. intros type size r Hin. subst r.
    destruct (displayName_run env file options) as (tn & nm & Hn & Htn).
    rewrite Hn in *. rewrite bind_run in *. cbn [trace outcome fst snd] in *.
    set (meta := mkFileMeta nm type size (spread_if (Part001.path options))) in *.
    rewrite bind_run in *. cbn [trace outcome fst snd] in *.
    assert (Hntn : network_calls tn = [] /\ ~ In (EvFetch hs None) tn).
    { destruct Htn as [-> | ->]; (split; [reflexivity|]);
        [intros [] | intros [H | []]; discriminate]. }
    destruct Hntn as [Hnet Hnotin].
    assert (Hrest : forall sp,
      ~ In (EvFetch hs None)
           (trace (json <- prepare env hdrs meta sp ;;
                   Part001.afterPrepare env hdrs file options json))).
    { intros sp Hr. apply part001_from_prepare_events in Hr.
      destruct Hr as [(i & Hr) | [(u & d & Hr) | [(ev & Hr) | (i & Hr)]]];
        discriminate. }
    apply in_app_or in Hin. destruct Hin as [Hin | Hin]; [contradiction|].
    destruct (part001_fetchSignature_cases env (Part001.handleSignature o))
      as [[_ Hs] | (hs' & _ & _ & Hst & Hso)].
    - rewrite Hs in Hin. cbn [trace outcome fst snd app] in Hin.
      exfalso. exact (Hrest _ Hin).
    - rewrite Hst, Hso in *.
      destruct Hin as [Hin | Hin].
      + injection Hin as ->. rewrite Hfetch, Hsig in *. cbn [negb].
        split; [reflexivity|].
        unfold network_calls in *. rewrite filter_app, Hnet. reflexivity.
      + exfalso.
        destruct (match fetch env hs' None with FetchRejected _ => _ | _ => _ end);
          [destruct Hin | exact (Hrest _ Hin)]. }
  destruct file as [n type size | type size | n t s];
    [now apply Hgen | now apply Hgen | destruct Hin].
Qed.

(** In src/index.ts the prepare request follows every [ok] signature
    response with a JSON body; a falsy signature or payload is left
    out of it. *)
Lemma index_ts_prepares_whatever_the_signature o file options env hs json :
  In (EvFetch hs None) (trace (IndexTs.upload o file options env)) ->
  fetch env hs None = FetchResponse true (inr json) ->
  exists meta,
    In (EvFetch prepareUrl
          (Some (mkInit "POST" [("x-public-key", IndexTs.publicKey o)]
                   (PrepareBody meta (spread_if (j_signature json))
                                     (spread_if (j_payload json))))))
       (trace (IndexTs.upload o file options env)).
Proof.
  unfold IndexTs.upload.
  destruct (negb (Js.truthy (IndexTs.publicKey o))); [intros []|].
  destruct (Js.startsWith (IndexTs.publicKey o) "sk_"); [intros []|].
  destruct (IndexTs.validFile file) as [[[name type] size]|]; [|intros []].
  set (hdrs := [("x-public-key", IndexTs.publicKey o)]).
  set (meta := mkFileMeta name type size (spread_if (IndexTs.path options))).
  intros Hin Hfetch. exists meta.
  rewrite bind_trace in *.
  destruct (index_ts_fetchSignature_cases env (IndexTs.handleSignature options))
    as [[_ Hs] | (hs' & _ & _ & Hst & Hso)].
  - exfalso. rewrite Hs in Hin. cbn [trace outcome fst snd app] in Hin.
    apply index_ts_from_prepare_events in Hin.
    destruct Hin as [(i & Hin) | [(u & d & Hin) | [(ev & Hin) | (i & Hin)]]];
      discriminate.
  - rewrite Hst, Hso in *.
    destruct Hin as [Hin | Hin].
    + injection Hin as ->. rewrite Hfetch.
      right. rewrite bind_trace, prepare_trace. left. reflexivity.
    + exfalso.
      destruct (match fetch env hs' None with FetchRejected _ => _ | _ => _ end);
        [destruct Hin|].
      apply index_ts_from_prepare_events in Hin.
      destruct Hin as [(i & Hin) | [(u & d & Hin) | [(ev & Hin) | (i & Hin)]]];
        discriminate.
Qed.

(** C4, by revision.  Where the signature response is checked (the
    [generateSig] revision): whenever the signature route has been
    fetched and its [ok] response carries no signature, or an empty
    one, the upload rejects with "Your signature endpoint did not
    return a valid signature", and that fetch is the only request it
    has sent: no prepare request follows.  In src/index.ts, where the
    response is not checked: the prepare request follows every [ok]
    signature response, a falsy signature or payload left out of it. *)
Theorem C4_signature_response_by_revision :
  (forall (o : Part001.RestashUploaderOptions) (file : FileArg)
          (options : Part001.UploadOptions) (env : Env)
          (hs : string) (json : JsonBody),
     In (EvFetch hs None) (trace (Part001.upload o file options env)) ->
     fetch env hs None = FetchResponse true (inr json) ->
     Js.truthy_opt (j_signature json) = false ->
     rejects_with (Part001.upload o file options env)
       "Your signature endpoint did not return a valid signature" /\
     network_calls (trace (Part001.upload o file options env))
     = [EvFetch hs None]) /\
  (forall (o : IndexTs.FactoryOptions) (file : FileArg)
          (options : IndexTs.UploadOptions) (env : Env)
          (hs : string) (json : JsonBody),
     In (EvFetch hs None) (trace (IndexTs.upload o file options env)) ->
     fetch env hs None = FetchResponse true (inr json) ->
     exists meta,
       In (EvFetch prepareUrl
             (Some (mkInit "POST" [("x-public-key", IndexTs.publicKey o)]
                      (PrepareBody meta (spread_if (j_signature json))
                                        (spread_if (j_payload json))))))
          (trace (IndexTs.upload o file options env))).
Proof.
  split.
  - exact part001_empty_signature_stops.
  - exact index_ts_prepares_whatever_the_signature.
Qed.

(** The mocked signature response of the test suite, in both
    revisions. *)
Lemma C4_witness :
  (rejects_with
     (Part001.upload (Part001.mkUploaderOptions "pk_123" (Some "/fake-endpoint"))
        Scenario.testFile Part001.defaultOptions Scenario.badSignature)
     "Your signature endpoint did not return a valid signature" /\
   network_calls
     (trace (Part001.upload (Part001.mkUploaderOptions "pk_123" (Some "/fake-endpoint"))
               Scenario.testFile Part001.defaultOptions Scenario.badSignature))
   = [EvFetch "/fake-endpoint" None]) /\
  (exists meta,
     In (EvFetch prepareUrl
           (Some (mkInit "POST" [("x-public-key", "pk_123")]
                    (PrepareBody meta None (Some "123")))))
        (trace (IndexTs.upload (IndexTs.mkFactoryOptions "pk_123") Scenario.testFile
                  (IndexTs.mkOptions None (Some "/fake-endpoint") false)
                  Scenario.badSignature))).
Proof.
  split.
  - refine (proj1 C4_signature_response_by_revision
              (Part001.mkUploaderOptions "pk_123" (Some "/fake-endpoint"))
              Scenario.testFile Part001.defaultOptions Scenario.badSignature
              "/fake-endpoint" (sigJson (Some "") (Some "123")) _ _ _).
    + left. reflexivity.
    + reflexivity.
    + reflexivity.
  - refine (proj2 C4_signature_response_by_revision
              (IndexTs.mkFactoryOptions "pk_123") Scenario.testFile
              (IndexTs.mkOptions None (Some "/fake-endpoint") false)
              Scenario.badSignature
              "/fake-endpoint" (sigJson (Some "") (Some "123")) _ _).
    + left. reflexivity.
    + reflexivity.
Defined.

(** C4 fails on src/index.ts: after the same response the prepare
    request is sent, without a signature, and the protocol runs to its
    end. *)
Lemma C4_index_ts_prepares_without_signature :
  fetch Scenario.badSignature "/fake-endpoint" None
  = FetchResponse true (inr (sigJson (Some "") (Some "123"))) /\
  network_calls
    (trace (IndexTs.upload (IndexTs.mkFactoryOptions "pk_123") Scenario.testFile
              (IndexTs.mkOptions None (Some "/fake-endpoint") false)
              Scenario.badSignature))
  = [EvFetch "/fake-endpoint" None;
     EvFetch prepareUrl (Some (Scenario.testPrepareSigned None));
     EvAxiosPost (Some "https://bucket.example/upload")
       (Scenario.testForm Scenario.testFile);
     EvFetch confirmUrl
       (Some (mkInit "POST" [("x-public-key", "pk_123")]
                (ConfirmBody (Some "tok_1"))))] /\
  outcome (IndexTs.upload (IndexTs.mkFactoryOptions "pk_123") Scenario.testFile
             (IndexTs.mkOptions None (Some "/fake-endpoint") false)
             Scenario.badSignature)
  = inr (resultJson "file_1" "https://cdn.example/uploads/test.txt"
                    "uploads/test.txt" "test.txt" 4 "text/plain").
Proof. repeat split. Qed.

(* ===================================================================== *)
(** ** Blobs without a name *)
(* ===================================================================== *)

(** In the [generateSig] revision a nameless Blob is named after 8
    random bytes, and the prepare request carries that name. *)
Lemma part001_blob_gets_random_name :
  forall (pk : string) (handleSignature : option string) (type : string) (size : N)
         (options : Part001.UploadOptions) (env : Env),
    pk <> "" -> Js.startsWith pk "sk_" = false ->
    Js.truthy_opt (Part001.name options) = false ->
    let o := Part001.mkUploaderOptions pk handleSignature in
    let generated := Crypto.hex (Crypto.randomBytes (entropy env) 8) in
    let meta := mkFileMeta generated type size (spread_if (Part001.path options)) in
    String.length generated = 16 /\
    Js.string_forallb Js.is_lower_hex generated = true /\
    (exists rest,
       trace (Part001.upload o (IsBlob type size) options env)
       = EvRandomBytes 8 :: rest) /\
    (forall init,
       In (EvFetch prepareUrl (Some init))
          (trace (Part001.upload o (IsBlob type size) options env)) ->
       exists signature payload, body init = PrepareBody meta signature payload) /\
    (forall sp,
       outcome (Part001.fetchSignature env handleSignature) = inr sp ->
       In (EvFetch prepareUrl
             (Some (prepareInit (Part001.requestHeaders env pk) meta sp)))
          (trace (Part001.upload o (IsBlob type size) options env))).
Proof.
  intros pk hs type size options env Hne Hsk Hname o generated meta.
  pose proof (truthy_of_nonempty pk Hne) as Ht.
  split; [subst generated; now rewrite hex_length, randomBytes_length|].
  split; [apply hex_lower|].
  assert (Hrun :
    Part001.upload o (IsBlob type size) options env
    = (emit (EvRandomBytes 8) ;;
       sp <- Part001.fetchSignature env hs ;;
       json <- prepare env (Part001.requestHeaders env pk) meta sp ;;
       Part001.afterPrepare env (Part001.requestHeaders env pk)
         (IsBlob type size) options json)).
  { unfold Part001.upload. cbn [Part001.publicKey Part001.handleSignature o].
    rewrite Ht, Hsk. cbn [negb].
    destruct (displayName_cases env (IsBlob type size) options)
      as [(n & Hn & Htn & _) | [_ H]].
    { rewrite Hn in Hname. cbn [Js.truthy_opt] in Hname. congruence. }
    rewrite H. reflexivity. }
  rewrite Hrun. rewrite bind_trace. cbn [emit trace outcome fst snd app].
  split; [eauto|].
  rewrite bind_trace.
  split.
  - intros init [Hin | Hin]; [discriminate|].
    apply in_app_or in Hin. destruct Hin as [Hin | Hin].
    + exfalso.
      destruct (part001_fetchSignature_cases env hs)
        as [[_ Hs] | (u & _ & _ & Hst & _)].
      * rewrite Hs in Hin. destruct Hin.
      * rewrite Hst in Hin. destruct Hin as [Hin | []]. discriminate.
    + destruct (outcome (Part001.fetchSignature env hs)) as [e | sp];
        [destruct Hin|].
      rewrite bind_trace, prepare_trace in Hin.
      destruct Hin as [Hin | Hin].
      * injection Hin as <-. eexists _, _. reflexivity.
      * exfalso.
        destruct (outcome (prepare _ _ _ _)); [destruct Hin|].
        apply part001_afterPrepare_events in Hin.
        destruct Hin as [(u & d & Hin) | [(ev & Hin) | (i & Hin)]]; discriminate.
  - intros sp Hsp. rewrite Hsp. right. apply in_or_app. right.
    rewrite bind_trace, prepare_trace. left. reflexivity.
Qed.

(** src/index.ts refuses every Blob that is not a File. *)
Lemma index_ts_refuses_blobs pk type size options env :
  pk <> "" -> Js.startsWith pk "sk_" = false ->
  rejects_before_any_call
    (IndexTs.upload (IndexTs.mkFactoryOptions pk) (IsBlob type size) options env)
    "File passed in is invalid".
Proof.
  intros Hne Hsk. unfold rejects_before_any_call, IndexTs.upload.
  cbn [IndexTs.publicKey]. now rewrite (truthy_of_nonempty pk Hne), Hsk.
Qed.

(** C5, by revision.  Where the upload function takes a File or a Blob
    (the [generateSig] revision): for a Blob that is not a File, a
    valid public key and options without a truthy name, the upload
    passes the file check and draws 8 random bytes; their hex form, 16
    lowercase hex digits, is the file name of every prepare request the
    run sends, and the prepare request is sent whenever the signature
    step (if any) succeeds.  In src/index.ts, which takes a File: such
    a Blob has no name and is refused with "File passed in is invalid"
    before any call. *)
Theorem C5_nameless_blob_by_revision :
  forall (pk : string) (type : string) (size : N) (env : Env),
    pk <> "" -> Js.startsWith pk "sk_" = false ->
    (forall (handleSignature : option string) (options : Part001.UploadOptions),
       Js.truthy_opt (Part001.name options) = false ->
       let o := Part001.mkUploaderOptions pk handleSignature in
       let generated := Crypto.hex (Crypto.randomBytes (entropy env) 8) in
       let meta :=
         mkFileMeta generated type size (spread_if (Part001.path options)) in
       String.length generated = 16 /\
       Js.string_forallb Js.is_lower_hex generated = true /\
       (exists rest,
          trace (Part001.upload o (IsBlob type size) options env)
          = EvRandomBytes 8 :: rest) /\
       (forall init,
          In (EvFetch prepareUrl (Some init))
             (trace (Part001.upload o (IsBlob type size) options env)) ->
          exists signature payload,
            body init = PrepareBody meta signature payload) /\
       (forall sp,
          outcome (Part001.fetchSignature env handleSignature) = inr sp ->
          In (EvFetch prepareUrl
                (Some (prepareInit (Part001.requestHeaders env pk) meta sp)))
             (trace (Part001.upload o (IsBlob type size) options env)))) /\
    (forall (options : IndexTs.UploadOptions),
       rejects_before_any_call
         (IndexTs.upload (IndexTs.mkFactoryOptions pk) (IsBlob type size)
            options env)
         "File passed in is invalid").
Proof.
  intros pk type size env Hne Hsk. split.
  - intros hs options Hname.
    exact (part001_blob_gets_random_name pk hs type size options env Hne Hsk Hname).
  - intros options. now apply index_ts_refuses_blobs.
Qed.

(** The Blob of the test suite, in both revisions. *)
Lemma C5_witness :
  In (EvFetch prepareUrl
        (Some (prepareInit [("x-public-key", "pk_123")]
                 (mkFileMeta "031425364758697a" "text/plain" 4 None)
                 (None, None))))
     (trace (Part001.upload (Part001.mkUploaderOptions "pk_123" None)
               Scenario.testBlob Part001.defaultOptions Scenario.happy)) /\
  rejects_before_any_call
    (IndexTs.upload (IndexTs.mkFactoryOptions "pk_123") Scenario.testBlob
       IndexTs.defaultOptions Scenario.happy)
    "File passed in is invalid".
Proof.
  destruct (C5_nameless_blob_by_revision "pk_123" "text/plain" 4 Scenario.happy
              ltac:(discriminate) eq_refl) as [H1 H2].
  split.
  - exact (proj2 (proj2 (proj2 (proj2 (H1 None Part001.defaultOptions eq_refl))))
             (None, None) eq_refl).
  - exact (H2 IndexTs.defaultOptions).
Defined.

(** C5 fails on src/index.ts, which takes a [File]: a Blob has no name
    and is refused by the file check, before any call. *)
Lemma C5_index_ts_refuses_blob :
  rejects_before_any_call
    (IndexTs.upload (IndexTs.mkFactoryOptions "pk_123") Scenario.testBlob
       IndexTs.defaultOptions Scenario.happy)
    "File passed in is invalid".
Proof. reflexivity. Qed.

(* ===================================================================== *)
(** ** Progress reports and the transfer status *)
(* ===================================================================== *)

(** Every value the callback receives is the report of a progress
    event, in both revisions. *)
Lemma part001_reports o file options env p :
  In (EvOnProgress p) (trace (Part001.upload o file options env)) ->
  exists ev, p = report ev.
Proof.
  unfold Part001.upload.
  destruct (negb (Js.truthy (Part001.publicKey o))); [intros []|].
  destruct (Js.startsWith (Part001.publicKey o) "sk_"); [intros []|].
  assert (Hgen : forall type size,
    In (EvOnProgress p)
       (trace (name <- Part001.displayName env file options ;;
               let hdrs := Part001.requestHeaders env (Part001.publicKey o) in
               sp <- Part001.fetchSignature env (Part001.handleSignature o) ;;
               json <- prepare env hdrs
                 (mkFileMeta name type size (spread_if (Part001.path options))) sp ;;
               Part001.afterPrepare env hdrs file options json)) ->
    exists ev, p = report ev).
  { intros type size.
    destruct (displayName_run env file options) as (tn & nm & Hn & Htn).
    rewrite Hn, bind_run. cbn [trace outcome fst snd]. intros Hin.
    apply in_app_or in Hin. destruct Hin as [Hin | Hin].
    { destruct Htn as [-> | ->]; [destruct Hin | destruct Hin as [Hin | []]; discriminate]. }
    rewrite bind_trace in Hin. apply in_app_or in Hin. destruct Hin as [Hin | Hin].
    { destruct (part001_fetchSignature_cases env (Part001.handleSignature o))
        as [[_ Hs] | (hs & _ & _ & Hst & _)].
      - rewrite Hs in Hin. destruct Hin.
      - rewrite Hst in Hin. destruct Hin as [Hin | []]. discriminate. }
    destruct (outcome (Part001.fetchSignature _ _)) as [err | sp]; [destruct Hin|].
    apply part001_from_prepare_events in Hin.
    destruct Hin as [(i & Hin) | [(u & d & Hin) | [(ev & Hin) | (i & Hin)]]];
      try discriminate.
    injection Hin as ->. eauto. }
  destruct file as [n type size | type size | n t s];
    [apply Hgen | apply Hgen | intros []].
Qed.

Lemma index_ts_reports o file options env p :
  In (EvOnProgress p) (trace (IndexTs.upload o file options env)) ->
  exists ev, p = report ev.
Proof.
  unfold IndexTs.upload.
  destruct (negb (Js.truthy (IndexTs.publicKey o))); [intros []|].
  destruct (Js.startsWith (IndexTs.publicKey o) "sk_"); [intros []|].
  destruct (IndexTs.validFile file) as [[[name type] size]|]; [|intros []].
  rewrite bind_trace. intros Hin.
  apply in_app_or in Hin. destruct Hin as [Hin | Hin].
  { destruct (index_ts_fetchSignature_cases env (IndexTs.handleSignature options))
      as [[_ Hs] | (hs & _ & _ & Hst & _)].
    - rewrite Hs in Hin. destruct Hin.
    - rewrite Hst in Hin. destruct Hin as [Hin | []]. discriminate. }
  destruct (outcome (IndexTs.fetchSignature _ _)) as [err | sp]; [destruct Hin|].
  apply index_ts_from_prepare_events in Hin.
  destruct Hin as [(i & Hin) | [(u & d & Hin) | [(ev & Hin) | (i & Hin)]]];
    try discriminate.
  injection Hin as ->. eauto.
Qed.

(** [round_div] is the nearest integer, halves up. *)
Lemma round_div_nearest (num den : N) :
  (0 < den)%N ->
  (2 * den * Js.round_div num den <= 2 * num + den
   /\ 2 * num + den < 2 * den * (Js.round_div num den + 1))%N.
Proof.
  intros Hden. unfold Js.round_div.
  pose proof (N.div_mod (2 * num + den) (2 * den) ltac:(lia)) as Hdm.
  pose proof (N.mod_lt (2 * num + den) (2 * den) ltac:(lia)) as Hlt.
  set (q := ((2 * num + den) / (2 * den))%N) in *.
  set (r := ((2 * num + den) mod (2 * den))%N) in *.
  split; lia.
Qed.

(** What a report holds: the formula of the source, the default total. *)
Lemma report_spec (ev : AxiosProgressEvent) :
  loaded (report ev) = ev_loaded ev /\
  total (report ev) = Js.num_or (ev_total ev) 1 /\
  percent (report ev) = Js.round_div (ev_loaded ev * 100) (total (report ev)) /\
  (0 < total (report ev))%N /\
  (ev_total ev = None -> total (report ev) = 1%N) /\
  (ev_total ev = Some 0%N -> total (report ev) = 1%N).
Proof.
  unfold report. cbn [loaded total percent].
  repeat split.
  - unfold Js.num_or, Js.truthy_num. destruct (ev_total ev) as [t|]; [|lia].
    destruct (N.eqb_spec t 0); cbn [negb]; lia.
  - intros ->. reflexivity.
  - intros ->. reflexivity.
Qed.

(** The percentage stays within 0..100 as long as no more is loaded
    than the known, non-zero total. *)
Lemma percent_bounded (ev : AxiosProgressEvent) (t : N) :
  ev_total ev = Some t -> (0 < t)%N -> (ev_loaded ev <= t)%N ->
  (percent (report ev) <= 100)%N.
Proof.
  intros Ht Hpos Hle. unfold report. cbn [percent]. rewrite Ht.
  unfold Js.num_or, Js.truthy_num.
  destruct (N.eqb_spec t 0); [lia|]. cbn [negb].
  unfold Js.round_div.
  apply N.lt_succ_r. apply N.Div0.div_lt_upper_bound; lia.
Qed.

(** With an unknown total the percentage is a hundred times the bytes
    loaded. *)
Lemma percent_unknown_total (ev : AxiosProgressEvent) :
  ev_total ev = None -> percent (report ev) = (ev_loaded ev * 100)%N.
Proof.
  intros Ht. unfold report. cbn [percent]. rewrite Ht. cbn [Js.num_or].
  unfold Js.round_div.
  replace (2 * (ev_loaded ev * 100) + 1)%N with (1 + (ev_loaded ev * 100) * (2 * 1))%N by lia.
  rewrite N.div_add by lia. reflexivity.
Qed.

Lemma status_outside_2xx (status : Z) :
  (status < 200 \/ 300 <= status)%Z ->
  ((status <? 200) || (status >=? 300))%Z = true /\
  defaultValidateStatus status = false.
Proof.
  intros H. unfold defaultValidateStatus. split.
  - apply orb_true_iff. destruct H; [left | right]; lia.
  - apply andb_false_iff. destruct H; [left | right]; lia.
Qed.

(** src/index.ts lets every status through axios and judges it itself:
    a status outside 200..299 is "Failed to upload file". *)
Lemma index_ts_non_2xx_fails_upload o file options env url data status :
  In (EvAxiosPost url data) (trace (IndexTs.upload o file options env)) ->
  settled (transport env url data) = AxiosHttp status ->
  (status < 200 \/ 300 <= status)%Z ->
  rejects_with (IndexTs.upload o file options env) "Failed to upload file".
Proof.
  intros Hin Hset Hst. unfold IndexTs.upload, rejects_with in *.
  destruct (negb (Js.truthy (IndexTs.publicKey o))); [destruct Hin|].
  destruct (Js.startsWith (IndexTs.publicKey o) "sk_"); [destruct Hin|].
  destruct (IndexTs.validFile file) as [[[name type] size]|]; [|destruct Hin].
  rewrite bind_trace in Hin. rewrite bind_outcome.
  apply in_app_or in Hin. destruct Hin as [Hin | Hin].
  { exfalso.
    destruct (index_ts_fetchSignature_cases env (IndexTs.handleSignature options))
      as [[_ Hs] | (hs & _ & _ & Hs & _)]; rewrite Hs in Hin.
    - destruct Hin.
    - destruct Hin as [Hin | []]. discriminate. }
  destruct (outcome (IndexTs.fetchSignature _ _)) as [err | sp]; [destruct Hin|].
  rewrite bind_trace, prepare_trace in Hin. rewrite bind_outcome.
  destruct Hin as [Hin | Hin]; [discriminate|].
  destruct (outcome (prepare _ _ _ _)) as [err | json]; [destruct Hin|].
  unfold IndexTs.afterPrepare in *.
  destruct (j_fields json) as [fields|]; [|destruct Hin].
  rewrite bind_trace, transfer_trace in Hin.
  rewrite bind_outcome, transfer_outcome, axios_post_outcome.
  assert (Heq : url = j_url json /\ data = formDataOf fields file).
  { destruct Hin as [Hin | Hin]; [injection Hin as <- <-; auto|].
    exfalso. apply in_app_or in Hin. destruct Hin as [Hin | Hin].
    - apply in_flat_map in Hin. destruct Hin as (ev & _ & Hin).
      unfold onUploadProgress in Hin.
      destruct (IndexTs.onProgress options); [|destruct Hin].
      destruct Hin as [Hin | []]. discriminate.
    - destruct (outcome (transfer _ _ _ _ _ _)); [destruct Hin|].
      rewrite confirm_trace in Hin. destruct Hin as [Hin | []]. discriminate. }
  destruct Heq as [-> ->]. rewrite Hset. rewrite orb_true_r.
  now rewrite (proj1 (status_outside_2xx status Hst)).
Qed.

(** The [generateSig] revision leaves [validateStatus] to axios, which
    rejects such a response itself: the upload fails with axios'
    message and the status check of the source is never reached with
    it. *)
Lemma part001_non_2xx_axios_error o file options env url data status :
  In (EvAxiosPost url data) (trace (Part001.upload o file options env)) ->
  settled (transport env url data) = AxiosHttp status ->
  (status < 200 \/ 300 <= status)%Z -> status <> 0%Z ->
  rejects_with (Part001.upload o file options env)
    ("Request failed with status code " ++ Js.string_of_number status).
Proof.
  intros Hin Hset Hst Hnz. unfold Part001.upload, rejects_with in *.
  destruct (negb (Js.truthy (Part001.publicKey o))); [destruct Hin|].
  destruct (Js.startsWith (Part001.publicKey o) "sk_"); [destruct Hin|].
  set (hdrs := Part001.requestHeaders env (Part001.publicKey o)) in *.
  assert (Hgen : forall type size,
    let r := (name <- Part001.displayName env file options ;;
              sp <- Part001.fetchSignature env (Part001.handleSignature o) ;;
              json <- prepare env hdrs
                (mkFileMeta name type size (spread_if (Part001.path options))) sp ;;
              Part001.afterPrepare env hdrs file options json) in
    In (EvAxiosPost url data) (trace r) ->
    outcome r
    = inl (Error ("Request failed with status code " ++ Js.string_of_number status))).
  { clear Hin. intros type size r Hin. subst r.
    destruct (displayName_run env file options) as (tn & nm & Hn & Htn).
    rewrite Hn in *. rewrite bind_run in *. cbn [trace outcome fst snd] in *.
    apply in_app_or in Hin. destruct Hin as [Hin | Hin].
    { destruct Htn as [-> | ->]; [destruct Hin | destruct Hin as [Hin | []]; discriminate]. }
    rewrite bind_trace in Hin. rewrite bind_outcome.
    apply in_app_or in Hin. destruct Hin as [Hin | Hin].
    { exfalso.
      destruct (part001_fetchSignature_cases env (Part001.handleSignature o))
        as [[_ Hs] | (hs & _ & _ & Hs & _)]; rewrite Hs in Hin.
      - destruct Hin.
      - destruct Hin as [Hin | []]. discriminate. }
    destruct (outcome (Part001.fetchSignature _ _)) as [err | sp]; [destruct Hin|].
    rewrite bind_trace, prepare_trace in Hin. rewrite bind_outcome.
    destruct Hin as [Hin | Hin]; [discriminate|].
    destruct (outcome (prepare _ _ _ _)) as [err | json]; [destruct Hin|].
    unfold Part001.afterPrepare in *.
    destruct (j_fields json) as [fields|]; [|destruct Hin].
    destruct (negb _ || negb _); [destruct Hin|].
    rewrite bind_trace, transfer_trace in Hin.
    rewrite bind_outcome, transfer_outcome, axios_post_outcome.
    assert (Heq : url = j_url json /\ data = formDataOf fields file).
    { destruct Hin as [Hin | Hin]; [injection Hin as <- <-; auto|].
      exfalso. apply in_app_or in Hin. destruct Hin as [Hin | Hin].
      - apply in_flat_map in Hin. destruct Hin as (ev & _ & Hin).
        unfold onUploadProgress in Hin.
        destruct (Part001.onProgress options); [|destruct Hin].
        destruct Hin as [Hin | []]. discriminate.
      - destruct (outcome (transfer _ _ _ _ _ _)); [destruct Hin|].
        rewrite confirm_trace in Hin. destruct Hin as [Hin | []]. discriminate. }
    destruct Heq as [-> ->]. rewrite Hset.
    rewrite (proj2 (Z.eqb_neq status 0) Hnz).
    now rewrite (proj2 (status_outside_2xx status Hst)). }
  destruct file as [n type size | type size | n t s];
    [now apply Hgen | now apply Hgen | destruct Hin].
Qed.

(** C1, at a progress event whose total is unknown: five bytes loaded
    are reported to the callback as 500 percent of a total of 1, in
    both revisions.  Every reported value follows the formula of the
    source, with the default total ([index_ts_reports],
    [part001_reports], [report_spec], [round_div_nearest]); the
    percentage stays within 0..100 only while no more is loaded than a
    known total ([percent_bounded]). *)
Theorem C1_unknown_total_reports_500_percent :
  progressEvents
    (transport Scenario.unknownTotal (Some "https://bucket.example/upload")
       (Scenario.testForm Scenario.testFile))
  = [mkProgressEvent 5 None] /\
  reported
    (trace (IndexTs.upload (IndexTs.mkFactoryOptions "pk_123") Scenario.testFile
              (IndexTs.mkOptions None None true) Scenario.unknownTotal))
  = [mkProgress 500 5 1] /\
  reported
    (trace (Part001.upload (Part001.mkUploaderOptions "pk_123" None)
              Scenario.testFile (Part001.mkOptions None None true)
              Scenario.unknownTotal))
  = [mkProgress 500 5 1].
Proof. repeat split. Qed.

(** C3, at a destination that answers 403: src/index.ts rejects with
    "Failed to upload file"; the [generateSig] revision rejects with axios'
    "Request failed with status code 403", its own status check never
    being reached ([part001_non_2xx_axios_error] for every such
    status). *)
Theorem C3_forbidden_transfer_outcomes :
  settled
    (transport Scenario.forbidden (Some "https://bucket.example/upload")
       (Scenario.testForm Scenario.testFile))
  = AxiosHttp 403 /\
  outcome (IndexTs.upload (IndexTs.mkFactoryOptions "pk_123") Scenario.testFile
             IndexTs.defaultOptions Scenario.forbidden)
  = inl (Error "Failed to upload file") /\
  outcome (Part001.upload (Part001.mkUploaderOptions "pk_123" None)
             Scenario.testFile Part001.defaultOptions Scenario.forbidden)
  = inl (Error "Request failed with status code 403").
Proof. repeat split. Qed.
(* ===================================================================== *)
(** ** The run as a whole *)
(* ===================================================================== *)

Lemma confirm_outcome env hdrs tok :
  outcome (confirm env hdrs tok)
  = match fetch env confirmUrl
            (Some (mkInit "POST" hdrs (ConfirmBody tok))) with
    | FetchRejected reason => inl (Error reason)
    | FetchResponse _ (inl reason) => inl (Error reason)
    | FetchResponse true (inr json) => inr json
    | FetchResponse false (inr json) => outcome (@throw_error_of JsonBody json)
    end.
Proof.
  unfold confirm. rewrite bind_outcome, await_fetch_outcome.
  destruct (fetch env confirmUrl _) as [r | ok body]; [reflexivity|].
  rewrite read_body_run. destruct ok, body; reflexivity.
Qed.

(** A run is its trace and its outcome. *)
Lemma run_eta {A} (r : Run A) : r = (trace r, outcome r).
Proof. destruct r; reflexivity. Qed.

(** The transfer and confirm steps, written out: the post, one
    callback per progress event, and the confirm request exactly when
    the post resolved to a status in 200..299. *)
Lemma transfer_then_confirm_run env hdrs url fields file onProgress validateStatus tok :
  (transfer env url fields file onProgress validateStatus ;;
   confirm env hdrs tok)
  = (EvAxiosPost url (formDataOf fields file)
       :: flat_map (onUploadProgress onProgress)
            (progressEvents (transport env url (formDataOf fields file)))
       ++ match outcome (transfer env url fields file onProgress validateStatus) with
          | inl _ => []
          | inr _ => [EvFetch confirmUrl (Some (mkInit "POST" hdrs (ConfirmBody tok)))]
          end,
     match outcome (transfer env url fields file onProgress validateStatus) with
     | inl e => inl e
     | inr _ => outcome (confirm env hdrs tok)
     end).
Proof.
  rewrite bind_run, transfer_trace, confirm_trace. reflexivity.
Qed.

(** When the transfer step succeeds: the destination answered, axios
    let the status through and it lies in 200..299. *)
Lemma transfer_succeeds_iff env url fields file onProgress validateStatus :
  outcome (transfer env url fields file onProgress validateStatus) = inr tt <->
  exists status,
    settled (transport env url (formDataOf fields file)) = AxiosHttp status /\
    (200 <= status < 300)%Z /\
    match validateStatus with
    | Some v => v status = true
    | None => True
    end.
Proof.
  rewrite transfer_outcome, axios_post_outcome.
  destruct (settled (transport env url (formDataOf fields file))) as [r | status].
  - split; [discriminate | intros (st & H & _); discriminate].
  - split.
    + intros H. exists status. split; [reflexivity|].
      destruct ((status =? 0)%Z || _) eqn:Hv; [|discriminate].
      destruct ((status <? 200)%Z || (status >=? 300)%Z) eqn:Hs; [discriminate|].
      apply orb_false_iff in Hs. destruct Hs as [H1 H2].
      split; [lia|].
      apply orb_true_iff in Hv. destruct Hv as [Hv | Hv]; [lia|].
      destruct validateStatus; [exact Hv | exact I].
    + intros (st & Hst & Hr & Hv). injection Hst as <-.
      replace ((status =? 0)%Z || _) with true.
      * replace ((status <? 200)%Z || (status >=? 300)%Z) with false; [reflexivity|].
        symmetry. apply orb_false_iff. split; lia.
      * symmetry. apply orb_true_iff. right.
        destruct validateStatus; [exact Hv|].
        unfold defaultValidateStatus. apply andb_true_iff. split; lia.
Qed.

(** The upload of the [generateSig] revision, past its checks: the
    name, the signature step, the prepare step and what follows. *)
Lemma part001_run_cases o file options env :
  (exists m, Part001.upload o file options env = ([], inl (Error m)) /\
     (Js.truthy (Part001.publicKey o) = false
      \/ Js.startsWith (Part001.publicKey o) "sk_" = true
      \/ instanceofBlob file = false)) \/
  (exists type size tn nm,
     Js.truthy (Part001.publicKey o) = true /\
     Js.startsWith (Part001.publicKey o) "sk_" = false /\
     file_type file = Some type /\ file_size file = Some size /\
     instanceofBlob file = true /\
     Part001.displayName env file options = (tn, inr nm) /\
     (tn = [] \/ tn = [EvRandomBytes 8]) /\
     Part001.upload o file options env
     = (emits tn ;;
        sp <- Part001.fetchSignature env (Part001.handleSignature o) ;;
        json <- prepare env (Part001.requestHeaders env (Part001.publicKey o))
                  (mkFileMeta nm type size (spread_if (Part001.path options))) sp ;;
        Part001.afterPrepare env (Part001.requestHeaders env (Part001.publicKey o))
          file options json)).
Proof.
  unfold Part001.upload.
  destruct (Js.truthy (Part001.publicKey o)) eqn:Ht; cbn [negb];
    [|left; eexists; split; [reflexivity | auto]].
  destruct (Js.startsWith (Part001.publicKey o) "sk_") eqn:Hsk;
    [left; eexists; split; [reflexivity | auto]|].
  destruct (displayName_run env file options) as (tn & nm & Hn & Htn).
  destruct file as [n type size | type size | n t s];
    [right | right | left; eexists; split; [reflexivity | auto]];
    exists type, size, tn, nm; rewrite Hn;
    repeat (split; [first [reflexivity | assumption]|]);
    unfold emits; rewrite !(bind_run (tn, _)); reflexivity.
Qed.

(** The same for src/index.ts. *)
Lemma index_ts_run_cases o file options env :
  (exists m, IndexTs.upload o file options env = ([], inl (Error m)) /\
     (Js.truthy (IndexTs.publicKey o) = false
      \/ Js.startsWith (IndexTs.publicKey o) "sk_" = true
      \/ IndexTs.validFile file = None)) \/
  (exists name type size,
     Js.truthy (IndexTs.publicKey o) = true /\
     Js.startsWith (IndexTs.publicKey o) "sk_" = false /\
     IndexTs.validFile file = Some (name, type, size) /\
     IndexTs.upload o file options env
     = (sp <- IndexTs.fetchSignature env (IndexTs.handleSignature options) ;;
        json <- prepare env [("x-public-key", IndexTs.publicKey o)]
                  (mkFileMeta name type size (spread_if (IndexTs.path options))) sp ;;
        IndexTs.afterPrepare env [("x-public-key", IndexTs.publicKey o)]
          file options json)).
Proof.
  unfold IndexTs.upload.
  destruct (Js.truthy (IndexTs.publicKey o)) eqn:Ht; cbn [negb];
    [|left; eexists; split; [reflexivity | auto]].
  destruct (Js.startsWith (IndexTs.publicKey o) "sk_") eqn:Hsk;
    [left; eexists; split; [reflexivity | auto]|].
  destruct (IndexTs.validFile file) as [[[name type] size]|] eqn:Hv;
    [|left; eexists; split; [reflexivity | auto]].
  right. exists name, type, size. auto.
Qed.

(* ===================================================================== *)
(** ** The order of the network calls *)
(* ===================================================================== *)









(* ===================================================================== *)
(** ** Every event of a run, and where it comes from *)
(* ===================================================================== *)

(** What follows an accepted prepare response, event by event: the
    post of the returned fields and the file to the returned url, a
    callback per progress event when a callback was given, and the
    confirm request, with the returned token, once the transfer
    succeeded. *)
Lemma steps_3_4_events env hdrs url fields file onProgress validateStatus tok e :
  In e (trace (transfer env url fields file onProgress validateStatus ;;
               confirm env hdrs tok)) ->
  e = EvAxiosPost url (formDataOf fields file) \/
  (exists ev,
     In ev (progressEvents (transport env url (formDataOf fields file))) /\
     onProgress = true /\ e = EvOnProgress (report ev)) \/
  (e = EvFetch confirmUrl (Some (mkInit "POST" hdrs (ConfirmBody tok))) /\
   outcome (transfer env url fields file onProgress validateStatus) = inr tt).
Proof.
  rewrite transfer_then_confirm_run. cbn [trace fst].
  intros [<- | Hin]; [now left|]. right.
  apply in_app_or in Hin. destruct Hin as [Hin | Hin].
  - left. apply in_flat_map in Hin. destruct Hin as (ev & Hev & He).
    unfold onUploadProgress in He. destruct onProgress; [|destruct He].
    destruct He as [<- | []]. eauto.
  - right. destruct (outcome (transfer _ _ _ _ _ _)) as [err | []];
      [destruct Hin|]. destruct Hin as [<- | []]. auto.
Qed.

(** Where each event of an upload of the [generateSig] revision comes
    from. *)
Lemma part001_events o file options env e :
  In e (trace (Part001.upload o file options env)) ->
  let hdrs := Part001.requestHeaders env (Part001.publicKey o) in
  (e = EvRandomBytes 8 /\
   Part001.displayName env file options
   = ([EvRandomBytes 8], inr (Crypto.hex (Crypto.randomBytes (entropy env) 8)))) \/
  (exists hs, Part001.handleSignature o = Some hs /\ Js.truthy hs = true /\
     e = EvFetch hs None) \/
  (exists tn nm type size sp,
     Part001.displayName env file options = (tn, inr nm) /\
     file_type file = Some type /\ file_size file = Some size /\
     outcome (Part001.fetchSignature env (Part001.handleSignature o)) = inr sp /\
     let init := prepareInit hdrs
                   (mkFileMeta nm type size (spread_if (Part001.path options))) sp in
     e = EvFetch prepareUrl (Some init) \/
     exists json fields,
       fetch env prepareUrl (Some init) = FetchResponse true (inr json) /\
       j_fields json = Some fields /\
       Js.truthy_opt (j_url json) = true /\
       Js.truthy_opt (j_confirmToken json) = true /\
       (e = EvAxiosPost (j_url json) (formDataOf fields file) \/
        (exists ev,
           In ev (progressEvents
                    (transport env (j_url json) (formDataOf fields file))) /\
           Part001.onProgress options = true /\ e = EvOnProgress (report ev)) \/
        (e = EvFetch confirmUrl
               (Some (mkInit "POST" hdrs (ConfirmBody (j_confirmToken json)))) /\
         outcome (transfer env (j_url json) fields file
                    (Part001.onProgress options) None) = inr tt))).
Proof.
  intros Hin hdrs.
  destruct (part001_run_cases o file options env)
    as [(m & Hr & _) | (type & size & tn & nm & _ & _ & Hty & Hsz & _ & Hn & Htn & Hr)];
    rewrite Hr in Hin; [destruct Hin|]. clear Hr.
  fold hdrs in Hin.
  rewrite bind_trace in Hin. cbn [emits trace outcome fst snd] in Hin.
  apply in_app_or in Hin. destruct Hin as [Hin | Hin].
  { left. destruct Htn as [-> | ->]; [destruct Hin|]. destruct Hin as [<- | []].
    split; [reflexivity|].
    destruct (displayName_cases env file options) as [(n & _ & _ & H) | [_ H]];
      [congruence|].
    destruct file; congruence. }
  right. rewrite bind_trace in Hin.
  apply in_app_or in Hin. destruct Hin as [Hin | Hin].
  { left.
    destruct (part001_fetchSignature_cases env (Part001.handleSignature o))
      as [[_ Hs] | (hs & Hhs & Hths & Hst & _)].
    - rewrite Hs in Hin. destruct Hin.
    - rewrite Hst in Hin. destruct Hin as [<- | []]. eauto. }
  right.
  destruct (outcome (Part001.fetchSignature _ _)) as [err | sp] eqn:Hsp;
    [destruct Hin|].
  exists tn, nm, type, size, sp. repeat (split; [assumption || reflexivity|]).
  intros init. fold init in Hin.
  rewrite bind_trace, prepare_trace, prepare_outcome in Hin. fold init in Hin.
  destruct Hin as [<- | Hin]; [now left|]. right.
  destruct (fetch env prepareUrl (Some init)) as [r | [|] [reason | json]];
    cbn in Hin; try (destruct Hin; fail).
  - exists json. unfold Part001.afterPrepare in Hin.
    destruct (j_fields json) as [fields|]; [|destruct Hin].
    exists fields.
    destruct (Js.truthy_opt (j_url json)); [|destruct Hin].
    destruct (Js.truthy_opt (j_confirmToken json)); [|destruct Hin].
    cbn [negb orb] in Hin.
    repeat (split; [reflexivity|]).
    now apply steps_3_4_events in Hin.
  - destruct (@throw_error_of_run JsonBody json) as [m Hm].
    rewrite Hm in Hin. destruct Hin.
Qed.

(** Where each event of an upload of src/index.ts comes from. *)
Lemma index_ts_events o file options env e :
  In e (trace (IndexTs.upload o file options env)) ->
  let hdrs := [("x-public-key", IndexTs.publicKey o)] in
  (exists hs, IndexTs.handleSignature options = Some hs /\ Js.truthy hs = true /\
     e = EvFetch hs None) \/
  (exists name type size sp,
     IndexTs.validFile file = Some (name, type, size) /\
     outcome (IndexTs.fetchSignature env (IndexTs.handleSignature options)) = inr sp /\
     let init := prepareInit hdrs
                   (mkFileMeta name type size (spread_if (IndexTs.path options))) sp in
     e = EvFetch prepareUrl (Some init) \/
     exists json fields,
       fetch env prepareUrl (Some init) = FetchResponse true (inr json) /\
       j_fields json = Some fields /\
       (e = EvAxiosPost (j_url json) (formDataOf fields file) \/
        (exists ev,
           In ev (progressEvents
                    (transport env (j_url json) (formDataOf fields file))) /\
           IndexTs.onProgress options = true /\ e = EvOnProgress (report ev)) \/
        (e = EvFetch confirmUrl
               (Some (mkInit "POST" hdrs (ConfirmBody (j_confirmToken json)))) /\
         outcome (transfer env (j_url json) fields file
                    (IndexTs.onProgress options) (Some (fun _ => true))) = inr tt))).
Proof.
  intros Hin hdrs.
  destruct (index_ts_run_cases o file options env)
    as [(m & Hr & _) | (name & type & size & _ & _ & Hv & Hr)];
    rewrite Hr in Hin; [destruct Hin|]. clear Hr.
  fold hdrs in Hin.
  rewrite bind_trace in Hin.
  apply in_app_or in Hin. destruct Hin as [Hin | Hin].
  { left.
    destruct (index_ts_fetchSignature_cases env (IndexTs.handleSignature options))
      as [[_ Hs] | (hs & Hhs & Hths & Hst & _)].
    - rewrite Hs in Hin. destruct Hin.
    - rewrite Hst in Hin. destruct Hin as [<- | []]. eauto. }
  right.
  destruct (outcome (IndexTs.fetchSignature _ _)) as [err | sp] eqn:Hsp;
    [destruct Hin|].
  exists name, type, size, sp. repeat (split; [assumption || reflexivity|]).
  intros init. fold init in Hin.
  rewrite bind_trace, prepare_trace, prepare_outcome in Hin. fold init in Hin.
  destruct Hin as [<- | Hin]; [now left|]. right.
  destruct (fetch env prepareUrl (Some init)) as [r | [|] [reason | json]];
    cbn in Hin; try (destruct Hin; fail).
  - exists json. unfold IndexTs.afterPrepare in Hin.
    destruct (j_fields json) as [fields|]; [|destruct Hin].
    exists fields. repeat (split; [reflexivity|]).
    now apply steps_3_4_events in Hin.
  - destruct (@throw_error_of_run JsonBody json) as [m Hm].
    rewrite Hm in Hin. destruct Hin.
Qed.

(** The whole run of the [generateSig] revision once the prepare
    response has been accepted. *)
Lemma part001_run_past_prepare o file options env e tn nm type size sp json fields :
  In e (trace (Part001.upload o file options env)) ->
  Part001.displayName env file options = (tn, inr nm) ->
  file_type file = Some type -> file_size file = Some size ->
  outcome (Part001.fetchSignature env (Part001.handleSignature o)) = inr sp ->
  let hdrs := Part001.requestHeaders env (Part001.publicKey o) in
  let init := prepareInit hdrs
                (mkFileMeta nm type size (spread_if (Part001.path options))) sp in
  fetch env prepareUrl (Some init) = FetchResponse true (inr json) ->
  j_fields json = Some fields ->
  Js.truthy_opt (j_url json) = true ->
  Js.truthy_opt (j_confirmToken json) = true ->
  Part001.upload o file options env
  = (emits (tn ++ trace (Part001.fetchSignature env (Part001.handleSignature o))
               ++ [EvFetch prepareUrl (Some init)]) ;;
     transfer env (j_url json) fields file (Part001.onProgress options) None ;;
     confirm env hdrs (j_confirmToken json)).
Proof.
  intros Hin Hn Hty Hsz Hsp hdrs init Hfetch Hfields Hurl Htok.
  destruct (part001_run_cases o file options env)
    as [(m & Hr & _) | (type' & size' & tn' & nm' & _ & _ & Hty' & Hsz' & _ & Hn' & _ & Hr)].
  { rewrite Hr in Hin. destruct Hin. }
  rewrite Hn in Hn'. injection Hn' as <- <-.
  rewrite Hty in Hty'. injection Hty' as <-.
  rewrite Hsz in Hsz'. injection Hsz' as <-.
  rewrite Hr. fold hdrs.
  rewrite !(bind_run (emits _)). cbn [emits trace outcome fst snd].
  rewrite (bind_run (Part001.fetchSignature _ _)), Hsp.
  rewrite (bind_run (prepare _ _ _ _)), prepare_trace, prepare_outcome.
  fold init. rewrite Hfetch.
  unfold Part001.afterPrepare. rewrite Hfields, Hurl, Htok. cbn [negb orb].
  cbn [trace outcome fst snd]. rewrite <- !app_assoc. reflexivity.
Qed.

(** The same for src/index.ts. *)
Lemma index_ts_run_past_prepare o file options env name type size sp json fields :
  Js.truthy (IndexTs.publicKey o) = true ->
  Js.startsWith (IndexTs.publicKey o) "sk_" = false ->
  IndexTs.validFile file = Some (name, type, size) ->
  outcome (IndexTs.fetchSignature env (IndexTs.handleSignature options)) = inr sp ->
  let hdrs := [("x-public-key", IndexTs.publicKey o)] in
  let init := prepareInit hdrs
                (mkFileMeta name type size (spread_if (IndexTs.path options))) sp in
  fetch env prepareUrl (Some init) = FetchResponse true (inr json) ->
  j_fields json = Some fields ->
  IndexTs.upload o file options env
  = (emits (trace (IndexTs.fetchSignature env (IndexTs.handleSignature options))
               ++ [EvFetch prepareUrl (Some init)]) ;;
     transfer env (j_url json) fields file (IndexTs.onProgress options)
              (Some (fun _ => true)) ;;
     confirm env hdrs (j_confirmToken json)).
Proof.
  intros Ht Hsk Hv Hsp hdrs init Hfetch Hfields.
  unfold IndexTs.upload. rewrite Ht, Hsk, Hv. cbn [negb]. fold hdrs.
  rewrite (bind_run (emits _)). cbn [emits trace outcome fst snd].
  rewrite (bind_run (IndexTs.fetchSignature _ _)), Hsp.
  rewrite (bind_run (prepare _ _ _ _)), prepare_trace, prepare_outcome.
  fold init. rewrite Hfetch.
  unfold IndexTs.afterPrepare. rewrite Hfields.
  cbn [trace outcome fst snd]. rewrite <- !app_assoc. reflexivity.
Qed.

(** An upload that made any call had passed the checks of src/index.ts. *)
Lemma index_ts_called_means_valid o file options env e :
  In e (trace (IndexTs.upload o file options env)) ->
  Js.truthy (IndexTs.publicKey o) = true /\
  Js.startsWith (IndexTs.publicKey o) "sk_" = false.
Proof.
  intros Hin.
  destruct (index_ts_run_cases o file options env)
    as [(m & Hr & _) | (name & type & size & Ht & Hsk & _)]; [|auto].
  rewrite Hr in Hin. destruct Hin.
Qed.

(* ===================================================================== *)
(** ** What reaches the destination, and when the upload is confirmed *)
(* ===================================================================== *)

(** X2: a confirm request is sent only after the prepare response was
    accepted and the destination answered the post of that response's
    fields with a status in 200..299, and it carries the confirmation
    token of that prepare response, which in the [generateSig] revision
    is never empty. *)
Theorem X2_confirm_only_after_accepted_transfer :
  (forall (o : IndexTs.FactoryOptions) (file : FileArg)
          (options : IndexTs.UploadOptions) (env : Env) (init : RequestInit),
     In (EvFetch confirmUrl (Some init))
        (trace (IndexTs.upload o file options env)) ->
     exists pinit json fields status,
       In (EvFetch prepareUrl (Some pinit))
          (trace (IndexTs.upload o file options env)) /\
       fetch env prepareUrl (Some pinit) = FetchResponse true (inr json) /\
       j_fields json = Some fields /\
       In (EvAxiosPost (j_url json) (formDataOf fields file))
          (trace (IndexTs.upload o file options env)) /\
       settled (transport env (j_url json) (formDataOf fields file))
       = AxiosHttp status /\
       (200 <= status < 300)%Z /\
       body init = ConfirmBody (j_confirmToken json)) /\
  (forall (o : Part001.RestashUploaderOptions) (file : FileArg)
          (options : Part001.UploadOptions) (env : Env) (init : RequestInit),
     In (EvFetch confirmUrl (Some init))
        (trace (Part001.upload o file options env)) ->
     exists pinit json fields status,
       In (EvFetch prepareUrl (Some pinit))
          (trace (Part001.upload o file options env)) /\
       fetch env prepareUrl (Some pinit) = FetchResponse true (inr json) /\
       j_fields json = Some fields /\
       In (EvAxiosPost (j_url json) (formDataOf fields file))
          (trace (Part001.upload o file options env)) /\
       settled (transport env (j_url json) (formDataOf fields file))
       = AxiosHttp status /\
       (200 <= status < 300)%Z /\
       body init = ConfirmBody (j_confirmToken json) /\
       Js.truthy_opt (j_confirmToken json) = true).
Proof.
  split; intros o file options env init Hin.
  - destruct (index_ts_called_means_valid _ _ _ _ _ Hin) as [Ht Hsk].
    destruct (index_ts_events _ _ _ _ _ Hin)
      as [(hs & _ & _ & He) | (name & type & size & sp & Hv & Hsp & He)];
      [discriminate|].
    cbv zeta in He.
    destruct He as [He | (json & fields & Hfetch & Hfields & He)]; [discriminate|].
    destruct He as [He | [(ev & _ & _ & He) | [He Htr]]]; try discriminate.
    injection He as ->.
    apply transfer_succeeds_iff in Htr. destruct Htr as (status & Hset & Hst & _).
    eexists _, json, fields, status.
    rewrite (index_ts_run_past_prepare o file options env name type size sp json
               fields Ht Hsk Hv Hsp Hfetch Hfields).
    rewrite bind_trace. cbn [emits trace outcome fst snd].
    rewrite (bind_trace (transfer _ _ _ _ _ _)), transfer_trace.
    repeat split; try eassumption; try reflexivity; try lia;
      rewrite !in_app_iff; cbn [In]; auto 10.
  - destruct (part001_events _ _ _ _ _ Hin)
      as [[He _] | [(hs & _ & _ & He)
                   | (tn & nm & type & size & sp & Hn & Hty & Hsz & Hsp & He)]];
      try discriminate.
    cbv zeta in He.
    destruct He as [He | (json & fields & Hfetch & Hfields & Hurl & Htok & He)];
      [discriminate|].
    destruct He as [He | [(ev & _ & _ & He) | [He Htr]]]; try discriminate.
    injection He as ->.
    apply transfer_succeeds_iff in Htr. destruct Htr as (status & Hset & Hst & _).
    eexists _, json, fields, status.
    rewrite (part001_run_past_prepare o file options env _ tn nm type size sp json
               fields Hin Hn Hty Hsz Hsp Hfetch Hfields Hurl Htok).
    rewrite bind_trace. cbn [emits trace outcome fst snd].
    rewrite (bind_trace (transfer _ _ _ _ _ _)), transfer_trace.
    repeat split; try eassumption; try reflexivity; try lia;
      rewrite !in_app_iff; cbn [In]; auto 10.
Qed.

(** The upload of the test file in the [generateSig] revision, every
    step answering well: its confirm request follows the 204 of the
    destination and carries the token "tok_1". *)
Lemma X2_witness :
  exists pinit json fields status,
    In (EvFetch prepareUrl (Some pinit))
       (trace (Part001.upload (Part001.mkUploaderOptions "pk_123" None)
                 Scenario.testFile Part001.defaultOptions Scenario.happy)) /\
    fetch Scenario.happy prepareUrl (Some pinit) = FetchResponse true (inr json) /\
    j_fields json = Some fields /\
    In (EvAxiosPost (j_url json) (formDataOf fields Scenario.testFile))
       (trace (Part001.upload (Part001.mkUploaderOptions "pk_123" None)
                 Scenario.testFile Part001.defaultOptions Scenario.happy)) /\
    settled (transport Scenario.happy (j_url json)
               (formDataOf fields Scenario.testFile)) = AxiosHttp status /\
    (200 <= status < 300)%Z /\
    body (mkInit "POST" [("x-public-key", "pk_123")] (ConfirmBody (Some "tok_1")))
    = ConfirmBody (j_confirmToken json) /\
    Js.truthy_opt (j_confirmToken json) = true.
Proof.
  apply (proj2 X2_confirm_only_after_accepted_transfer
           (Part001.mkUploaderOptions "pk_123" None) Scenario.testFile
           Part001.defaultOptions Scenario.happy
           (mkInit "POST" [("x-public-key", "pk_123")] (ConfirmBody (Some "tok_1")))).
  vm_compute. auto 10.
Defined.

(** X3: whatever is posted to a destination is a form with the fields
    of an accepted prepare response in their order and then, under the
    key "file", the value that was passed in: the [File] or [Blob]
    itself, and in src/index.ts, whose file check a plain object with a
    name, a type and a size passes, the string "[object Object]" for
    such an object.  The destination is the url of that response, which
    in the [generateSig] revision is never empty, as the value passed in
    is always a [Blob] there. *)
Theorem X3_transfer_posts_fields_then_file :
  (forall (o : IndexTs.FactoryOptions) (file : FileArg)
          (options : IndexTs.UploadOptions) (env : Env)
          (url : option string) (data : FormData),
     In (EvAxiosPost url data) (trace (IndexTs.upload o file options env)) ->
     exists pinit json fields,
       In (EvFetch prepareUrl (Some pinit))
          (trace (IndexTs.upload o file options env)) /\
       fetch env prepareUrl (Some pinit) = FetchResponse true (inr json) /\
       j_fields json = Some fields /\
       url = j_url json /\
       data = map (fun kv => (fst kv, FormString (snd kv))) fields
              ++ [("file", if instanceofBlob file then FormFile file
                           else FormString "[object Object]")]) /\
  (forall (o : Part001.RestashUploaderOptions) (file : FileArg)
          (options : Part001.UploadOptions) (env : Env)
          (url : option string) (data : FormData),
     In (EvAxiosPost url data) (trace (Part001.upload o file options env)) ->
     exists pinit json fields,
       In (EvFetch prepareUrl (Some pinit))
          (trace (Part001.upload o file options env)) /\
       fetch env prepareUrl (Some pinit) = FetchResponse true (inr json) /\
       j_fields json = Some fields /\
       url = j_url json /\ Js.truthy_opt url = true /\
       instanceofBlob file = true /\
       data = map (fun kv => (fst kv, FormString (snd kv))) fields
              ++ [("file", FormFile file)]).
Proof.
  split; intros o file options env url data Hin.
  - destruct (index_ts_called_means_valid _ _ _ _ _ Hin) as [Ht Hsk].
    destruct (index_ts_events _ _ _ _ _ Hin)
      as [(hs & _ & _ & He) | (name & type & size & sp & Hv & Hsp & He)];
      [discriminate|].
    cbv zeta in He.
    destruct He as [He | (json & fields & Hfetch & Hfields & He)]; [discriminate|].
    destruct He as [He | [(ev & _ & _ & He) | [He Htr]]]; try discriminate.
    injection He as -> ->.
    eexists _, json, fields.
    rewrite (index_ts_run_past_prepare o file options env name type size sp json
               fields Ht Hsk Hv Hsp Hfetch Hfields).
    rewrite bind_trace. cbn [emits trace outcome fst snd].
    repeat split; try eassumption; try reflexivity.
    rewrite !in_app_iff; cbn [In]; auto 10.
  - destruct (part001_events _ _ _ _ _ Hin)
      as [[He _] | [(hs & _ & _ & He)
                   | (tn & nm & type & size & sp & Hn & Hty & Hsz & Hsp & He)]];
      try discriminate.
    cbv zeta in He.
    destruct He as [He | (json & fields & Hfetch & Hfields & Hurl & Htok & He)];
      [discriminate|].
    destruct He as [He | [(ev & _ & _ & He) | [He Htr]]]; try discriminate.
    injection He as -> ->.
    assert (Hblob : instanceofBlob file = true).
    { destruct (part001_run_cases o file options env)
        as [(m & Hr & _) | (? & ? & ? & ? & _ & _ & _ & _ & Hb & _)]; [|exact Hb].
      rewrite Hr in Hin. destruct Hin. }
    eexists _, json, fields.
    rewrite (part001_run_past_prepare o file options env _ tn nm type size sp json
               fields Hin Hn Hty Hsz Hsp Hfetch Hfields Hurl Htok).
    rewrite bind_trace. cbn [emits trace outcome fst snd].
    unfold formDataOf, formFileEntry. rewrite Hblob.
    repeat split; try eassumption; try reflexivity.
    rewrite !in_app_iff; cbn [In]; auto 10.
Qed.

(** The test upload in src/index.ts: the form posted to the returned
    url ends with the test file; and with a plain object in its place,
    [{ name: "test.txt", type: "text/plain", size: 4 }], with the
    string that object is turned into. *)
Lemma X3_witness :
  (exists pinit json fields,
     In (EvFetch prepareUrl (Some pinit))
        (trace (IndexTs.upload (IndexTs.mkFactoryOptions "pk_123") Scenario.testFile
                  IndexTs.defaultOptions Scenario.happy)) /\
     fetch Scenario.happy prepareUrl (Some pinit) = FetchResponse true (inr json) /\
     j_fields json = Some fields /\
     Some "https://bucket.example/upload" = j_url json /\
     Scenario.testForm Scenario.testFile
     = map (fun kv => (fst kv, FormString (snd kv))) fields
       ++ [("file", FormFile Scenario.testFile)]) /\
  (exists pinit json fields,
     In (EvFetch prepareUrl (Some pinit))
        (trace (IndexTs.upload (IndexTs.mkFactoryOptions "pk_123")
                  (NotBlob (Some "test.txt") (Some "text/plain") (Some 4%N))
                  IndexTs.defaultOptions Scenario.happy)) /\
     fetch Scenario.happy prepareUrl (Some pinit) = FetchResponse true (inr json) /\
     j_fields json = Some fields /\
     Some "https://bucket.example/upload" = j_url json /\
     [("key", FormString "uploads/test.txt"); ("file", FormString "[object Object]")]
     = map (fun kv => (fst kv, FormString (snd kv))) fields
       ++ [("file", FormString "[object Object]")]).
Proof.
  split.
  - apply (proj1 X3_transfer_posts_fields_then_file
             (IndexTs.mkFactoryOptions "pk_123") Scenario.testFile
             IndexTs.defaultOptions Scenario.happy
             (Some "https://bucket.example/upload")
             (Scenario.testForm Scenario.testFile)).
    vm_compute. auto 10.
  - apply (proj1 X3_transfer_posts_fields_then_file
             (IndexTs.mkFactoryOptions "pk_123")
             (NotBlob (Some "test.txt") (Some "text/plain") (Some 4%N))
             IndexTs.defaultOptions Scenario.happy
             (Some "https://bucket.example/upload")
             [("key", FormString "uploads/test.txt");
              ("file", FormString "[object Object]")]).
    vm_compute. auto 10.
Defined.

(* ===================================================================== *)
(** ** The result of an upload *)
(* ===================================================================== *)

(** The outcome of a run that sent the confirm request is the outcome
    of the confirm step. *)
Lemma index_ts_outcome_at_confirm o file options env init :
  In (EvFetch confirmUrl (Some init)) (trace (IndexTs.upload o file options env)) ->
  outcome (IndexTs.upload o file options env)
  = match fetch env confirmUrl (Some init) with
    | FetchRejected reason => inl (Error reason)
    | FetchResponse _ (inl reason) => inl (Error reason)
    | FetchResponse true (inr json) => inr json
    | FetchResponse false (inr json) => outcome (@throw_error_of JsonBody json)
    end.
Proof.
  intros Hin.
  destruct (index_ts_called_means_valid _ _ _ _ _ Hin) as [Ht Hsk].
  destruct (index_ts_events _ _ _ _ _ Hin)
    as [(hs & _ & _ & He) | (name & type & size & sp & Hv & Hsp & He)];
    [discriminate|].
  cbv zeta in He.
  destruct He as [He | (json & fields & Hfetch & Hfields & He)]; [discriminate|].
  destruct He as [He | [(ev & _ & _ & He) | [He Htr]]]; try discriminate.
  injection He as ->.
  rewrite (index_ts_run_past_prepare o file options env name type size sp json
             fields Ht Hsk Hv Hsp Hfetch Hfields).
  rewrite bind_outcome. cbn [emits trace outcome fst snd].
  rewrite bind_outcome, Htr. apply confirm_outcome.
Qed.

Lemma part001_outcome_at_confirm o file options env init :
  In (EvFetch confirmUrl (Some init)) (trace (Part001.upload o file options env)) ->
  outcome (Part001.upload o file options env)
  = match fetch env confirmUrl (Some init) with
    | FetchRejected reason => inl (Error reason)
    | FetchResponse _ (inl reason) => inl (Error reason)
    | FetchResponse true (inr json) => inr json
    | FetchResponse false (inr json) => outcome (@throw_error_of JsonBody json)
    end.
Proof.
  intros Hin.
  destruct (part001_events _ _ _ _ _ Hin)
    as [[He _] | [(hs & _ & _ & He)
                 | (tn & nm & type & size & sp & Hn & Hty & Hsz & Hsp & He)]];
    try discriminate.
  cbv zeta in He.
  destruct He as [He | (json & fields & Hfetch & Hfields & Hurl & Htok & He)];
    [discriminate|].
  destruct He as [He | [(ev & _ & _ & He) | [He Htr]]]; try discriminate.
  injection He as ->.
  rewrite (part001_run_past_prepare o file options env _ tn nm type size sp json
             fields Hin Hn Hty Hsz Hsp Hfetch Hfields Hurl Htok).
  rewrite bind_outcome. cbn [emits trace outcome fst snd].
  rewrite bind_outcome, Htr. apply confirm_outcome.
Qed.

(** An upload resolves only through the confirm step. *)
Lemma index_ts_resolves_through_confirm o file options env result :
  outcome (IndexTs.upload o file options env) = inr result ->
  exists init,
    In (EvFetch confirmUrl (Some init)) (trace (IndexTs.upload o file options env)).
Proof.
  intros Hres.
  destruct (index_ts_run_cases o file options env)
    as [(m & Hr & _) | (name & type & size & _ & _ & _ & Hr)];
    rewrite Hr in *; [discriminate|]. clear Hr.
  rewrite bind_outcome in Hres. rewrite bind_trace.
  destruct (outcome (IndexTs.fetchSignature _ _)) as [err | sp]; [discriminate|].
  rewrite bind_outcome in Hres. rewrite bind_trace.
  destruct (outcome (prepare _ _ _ _)) as [err | json]; [discriminate|].
  unfold IndexTs.afterPrepare in *.
  destruct (j_fields json) as [fields|]; [|discriminate].
  rewrite transfer_then_confirm_run in *. cbn [trace outcome fst snd] in *.
  destruct (outcome (transfer _ _ _ _ _ _)) as [err | []]; [discriminate|].
  eexists. rewrite !in_app_iff. cbn [In]. rewrite !in_app_iff. cbn [In]. auto 10.
Qed.

Lemma part001_resolves_through_confirm o file options env result :
  outcome (Part001.upload o file options env) = inr result ->
  exists init,
    In (EvFetch confirmUrl (Some init)) (trace (Part001.upload o file options env)).
Proof.
  intros Hres.
  destruct (part001_run_cases o file options env)
    as [(m & Hr & _) | (type & size & tn & nm & _ & _ & _ & _ & _ & _ & _ & Hr)];
    rewrite Hr in *; [discriminate|]. clear Hr.
  rewrite bind_outcome in Hres. rewrite bind_trace.
  cbn [emits trace outcome fst snd] in *.
  rewrite bind_outcome in Hres. rewrite bind_trace.
  destruct (outcome (Part001.fetchSignature _ _)) as [err | sp]; [discriminate|].
  rewrite bind_outcome in Hres. rewrite bind_trace.
  destruct (outcome (prepare _ _ _ _)) as [err | json]; [discriminate|].
  unfold Part001.afterPrepare in *.
  destruct (j_fields json) as [fields|]; [|discriminate].
  destruct (negb _ || negb _); [discriminate|].
  rewrite transfer_then_confirm_run in *. cbn [trace outcome fst snd] in *.
  destruct (outcome (transfer _ _ _ _ _ _)) as [err | []]; [discriminate|].
  eexists. rewrite !in_app_iff. cbn [In]. rewrite !in_app_iff. cbn [In]. auto 10.
Qed.

(** X4: an upload resolves only by way of an [ok] confirm response,
    and what it resolves to is the JSON body of that response, as it
    came. *)
Theorem X4_result_is_the_confirm_body :
  (forall (o : IndexTs.FactoryOptions) (file : FileArg)
          (options : IndexTs.UploadOptions) (env : Env) (result : JsonBody),
     outcome (IndexTs.upload o file options env) = inr result ->
     exists init,
       In (EvFetch confirmUrl (Some init))
          (trace (IndexTs.upload o file options env)) /\
       fetch env confirmUrl (Some init) = FetchResponse true (inr result)) /\
  (forall (o : Part001.RestashUploaderOptions) (file : FileArg)
          (options : Part001.UploadOptions) (env : Env) (result : JsonBody),
     outcome (Part001.upload o file options env) = inr result ->
     exists init,
       In (EvFetch confirmUrl (Some init))
          (trace (Part001.upload o file options env)) /\
       fetch env confirmUrl (Some init) = FetchResponse true (inr result)).
Proof.
  split; intros o file options env result Hres.
  - destruct (index_ts_resolves_through_confirm _ _ _ _ _ Hres) as [init Hin].
    exists init. split; [exact Hin|].
    rewrite (index_ts_outcome_at_confirm _ _ _ _ _ Hin) in Hres.
    destruct (fetch env confirmUrl (Some init)) as [r | [|] [reason | json]];
      try discriminate.
    + congruence.
    + destruct (@throw_error_of_run JsonBody json) as [m Hm].
      rewrite Hm in Hres. discriminate.
  - destruct (part001_resolves_through_confirm _ _ _ _ _ Hres) as [init Hin].
    exists init. split; [exact Hin|].
    rewrite (part001_outcome_at_confirm _ _ _ _ _ Hin) in Hres.
    destruct (fetch env confirmUrl (Some init)) as [r | [|] [reason | json]];
      try discriminate.
    + congruence.
    + destruct (@throw_error_of_run JsonBody json) as [m Hm].
      rewrite Hm in Hres. discriminate.
Qed.

(** The result of the test upload is what the confirm endpoint sent. *)
Lemma X4_witness :
  exists init,
    In (EvFetch confirmUrl (Some init))
       (trace (Part001.upload (Part001.mkUploaderOptions "pk_123" None)
                 Scenario.testFile Part001.defaultOptions Scenario.happy)) /\
    fetch Scenario.happy confirmUrl (Some init)
    = FetchResponse true
        (inr (resultJson "file_1" "https://cdn.example/uploads/test.txt"
                "uploads/test.txt" "test.txt" 4%N "text/plain")).
Proof.
  apply (proj2 X4_result_is_the_confirm_body
           (Part001.mkUploaderOptions "pk_123" None) Scenario.testFile
           Part001.defaultOptions Scenario.happy).
  vm_compute. reflexivity.
Defined.

(** X5: once the confirm request has been sent its response decides the
    upload: an [ok] JSON body is the result, a body of a response that
    is not [ok] rejects with the message of its [error], and a fetch
    that fails rejects with its reason. *)
Theorem X5_confirm_response_decides :
  forall (env : Env) (init : RequestInit),
    (forall (o : IndexTs.FactoryOptions) (file : FileArg)
            (options : IndexTs.UploadOptions),
       In (EvFetch confirmUrl (Some init))
          (trace (IndexTs.upload o file options env)) ->
       (forall json,
          fetch env confirmUrl (Some init) = FetchResponse true (inr json) ->
          outcome (IndexTs.upload o file options env) = inr json) /\
       (forall json err,
          fetch env confirmUrl (Some init) = FetchResponse false (inr json) ->
          j_error json = Some err ->
          rejects_with (IndexTs.upload o file options env) (message err)) /\
       (forall reason,
          fetch env confirmUrl (Some init) = FetchRejected reason ->
          rejects_with (IndexTs.upload o file options env) reason)) /\
    (forall (o : Part001.RestashUploaderOptions) (file : FileArg)
            (options : Part001.UploadOptions),
       In (EvFetch confirmUrl (Some init))
          (trace (Part001.upload o file options env)) ->
       (forall json,
          fetch env confirmUrl (Some init) = FetchResponse true (inr json) ->
          outcome (Part001.upload o file options env) = inr json) /\
       (forall json err,
          fetch env confirmUrl (Some init) = FetchResponse false (inr json) ->
          j_error json = Some err ->
          rejects_with (Part001.upload o file options env) (message err)) /\
       (forall reason,
          fetch env confirmUrl (Some init) = FetchRejected reason ->
          rejects_with (Part001.upload o file options env) reason)).
Proof.
  intros env init. split; intros o file options Hin; unfold rejects_with.
  - rewrite (index_ts_outcome_at_confirm _ _ _ _ _ Hin).
    repeat split.
    + intros json ->. reflexivity.
    + intros json err -> Herr. unfold throw_error_of. now rewrite Herr.
    + intros reason ->. reflexivity.
  - rewrite (part001_outcome_at_confirm _ _ _ _ _ Hin).
    repeat split.
    + intros json ->. reflexivity.
    + intros json err -> Herr. unfold throw_error_of. now rewrite Herr.
    + intros reason ->. reflexivity.
Qed.

(** The confirm response of the test upload decides its result. *)
Lemma X5_witness :
  outcome (IndexTs.upload (IndexTs.mkFactoryOptions "pk_123") Scenario.testFile
             IndexTs.defaultOptions Scenario.happy)
  = inr (resultJson "file_1" "https://cdn.example/uploads/test.txt"
           "uploads/test.txt" "test.txt" 4%N "text/plain").
Proof.
  refine (proj1 (proj1 (X5_confirm_response_decides Scenario.happy
                          (mkInit "POST" [("x-public-key", "pk_123")]
                             (ConfirmBody (Some "tok_1"))))
                   (IndexTs.mkFactoryOptions "pk_123") Scenario.testFile
                   IndexTs.defaultOptions _) _ _).
  - vm_compute. auto 10.
  - reflexivity.
Defined.

(* ===================================================================== *)
(** ** Refused requests *)
(* ===================================================================== *)

Lemma no_transfer_before_prepare (pre : list Event) init :
  (forall e, In e pre -> e = EvRandomBytes 8 \/ exists hs, e = EvFetch hs None) ->
  forall url data, ~ In (EvAxiosPost url data) (pre ++ [EvFetch prepareUrl (Some init)]).
Proof.
  intros Hpre url data Hin. apply in_app_or in Hin.
  destruct Hin as [Hin | [Hin | []]]; [|discriminate].
  apply Hpre in Hin. destruct Hin as [? | [? ?]]; discriminate.
Qed.

Lemma no_transfer_before_prepare_index_ts (pre : list Event) init :
  (forall e, In e pre -> exists hs, e = EvFetch hs None) ->
  forall url data, ~ In (EvAxiosPost url data) (pre ++ [EvFetch prepareUrl (Some init)]).
Proof.
  intros Hpre. apply no_transfer_before_prepare.
  intros e He. right. auto.
Qed.

(** X6: a prepare response that is not [ok] ends the upload with the
    message of the [error] in its body, and a prepare fetch that fails
    ends it with the failure's reason; in both cases nothing is posted
    to any destination. *)
Theorem X6_prepare_failure_is_final :
  forall (env : Env) (init : RequestInit),
    (forall (o : IndexTs.FactoryOptions) (file : FileArg)
            (options : IndexTs.UploadOptions),
       In (EvFetch prepareUrl (Some init))
          (trace (IndexTs.upload o file options env)) ->
       (forall json err,
          fetch env prepareUrl (Some init) = FetchResponse false (inr json) ->
          j_error json = Some err ->
          rejects_with (IndexTs.upload o file options env) (message err) /\
          forall url data,
            ~ In (EvAxiosPost url data) (trace (IndexTs.upload o file options env))) /\
       (forall reason,
          fetch env prepareUrl (Some init) = FetchRejected reason ->
          rejects_with (IndexTs.upload o file options env) reason /\
          forall url data,
            ~ In (EvAxiosPost url data) (trace (IndexTs.upload o file options env)))) /\
    (forall (o : Part001.RestashUploaderOptions) (file : FileArg)
            (options : Part001.UploadOptions),
       In (EvFetch prepareUrl (Some init))
          (trace (Part001.upload o file options env)) ->
       (forall json err,
          fetch env prepareUrl (Some init) = FetchResponse false (inr json) ->
          j_error json = Some err ->
          rejects_with (Part001.upload o file options env) (message err) /\
          forall url data,
            ~ In (EvAxiosPost url data) (trace (Part001.upload o file options env))) /\
       (forall reason,
          fetch env prepareUrl (Some init) = FetchRejected reason ->
          rejects_with (Part001.upload o file options env) reason /\
          forall url data,
            ~ In (EvAxiosPost url data) (trace (Part001.upload o file options env)))).
Proof.
  intros env init. split; intros o file options Hin.
  - destruct (index_ts_prepare_inv o file options env init Hin) as (pre & Hpre & Hrun).
    rewrite Hrun. unfold rejects_with. split.
    + intros json err -> Herr. unfold throw_error_of. rewrite Herr.
      rewrite bind_run. cbn [emits throw trace outcome fst snd].
      rewrite app_nil_r. split; [reflexivity|].
      now apply no_transfer_before_prepare_index_ts.
    + intros reason ->.
      rewrite bind_run. cbn [emits throw trace outcome fst snd].
      rewrite app_nil_r. split; [reflexivity|].
      now apply no_transfer_before_prepare_index_ts.
  - destruct (part001_prepare_inv o file options env init Hin) as (pre & Hpre & Hrun).
    rewrite Hrun. unfold rejects_with. split.
    + intros json err -> Herr. unfold throw_error_of. rewrite Herr.
      rewrite bind_run. cbn [emits throw trace outcome fst snd].
      rewrite app_nil_r. split; [reflexivity|].
      now apply no_transfer_before_prepare.
    + intros reason ->.
      rewrite bind_run. cbn [emits throw trace outcome fst snd].
      rewrite app_nil_r. split; [reflexivity|].
      now apply no_transfer_before_prepare.
Qed.

(** The prepare endpoint refuses the key: the upload rejects with the
    server's message and posts nothing. *)
Lemma X6_witness :
  rejects_with
    (Part001.upload (Part001.mkUploaderOptions "pk_123" None) Scenario.testFile
       Part001.defaultOptions Refusal.prepareRefused)
    "Invalid public key" /\
  forall url data,
    ~ In (EvAxiosPost url data)
         (trace (Part001.upload (Part001.mkUploaderOptions "pk_123" None)
                   Scenario.testFile Part001.defaultOptions Refusal.prepareRefused)).
Proof.
  refine (proj1 (proj2 (X6_prepare_failure_is_final Refusal.prepareRefused
                          Scenario.testPrepare)
                   (Part001.mkUploaderOptions "pk_123" None) Scenario.testFile
                   Part001.defaultOptions _)
            (Refusal.errorJson "unauthorized" "Invalid public key")
            (mkRestashError "unauthorized" "Invalid public key") _ _).
  - vm_compute. auto.
  - reflexivity.
  - reflexivity.
Defined.

(** X7: in the [generateSig] revision an [ok] prepare response that
    lacks the url (or has an empty one) or lacks the fields rejects
    with "Invalid response from prepare upload" and nothing is posted.
    In src/index.ts missing fields also end the upload, with an error,
    before anything is posted. *)
Theorem X7_prepare_response_must_be_complete :
  forall (env : Env) (init : RequestInit) (json : JsonBody),
    fetch env prepareUrl (Some init) = FetchResponse true (inr json) ->
    (forall (o : Part001.RestashUploaderOptions) (file : FileArg)
            (options : Part001.UploadOptions),
       In (EvFetch prepareUrl (Some init))
          (trace (Part001.upload o file options env)) ->
       Js.truthy_opt (j_url json) = false \/ j_fields json = None ->
       rejects_with (Part001.upload o file options env)
         "Invalid response from prepare upload" /\
       forall url data,
         ~ In (EvAxiosPost url data) (trace (Part001.upload o file options env))) /\
    (forall (o : IndexTs.FactoryOptions) (file : FileArg)
            (options : IndexTs.UploadOptions),
       In (EvFetch prepareUrl (Some init))
          (trace (IndexTs.upload o file options env)) ->
       j_fields json = None ->
       (exists e, outcome (IndexTs.upload o file options env) = inl e) /\
       forall url data,
         ~ In (EvAxiosPost url data) (trace (IndexTs.upload o file options env))).
Proof.
  intros env init json Hfetch. split; intros o file options Hin.
  - intros Hbad.
    destruct (part001_prepare_inv o file options env init Hin) as (pre & Hpre & Hrun).
    rewrite Hrun, Hfetch. unfold rejects_with.
    assert (Hafter :
      Part001.afterPrepare env (Part001.requestHeaders env (Part001.publicKey o))
        file options json
      = ([], inl (Error "Invalid response from prepare upload"))).
    { unfold Part001.afterPrepare.
      destruct (j_fields json) as [fields|]; [|reflexivity].
      destruct Hbad as [Hurl | Hf]; [|discriminate].
      now rewrite Hurl. }
    rewrite Hafter, bind_run. cbn [emits trace outcome fst snd].
    rewrite app_nil_r. split; [reflexivity|].
    now apply no_transfer_before_prepare.
  - destruct (index_ts_prepare_inv o file options env init Hin) as (pre & Hpre & Hrun).
    rewrite Hrun, Hfetch. unfold IndexTs.afterPrepare.
    intros ->. rewrite bind_run. cbn [emits throw trace outcome fst snd].
    rewrite app_nil_r. split; [eauto|].
    now apply no_transfer_before_prepare_index_ts.
Qed.

(** A prepare response without a url. *)
Lemma X7_witness :
  rejects_with
    (Part001.upload (Part001.mkUploaderOptions "pk_123" None) Scenario.testFile
       Part001.defaultOptions Refusal.prepareWithoutUrl)
    "Invalid response from prepare upload" /\
  forall url data,
    ~ In (EvAxiosPost url data)
         (trace (Part001.upload (Part001.mkUploaderOptions "pk_123" None)
                   Scenario.testFile Part001.defaultOptions
                   Refusal.prepareWithoutUrl)).
Proof.
  refine (proj1 (X7_prepare_response_must_be_complete Refusal.prepareWithoutUrl
                   Scenario.testPrepare
                   (prepareJson None (Some [("key", "test")]) (Some "tok_1")) _)
            (Part001.mkUploaderOptions "pk_123" None) Scenario.testFile
            Part001.defaultOptions _ _).
  - reflexivity.
  - vm_compute. auto.
  - left. reflexivity.
Defined.

(* ===================================================================== *)
(** ** The signature step *)
(* ===================================================================== *)

(** A run whose signature step fails is the fetch of the route, after
    the random draw at most, and the step's error. *)
Lemma part001_signature_failure o file options env hs :
  In (EvFetch hs None) (trace (Part001.upload o file options env)) ->
  Part001.handleSignature o = Some hs /\
  forall err,
    outcome (Part001.fetchSignature env (Some hs)) = inl err ->
    outcome (Part001.upload o file options env) = inl err /\
    network_calls (trace (Part001.upload o file options env)) = [EvFetch hs None].
Proof.
  intros Hin.
  destruct (part001_events _ _ _ _ _ Hin)
    as [[He _] | [(hs' & Hhs & Hths & He)
                 | (tn & nm & type & size & sp & _ & _ & _ & _ & He)]];
    try discriminate.
  2:{ cbv zeta in He.
      destruct He as [He | (json & fields & _ & _ & _ & _ & He)]; [discriminate|].
      destruct He as [He | [(ev & _ & _ & He) | [He _]]]; discriminate. }
  injection He as Heq; subst hs'. split; [exact Hhs|].
  intros err Herr.
  destruct (part001_run_cases o file options env)
    as [(m & Hr & _) | (type & size & tn & nm & _ & _ & _ & _ & _ & _ & Htn & Hr)];
    rewrite Hr in *; [destruct Hin|]. clear Hr Hin.
  rewrite Hhs. rewrite bind_run. cbn [emits trace outcome fst snd].
  rewrite bind_run, Herr. cbn [trace outcome fst snd].
  split; [reflexivity|].
  destruct (part001_fetchSignature_cases env (Some hs))
    as [[Hf _] | (hs'' & Heq & _ & Hst & _)].
  { cbn [Js.truthy_opt] in Hf. congruence. }
  injection Heq as <-. rewrite Hst, app_nil_r.
  destruct Htn as [-> | ->]; reflexivity.
Qed.

Lemma index_ts_signature_failure o file options env hs :
  In (EvFetch hs None) (trace (IndexTs.upload o file options env)) ->
  IndexTs.handleSignature options = Some hs /\
  forall err,
    outcome (IndexTs.fetchSignature env (Some hs)) = inl err ->
    outcome (IndexTs.upload o file options env) = inl err /\
    network_calls (trace (IndexTs.upload o file options env)) = [EvFetch hs None].
Proof.
  intros Hin.
  destruct (index_ts_events _ _ _ _ _ Hin)
    as [(hs' & Hhs & Hths & He) | (name & type & size & sp & _ & _ & He)].
  2:{ cbv zeta in He.
      destruct He as [He | (json & fields & _ & _ & He)]; [discriminate|].
      destruct He as [He | [(ev & _ & _ & He) | [He _]]]; discriminate. }
  injection He as Heq; subst hs'. split; [exact Hhs|].
  intros err Herr.
  destruct (index_ts_run_cases o file options env)
    as [(m & Hr & _) | (name & type & size & _ & _ & _ & Hr)];
    rewrite Hr in *; [destruct Hin|]. clear Hr Hin.
  rewrite Hhs. rewrite bind_run, Herr. cbn [trace outcome fst snd].
  split; [reflexivity|].
  destruct (index_ts_fetchSignature_cases env (Some hs))
    as [[Hf _] | (hs'' & Heq & _ & Hst & _)].
  { cbn [Js.truthy_opt] in Hf. congruence. }
  injection Heq as <-. rewrite Hst, app_nil_r. reflexivity.
Qed.

(** X8: when the caller's signature route answers with a response that
    is not [ok], or cannot be reached, the upload rejects, with "Failed
    to get signature" or with the failure's reason, and the fetch of
    the route is the only request it has sent. *)
Theorem X8_signature_route_failure_is_final :
  forall (env : Env) (hs : string),
    (forall (o : IndexTs.FactoryOptions) (file : FileArg)
            (options : IndexTs.UploadOptions),
       In (EvFetch hs None) (trace (IndexTs.upload o file options env)) ->
       (forall body,
          fetch env hs None = FetchResponse false body ->
          rejects_with (IndexTs.upload o file options env) "Failed to get signature" /\
          network_calls (trace (IndexTs.upload o file options env))
          = [EvFetch hs None]) /\
       (forall reason,
          fetch env hs None = FetchRejected reason ->
          rejects_with (IndexTs.upload o file options env) reason /\
          network_calls (trace (IndexTs.upload o file options env))
          = [EvFetch hs None])) /\
    (forall (o : Part001.RestashUploaderOptions) (file : FileArg)
            (options : Part001.UploadOptions),
       In (EvFetch hs None) (trace (Part001.upload o file options env)) ->
       (forall body,
          fetch env hs None = FetchResponse false body ->
          rejects_with (Part001.upload o file options env) "Failed to get signature" /\
          network_calls (trace (Part001.upload o file options env))
          = [EvFetch hs None]) /\
       (forall reason,
          fetch env hs None = FetchRejected reason ->
          rejects_with (Part001.upload o file options env) reason /\
          network_calls (trace (Part001.upload o file options env))
          = [EvFetch hs None])).
Proof.
  intros env hs. split; intros o file options Hin; unfold rejects_with.
  - destruct (index_ts_signature_failure _ _ _ _ _ Hin) as [Hhs Hfail].
    destruct (index_ts_fetchSignature_cases env (Some hs))
      as [[Hf _] | (hs' & Heq & Hths & _ & Hso)].
    { destruct (index_ts_events _ _ _ _ _ Hin)
        as [(u & Hu & Htu & He) | (name & type & size & sp & _ & _ & He)].
      - injection He as ->. cbn [Js.truthy_opt] in Hf. congruence.
      - cbv zeta in He.
        destruct He as [He | (json & fields & _ & _ & He)]; [discriminate|].
        destruct He as [He | [(ev & _ & _ & He) | [He _]]]; discriminate. }
    injection Heq as <-.
    split.
    + intros body Hf. apply Hfail. now rewrite Hso, Hf.
    + intros reason Hf. apply Hfail. now rewrite Hso, Hf.
  - destruct (part001_signature_failure _ _ _ _ _ Hin) as [Hhs Hfail].
    destruct (part001_fetchSignature_cases env (Some hs))
      as [[Hf _] | (hs' & Heq & Hths & _ & Hso)].
    { destruct (part001_events _ _ _ _ _ Hin)
        as [[He _] | [(u & Hu & Htu & He)
                     | (tn & nm & type & size & sp & _ & _ & _ & _ & He)]];
        try discriminate.
      - injection He as ->. cbn [Js.truthy_opt] in Hf. congruence.
      - cbv zeta in He.
        destruct He as [He | (json & fields & _ & _ & _ & _ & He)]; [discriminate|].
        destruct He as [He | [(ev & _ & _ & He) | [He _]]]; discriminate. }
    injection Heq as <-.
    split.
    + intros body Hf. apply Hfail. now rewrite Hso, Hf.
    + intros reason Hf. apply Hfail. now rewrite Hso, Hf.
Qed.

(** The caller's route answers 500. *)
Lemma X8_witness :
  rejects_with
    (IndexTs.upload (IndexTs.mkFactoryOptions "pk_123") Scenario.testFile
       (IndexTs.mkOptions None (Some "/api/signature") false) Refusal.routeDown)
    "Failed to get signature" /\
  network_calls
    (trace (IndexTs.upload (IndexTs.mkFactoryOptions "pk_123") Scenario.testFile
              (IndexTs.mkOptions None (Some "/api/signature") false)
              Refusal.routeDown))
  = [EvFetch "/api/signature" None].
Proof.
  refine (proj1 (proj1 (X8_signature_route_failure_is_final Refusal.routeDown
                          "/api/signature")
                   (IndexTs.mkFactoryOptions "pk_123") Scenario.testFile
                   (IndexTs.mkOptions None (Some "/api/signature") false) _)
            (inl "Unexpected token '<'") _).
  - vm_compute. auto.
  - reflexivity.
Defined.

(** X9: in the [generateSig] revision an [ok] signature response that
    carries a signature but no payload, or an empty one, rejects with
    "Your signature endpoint did not return a valid payload", the fetch
    of the route being the only request sent. *)
Theorem X9_signature_response_needs_payload :
  forall (o : Part001.RestashUploaderOptions) (file : FileArg)
         (options : Part001.UploadOptions) (env : Env)
         (hs : string) (json : JsonBody),
    In (EvFetch hs None) (trace (Part001.upload o file options env)) ->
    fetch env hs None = FetchResponse true (inr json) ->
    Js.truthy_opt (j_signature json) = true ->
    Js.truthy_opt (j_payload json) = false ->
    rejects_with (Part001.upload o file options env)
      "Your signature endpoint did not return a valid payload" /\
    network_calls (trace (Part001.upload o file options env)) = [EvFetch hs None].
Proof.
  intros o file options env hs json Hin Hfetch Hsig Hpay. unfold rejects_with.
  destruct (part001_signature_failure _ _ _ _ _ Hin) as [Hhs Hfail].
  apply Hfail.
  destruct (part001_fetchSignature_cases env (Some hs))
    as [[Hf _] | (hs' & Heq & Hths & _ & Hso)].
  - exfalso.
    destruct (part001_events _ _ _ _ _ Hin)
      as [[He _] | [(u & Hu & Htu & He)
                   | (tn & nm & type & size & sp & _ & _ & _ & _ & He)]];
      try discriminate.
    + injection He as ->. cbn [Js.truthy_opt] in Hf. congruence.
    + cbv zeta in He.
      destruct He as [He | (j & fields & _ & _ & _ & _ & He)]; [discriminate|].
      destruct He as [He | [(ev & _ & _ & He) | [He _]]]; discriminate.
  - injection Heq as <-. rewrite Hso, Hfetch, Hsig, Hpay. reflexivity.
Qed.

(** The caller's route returns a signature without a payload. *)
Lemma X9_witness :
  rejects_with
    (Part001.upload (Part001.mkUploaderOptions "pk_123" (Some "/api/signature"))
       Scenario.testFile Part001.defaultOptions Refusal.routeWithoutPayload)
    "Your signature endpoint did not return a valid payload" /\
  network_calls
    (trace (Part001.upload (Part001.mkUploaderOptions "pk_123" (Some "/api/signature"))
              Scenario.testFile Part001.defaultOptions Refusal.routeWithoutPayload))
  = [EvFetch "/api/signature" None].
Proof.
  refine (X9_signature_response_needs_payload
            (Part001.mkUploaderOptions "pk_123" (Some "/api/signature"))
            Scenario.testFile Part001.defaultOptions Refusal.routeWithoutPayload
            "/api/signature" (sigJson (Some "c0ffee") None) _ _ _ _).
  - vm_compute. auto.
  - reflexivity.
  - reflexivity.
  - reflexivity.
Defined.

(* ===================================================================== *)
(** ** Progress reports *)
(* ===================================================================== *)

Lemma reported_app t1 t2 : reported (t1 ++ t2) = reported t1 ++ reported t2.
Proof. unfold reported. apply flat_map_app. Qed.

Lemma reported_none t :
  (forall p, ~ In (EvOnProgress p) t) -> reported t = [].
Proof.
  induction t as [|e t IH]; [reflexivity|]. intros H.
  change (e :: t) with ([e] ++ t). rewrite reported_app.
  rewrite IH by (intros p Hp; apply (H p); now right).
  destruct e; try reflexivity. exfalso. apply (H p). now left.
Qed.

Lemma reported_handler evs :
  reported (flat_map (onUploadProgress true) evs) = map report evs.
Proof.
  induction evs as [|ev evs IH]; [reflexivity|].
  cbn [flat_map onUploadProgress]. rewrite reported_app, IH. reflexivity.
Qed.

Lemma reported_steps_3_4 env hdrs url fields file validateStatus tok :
  reported (trace (transfer env url fields file true validateStatus ;;
                   confirm env hdrs tok))
  = map report (progressEvents (transport env url (formDataOf fields file))).
Proof.
  rewrite transfer_then_confirm_run. cbn [trace fst].
  change (EvAxiosPost url (formDataOf fields file) :: ?l)
    with ([EvAxiosPost url (formDataOf fields file)] ++ l).
  rewrite !reported_app, reported_handler.
  destruct (outcome (transfer _ _ _ _ _ _)); cbn; now rewrite app_nil_r.
Qed.

Lemma loaded_of_reports evs : map loaded (map report evs) = map ev_loaded evs.
Proof. rewrite map_map. reflexivity. Qed.

Lemma total_of_reports evs :
  map total (map report evs) = map (fun ev => Js.num_or (ev_total ev) 1) evs.
Proof. rewrite map_map. reflexivity. Qed.

(** X10: without a progress callback nothing is reported; with one,
    an upload that reaches the transfer calls it exactly once per
    progress event of that transfer, in order, each time with the
    event's own [loaded] and with the event's [total], or 1 where that
    is unknown or zero. *)
Theorem X10_one_report_per_progress_event :
  (forall (o : IndexTs.FactoryOptions) (file : FileArg)
          (options : IndexTs.UploadOptions) (env : Env),
     (IndexTs.onProgress options = false ->
      reported (trace (IndexTs.upload o file options env)) = []) /\
     (forall url data,
        IndexTs.onProgress options = true ->
        In (EvAxiosPost url data) (trace (IndexTs.upload o file options env)) ->
        map loaded (reported (trace (IndexTs.upload o file options env)))
        = map ev_loaded (progressEvents (transport env url data)) /\
        map total (reported (trace (IndexTs.upload o file options env)))
        = map (fun ev => Js.num_or (ev_total ev) 1)
              (progressEvents (transport env url data)))) /\
  (forall (o : Part001.RestashUploaderOptions) (file : FileArg)
          (options : Part001.UploadOptions) (env : Env),
     (Part001.onProgress options = false ->
      reported (trace (Part001.upload o file options env)) = []) /\
     (forall url data,
        Part001.onProgress options = true ->
        In (EvAxiosPost url data) (trace (Part001.upload o file options env)) ->
        map loaded (reported (trace (Part001.upload o file options env)))
        = map ev_loaded (progressEvents (transport env url data)) /\
        map total (reported (trace (Part001.upload o file options env)))
        = map (fun ev => Js.num_or (ev_total ev) 1)
              (progressEvents (transport env url data)))).
Proof.
  split; intros o file options env; split.
  - intros Hoff. apply reported_none. intros p Hin.
    destruct (index_ts_events _ _ _ _ _ Hin)
      as [(hs & _ & _ & He) | (name & type & size & sp & _ & _ & He)];
      [discriminate|].
    cbv zeta in He.
    destruct He as [He | (json & fields & _ & _ & He)]; [discriminate|].
    destruct He as [He | [(ev & _ & Hon & _) | [He _]]]; try discriminate.
    congruence.
  - intros url data Hon Hin.
    destruct (index_ts_called_means_valid _ _ _ _ _ Hin) as [Ht Hsk].
    destruct (index_ts_events _ _ _ _ _ Hin)
      as [(hs & _ & _ & He) | (name & type & size & sp & Hv & Hsp & He)];
      [discriminate|].
    cbv zeta in He.
    destruct He as [He | (json & fields & Hfetch & Hfields & He)]; [discriminate|].
    destruct He as [He | [(ev & _ & _ & He) | [He Htr]]]; try discriminate.
    injection He as -> ->.
    rewrite (index_ts_run_past_prepare o file options env name type size sp json
               fields Ht Hsk Hv Hsp Hfetch Hfields).
    rewrite bind_trace. cbn [emits trace outcome fst snd].
    rewrite !reported_app, Hon, reported_steps_3_4.
    replace (reported (trace (IndexTs.fetchSignature env _))) with (@nil UploadProgress).
    + cbn [app reported flat_map].
      split; [apply loaded_of_reports | apply total_of_reports].
    + destruct (index_ts_fetchSignature_cases env (IndexTs.handleSignature options))
        as [[_ ->] | (hs & _ & _ & -> & _)]; reflexivity.
  - intros Hoff. apply reported_none. intros p Hin.
    destruct (part001_events _ _ _ _ _ Hin)
      as [[He _] | [(hs & _ & _ & He)
                   | (tn & nm & type & size & sp & _ & _ & _ & _ & He)]];
      try discriminate.
    cbv zeta in He.
    destruct He as [He | (json & fields & _ & _ & _ & _ & He)]; [discriminate|].
    destruct He as [He | [(ev & _ & Hon & _) | [He _]]]; try discriminate.
    congruence.
  - intros url data Hon Hin.
    destruct (part001_events _ _ _ _ _ Hin)
      as [[He _] | [(hs & _ & _ & He)
                   | (tn & nm & type & size & sp & Hn & Hty & Hsz & Hsp & He)]];
      try discriminate.
    cbv zeta in He.
    destruct He as [He | (json & fields & Hfetch & Hfields & Hurl & Htok & He)];
      [discriminate|].
    destruct He as [He | [(ev & _ & _ & He) | [He Htr]]]; try discriminate.
    injection He as -> ->.
    rewrite (part001_run_past_prepare o file options env _ tn nm type size sp json
               fields Hin Hn Hty Hsz Hsp Hfetch Hfields Hurl Htok).
    rewrite bind_trace. cbn [emits trace outcome fst snd].
    rewrite !reported_app, Hon, reported_steps_3_4.
    replace (reported tn) with (@nil UploadProgress).
    + replace (reported (trace (Part001.fetchSignature env _)))
        with (@nil UploadProgress).
      * cbn [app reported flat_map].
        split; [apply loaded_of_reports | apply total_of_reports].
      * destruct (part001_fetchSignature_cases env (Part001.handleSignature o))
          as [[_ ->] | (hs & _ & _ & -> & _)]; reflexivity.
    + destruct (displayName_run env file options) as (tn' & nm' & Hn' & Htn).
      rewrite Hn in Hn'. injection Hn' as <- <-.
      destruct Htn as [-> | ->]; reflexivity.
Qed.

(** The two progress events of the test transfer: two and four bytes
    of four. *)
Lemma X10_witness :
  map loaded
    (reported
       (trace (Part001.upload (Part001.mkUploaderOptions "pk_123" None)
                 Scenario.testFile (Part001.mkOptions None None true)
                 Scenario.happy)))
  = [2%N; 4%N] /\
  map total
    (reported
       (trace (Part001.upload (Part001.mkUploaderOptions "pk_123" None)
                 Scenario.testFile (Part001.mkOptions None None true)
                 Scenario.happy)))
  = [4%N; 4%N].
Proof.
  refine (proj2 (proj2 X10_one_report_per_progress_event
                   (Part001.mkUploaderOptions "pk_123" None) Scenario.testFile
                   (Part001.mkOptions None None true) Scenario.happy)
            (Some "https://bucket.example/upload")
            (Scenario.testForm Scenario.testFile) _ _).
  - reflexivity.
  - vm_compute. auto.
Defined.



(* ===================================================================== *)
(** ** What the requests to the API carry *)
(* ===================================================================== *)

(** The requests that carry an init, in the [generateSig] revision. *)
Lemma part001_requests o file options env url init :
  In (EvFetch url (Some init)) (trace (Part001.upload o file options env)) ->
  method init = "POST" /\
  headers init = Part001.requestHeaders env (Part001.publicKey o) /\
  ((url = confirmUrl /\ exists tok, body init = ConfirmBody tok) \/
   (url = prepareUrl /\
    exists tn nm type size sp,
      instanceofBlob file = true /\
      Part001.displayName env file options = (tn, inr nm) /\
      file_type file = Some type /\ file_size file = Some size /\
      outcome (Part001.fetchSignature env (Part001.handleSignature o)) = inr sp /\
      body init = PrepareBody
                    (mkFileMeta nm type size (spread_if (Part001.path options)))
                    (spread_if (fst sp)) (spread_if (snd sp)))).
Proof.
  intros Hin.
  assert (Hblob : instanceofBlob file = true).
  { destruct (part001_run_cases o file options env)
      as [(m & Hr & _) | (type & size & tn & nm & _ & _ & _ & _ & Hb & _)];
      [|exact Hb].
    rewrite Hr in Hin. destruct Hin. }
  destruct (part001_events _ _ _ _ _ Hin)
    as [[He _] | [(hs & _ & _ & He)
                 | (tn & nm & type & size & sp & Hn & Hty & Hsz & Hsp & He)]];
    try discriminate.
  cbv zeta in He.
  destruct He as [He | (json & fields & _ & _ & _ & _ & He)].
  - injection He as -> ->. do 2 (split; [reflexivity|]). right. split; [reflexivity|].
    exists tn, nm, type, size, sp. auto 10.
  - destruct He as [He | [(ev & _ & _ & He) | [He _]]]; try discriminate.
    injection He as -> ->. do 2 (split; [reflexivity|]). left.
    split; [reflexivity | eexists; reflexivity].
Qed.

(** The same for src/index.ts. *)
Lemma index_ts_requests o file options env url init :
  In (EvFetch url (Some init)) (trace (IndexTs.upload o file options env)) ->
  method init = "POST" /\
  headers init = [("x-public-key", IndexTs.publicKey o)] /\
  ((url = confirmUrl /\ exists tok, body init = ConfirmBody tok) \/
   (url = prepareUrl /\
    exists name type size sp,
      IndexTs.validFile file = Some (name, type, size) /\
      outcome (IndexTs.fetchSignature env (IndexTs.handleSignature options)) = inr sp /\
      body init = PrepareBody
                    (mkFileMeta name type size (spread_if (IndexTs.path options)))
                    (spread_if (fst sp)) (spread_if (snd sp)))).
Proof.
  intros Hin.
  destruct (index_ts_events _ _ _ _ _ Hin)
    as [(hs & _ & _ & He) | (name & type & size & sp & Hv & Hsp & He)];
    [discriminate|].
  cbv zeta in He.
  destruct He as [He | (json & fields & _ & _ & He)].
  - injection He as -> ->. do 2 (split; [reflexivity|]). right. split; [reflexivity|].
    exists name, type, size, sp. auto.
  - destruct He as [He | [(ev & _ & _ & He) | [He _]]]; try discriminate.
    injection He as -> ->. do 2 (split; [reflexivity|]). left.
    split; [reflexivity | eexists; reflexivity].
Qed.

Lemma validFile_inv file name type size :
  IndexTs.validFile file = Some (name, type, size) ->
  file_name file = Some name /\ file_type file = Some type /\
  file_size file = Some size /\
  name <> "" /\ type <> "" /\ size <> 0%N.
Proof.
  unfold IndexTs.validFile.
  destruct (file_name file) as [n|]; [|discriminate].
  destruct (file_type file) as [t|]; [|discriminate].
  destruct (file_size file) as [s|]; [|discriminate].
  destruct (Js.truthy n) eqn:Hn; [|discriminate].
  destruct (Js.truthy_num s) eqn:Hs; [|discriminate].
  destruct (Js.truthy t) eqn:Ht; [|discriminate].
  cbn [negb orb]. intros H. injection H as <- <- <-.
  repeat split; try reflexivity.
  - intros ->. discriminate.
  - intros ->. discriminate.
  - intros ->. discriminate.
Qed.

(** X12: the prepare request describes the file handed in.  It goes
    to the prepare endpoint by POST with the file's own type and size,
    and the path option only when that is non-empty.  In the
    [generateSig] revision a non-empty name option is the name sent,
    ahead of the [File]'s own name, which is sent otherwise; in
    src/index.ts the name is the file's, and name, type and size are
    all non-empty. *)
Theorem X12_prepare_request_describes_the_file :
  (forall (o : Part001.RestashUploaderOptions) (file : FileArg)
          (options : Part001.UploadOptions) (env : Env)
          (url : string) (init : RequestInit) (meta : FileMeta)
          (s p : option string),
     In (EvFetch url (Some init)) (trace (Part001.upload o file options env)) ->
     body init = PrepareBody meta s p ->
     url = prepareUrl /\ method init = "POST" /\
     file_type file = Some (meta_type meta) /\
     file_size file = Some (meta_size meta) /\
     meta_path meta = spread_if (Part001.path options) /\
     (forall n, Part001.name options = Some n -> n <> "" -> meta_name meta = n) /\
     ((Part001.name options = None \/ Part001.name options = Some "") ->
      forall n, file_name file = Some n -> meta_name meta = n)) /\
  (forall (o : IndexTs.FactoryOptions) (file : FileArg)
          (options : IndexTs.UploadOptions) (env : Env)
          (url : string) (init : RequestInit) (meta : FileMeta)
          (s p : option string),
     In (EvFetch url (Some init)) (trace (IndexTs.upload o file options env)) ->
     body init = PrepareBody meta s p ->
     url = prepareUrl /\ method init = "POST" /\
     file_name file = Some (meta_name meta) /\
     file_type file = Some (meta_type meta) /\
     file_size file = Some (meta_size meta) /\
     meta_path meta = spread_if (IndexTs.path options) /\
     meta_name meta <> "" /\ meta_type meta <> "" /\ meta_size meta <> 0%N).
Proof.
  split; intros o file options env url init meta s p Hin Hbody.
  - destruct (part001_requests _ _ _ _ _ _ Hin) as (Hm & _ & [[_ [tok Hb]] | [-> H]]);
      [congruence|].
    destruct H as (tn & nm & type & size & sp & Hblob & Hn & Hty & Hsz & _ & Hb).
    rewrite Hb in Hbody. injection Hbody as <- _ _. cbn [meta_name meta_type
      meta_size meta_path].
    repeat (split; [reflexivity || assumption|]).
    destruct (displayName_cases env file options) as [(n' & Ho & Ht & H) | [Hf H]].
    + rewrite Hn in H. injection H as _ ->. split.
      * intros n Hn'. rewrite Ho in Hn'. now injection Hn' as ->.
      * intros [Hno | Hno]; rewrite Ho in Hno; [discriminate|].
        injection Hno as ->. discriminate.
    + split.
      * intros n Ho Hne. rewrite Ho in Hf. cbn [Js.truthy_opt] in Hf.
        destruct n; [congruence | discriminate].
      * intros _ n Hfn. destruct file; cbn in Hfn, Hblob; try discriminate.
        injection Hfn as ->. rewrite Hn in H. now injection H as _ ->.
  - destruct (index_ts_requests _ _ _ _ _ _ Hin) as (Hm & _ & [[_ [tok Hb]] | [-> H]]);
      [congruence|].
    destruct H as (name & type & size & sp & Hv & _ & Hb).
    rewrite Hb in Hbody. injection Hbody as <- _ _. cbn [meta_name meta_type
      meta_size meta_path].
    destruct (validFile_inv _ _ _ _ Hv) as (? & ? & ? & ? & ? & ?).
    repeat (split; [reflexivity || assumption|]). assumption.
Qed.

(** The test file uploaded under another name, into a folder. *)
Lemma X12_witness :
  prepareUrl = prepareUrl /\ "POST" = "POST" /\
  file_type Scenario.testFile = Some "text/plain" /\
  file_size Scenario.testFile = Some 4%N /\
  Some "docs" = spread_if (Some "docs") /\
  (forall n, Some "renamed.txt" = Some n -> n <> "" -> "renamed.txt" = n) /\
  ((Some "renamed.txt" = None \/ Some "renamed.txt" = Some "") ->
   forall n, file_name Scenario.testFile = Some n -> "renamed.txt" = n).
Proof.
  apply (proj1 X12_prepare_request_describes_the_file
           (Part001.mkUploaderOptions "pk_123" None) Scenario.testFile
           (Part001.mkOptions (Some "renamed.txt") (Some "docs") false)
           Scenario.happy prepareUrl
           (prepareInit [("x-public-key", "pk_123")]
              (mkFileMeta "renamed.txt" "text/plain" 4%N (Some "docs")) (None, None))
           (mkFileMeta "renamed.txt" "text/plain" 4%N (Some "docs")) None None).
  - vm_compute. auto.
  - reflexivity.
Defined.

(** X13: the signature and payload of the prepare request are the
    ones the caller's signature route returned in this run.  Without a
    route the request carries neither.  With one, the [generateSig]
    revision sends both as received, and both are non-empty; src/index.ts
    sends each one that is non-empty and leaves out the others. *)
Theorem X13_prepare_request_forwards_the_signature :
  (forall (o : Part001.RestashUploaderOptions) (file : FileArg)
          (options : Part001.UploadOptions) (env : Env)
          (url : string) (init : RequestInit) (meta : FileMeta)
          (s p : option string),
     In (EvFetch url (Some init)) (trace (Part001.upload o file options env)) ->
     body init = PrepareBody meta s p ->
     (Js.truthy_opt (Part001.handleSignature o) = false -> s = None /\ p = None) /\
     (forall hs,
        Part001.handleSignature o = Some hs -> Js.truthy hs = true ->
        exists json sig pay,
          fetch env hs None = FetchResponse true (inr json) /\
          j_signature json = Some sig /\ j_payload json = Some pay /\
          sig <> "" /\ pay <> "" /\
          s = Some sig /\ p = Some pay)) /\
  (forall (o : IndexTs.FactoryOptions) (file : FileArg)
          (options : IndexTs.UploadOptions) (env : Env)
          (url : string) (init : RequestInit) (meta : FileMeta)
          (s p : option string),
     In (EvFetch url (Some init)) (trace (IndexTs.upload o file options env)) ->
     body init = PrepareBody meta s p ->
     (Js.truthy_opt (IndexTs.handleSignature options) = false ->
      s = None /\ p = None) /\
     (forall hs,
        IndexTs.handleSignature options = Some hs -> Js.truthy hs = true ->
        exists json,
          fetch env hs None = FetchResponse true (inr json) /\
          s = spread_if (j_signature json) /\ p = spread_if (j_payload json))).
Proof.
  split; intros o file options env url init meta s p Hin Hbody.
  - destruct (part001_requests _ _ _ _ _ _ Hin) as (_ & _ & [[_ [tok Hb]] | [_ H]]);
      [congruence|].
    destruct H as (tn & nm & type & size & sp & _ & _ & _ & _ & Hsp & Hb).
    rewrite Hb in Hbody. injection Hbody as _ <- <-.
    destruct (part001_fetchSignature_cases env (Part001.handleSignature o))
      as [[Hno Hr] | (hs & Hhs & Hths & _ & Ho)].
    + rewrite Hr in Hsp. injection Hsp as <-. split; [auto|].
      intros hs Hhs Hths. rewrite Hhs in Hno. cbn in Hno. congruence.
    + split; [intros Hno; rewrite Hhs in Hno; cbn in Hno; congruence|].
      intros hs' Hhs' _. rewrite Hhs in Hhs'. injection Hhs' as <-.
      rewrite Hsp in Ho.
      destruct (fetch env hs None) as [r | [|] [r | json]]; try discriminate.
      destruct (j_signature json) as [sig|] eqn:Hsig; [|discriminate].
      destruct (j_payload json) as [pay|] eqn:Hpay;
        [|cbn in Ho; destruct (Js.truthy sig); discriminate].
      cbn [Js.truthy_opt] in Ho.
      destruct (Js.truthy sig) eqn:Hts; [|discriminate].
      destruct (Js.truthy pay) eqn:Htp; [|discriminate].
      cbn [negb] in Ho. injection Ho as ->. cbn [fst snd].
      exists json, sig, pay. rewrite Hsig, Hpay.
      unfold spread_if. cbn [Js.truthy_opt]. rewrite Hts, Htp.
      repeat split; intros ->; discriminate.
  - destruct (index_ts_requests _ _ _ _ _ _ Hin) as (_ & _ & [[_ [tok Hb]] | [_ H]]);
      [congruence|].
    destruct H as (name & type & size & sp & _ & Hsp & Hb).
    rewrite Hb in Hbody. injection Hbody as _ <- <-.
    destruct (index_ts_fetchSignature_cases env (IndexTs.handleSignature options))
      as [[Hno Hr] | (hs & Hhs & Hths & _ & Ho)].
    + rewrite Hr in Hsp. injection Hsp as <-. split; [auto|].
      intros hs Hhs Hths. rewrite Hhs in Hno. cbn in Hno. congruence.
    + split; [intros Hno; rewrite Hhs in Hno; cbn in Hno; congruence|].
      intros hs' Hhs' _. rewrite Hhs in Hhs'. injection Hhs' as <-.
      rewrite Hsp in Ho.
      destruct (fetch env hs None) as [r | [|] [r | json]]; try discriminate.
      injection Ho as ->. exists json. auto.
Qed.

(** What the route returned is what the prepare request carries. *)
Lemma X13_witness :
  exists json sig pay,
    fetch Scenario.happy "/api/signature" None = FetchResponse true (inr json) /\
    j_signature json = Some sig /\ j_payload json = Some pay /\
    sig <> "" /\ pay <> "" /\
    Some "c0ffee" = Some sig /\ Some "id:1700000000000" = Some pay.
Proof.
  refine (proj2 (proj1 X13_prepare_request_forwards_the_signature
                   (Part001.mkUploaderOptions "pk_123" (Some "/api/signature"))
                   Scenario.testFile Part001.defaultOptions Scenario.happy prepareUrl
                   (prepareInit [("x-public-key", "pk_123")]
                      (mkFileMeta "test.txt" "text/plain" 4%N None)
                      (Some "c0ffee", Some "id:1700000000000"))
                   (mkFileMeta "test.txt" "text/plain" 4%N None)
                   (Some "c0ffee") (Some "id:1700000000000") _ _)
            "/api/signature" _ _).
  - vm_compute. auto.
  - reflexivity.
  - reflexivity.
  - reflexivity.
Defined.

(** X14: every request to the API, prepare or confirm, is a POST to
    one of the two endpoints with the public key in [x-public-key].
    src/index.ts sends no other header.  The [generateSig] revision sends
    no other header outside test mode, and in test mode adds the origin
    given in SPOOFED_ORIGIN when that is non-empty. *)
Theorem X14_api_requests_carry_the_public_key :
  (forall (o : Part001.RestashUploaderOptions) (file : FileArg)
          (options : Part001.UploadOptions) (env : Env)
          (url : string) (init : RequestInit),
     In (EvFetch url (Some init)) (trace (Part001.upload o file options env)) ->
     (url = prepareUrl \/ url = confirmUrl) /\ method init = "POST" /\
     In ("x-public-key", Part001.publicKey o) (headers init) /\
     (processEnv env "NODE_ENV" <> Some "test" ->
      headers init = [("x-public-key", Part001.publicKey o)]) /\
     ((processEnv env "SPOOFED_ORIGIN" = None
       \/ processEnv env "SPOOFED_ORIGIN" = Some "") ->
      headers init = [("x-public-key", Part001.publicKey o)]) /\
     (forall origin,
        processEnv env "NODE_ENV" = Some "test" ->
        processEnv env "SPOOFED_ORIGIN" = Some origin -> origin <> "" ->
        headers init = [("x-public-key", Part001.publicKey o); ("origin", origin)])) /\
  (forall (o : IndexTs.FactoryOptions) (file : FileArg)
          (options : IndexTs.UploadOptions) (env : Env)
          (url : string) (init : RequestInit),
     In (EvFetch url (Some init)) (trace (IndexTs.upload o file options env)) ->
     (url = prepareUrl \/ url = confirmUrl) /\ method init = "POST" /\
     headers init = [("x-public-key", IndexTs.publicKey o)]).
Proof.
  split; intros o file options env url init Hin.
  - destruct (part001_requests _ _ _ _ _ _ Hin) as (Hm & Hh & Hu).
    split; [destruct Hu as [[-> _] | [-> _]]; auto|].
    split; [exact Hm|]. rewrite Hh. unfold Part001.requestHeaders.
    split; [now left|].
    destruct (processEnv env "NODE_ENV") as [mode|];
      destruct (processEnv env "SPOOFED_ORIGIN") as [origin|];
      repeat split; try reflexivity; try discriminate.
    + intros Hmode. destruct (String.eqb_spec mode "test") as [-> | _];
        [congruence | reflexivity].
    + intros [H | H]; [discriminate|]. injection H as ->.
      now rewrite andb_false_r.
    + intros origin' H1 H2 Hne. injection H1 as ->. injection H2 as ->.
      destruct origin'; [congruence | reflexivity].
  - destruct (index_ts_requests _ _ _ _ _ _ Hin) as (Hm & Hh & Hu).
    split; [destruct Hu as [[-> _] | [-> _]]; auto|]. auto.
Qed.

(** The prepare request of the test upload in test mode. *)
Lemma X14_witness :
  headers (prepareInit [("x-public-key", "pk_123"); ("origin", "https://app.example")]
             (mkFileMeta "test.txt" "text/plain" 4%N None) (None, None))
  = [("x-public-key", "pk_123"); ("origin", "https://app.example")].
Proof.
  refine (proj2 (proj2 (proj2 (proj2 (proj2
            (proj1 X14_api_requests_carry_the_public_key
               (Part001.mkUploaderOptions "pk_123" None) Scenario.testFile
               Part001.defaultOptions (Refusal.testMode Scenario.happy) prepareUrl
               (prepareInit [("x-public-key", "pk_123");
                             ("origin", "https://app.example")]
                  (mkFileMeta "test.txt" "text/plain" 4%N None) (None, None))
               _)))))
            "https://app.example" _ _ _).
  - vm_compute. auto.
  - reflexivity.
  - reflexivity.
  - discriminate.
Defined.

(* ===================================================================== *)
(** ** Which files are accepted *)
(* ===================================================================== *)

(** Past its checks an upload always fetches something. *)
Lemma index_ts_valid_file_fetches o file options env name type size :
  Js.truthy (IndexTs.publicKey o) = true ->
  Js.startsWith (IndexTs.publicKey o) "sk_" = false ->
  IndexTs.validFile file = Some (name, type, size) ->
  exists url init rest,
    network_calls (trace (IndexTs.upload o file options env))
    = EvFetch url init :: rest.
Proof.
  intros Ht Hsk Hv. unfold IndexTs.upload. rewrite Ht, Hsk, Hv. cbn [negb].
  rewrite bind_trace.
  destruct (index_ts_fetchSignature_cases env (IndexTs.handleSignature options))
    as [[_ ->] | (hs & _ & _ & -> & _)].
  - cbn [trace outcome fst snd app]. rewrite bind_trace, prepare_trace.
    cbn [network_calls filter is_network app]. eauto.
  - cbn [network_calls filter is_network app]. eauto.
Qed.

Lemma part001_blob_fetches o file options env :
  Js.truthy (Part001.publicKey o) = true ->
  Js.startsWith (Part001.publicKey o) "sk_" = false ->
  instanceofBlob file = true ->
  exists url init rest,
    network_calls (trace (Part001.upload o file options env))
    = EvFetch url init :: rest.
Proof.
  intros Ht Hsk Hb.
  destruct (part001_run_cases o file options env)
    as [(m & _ & [H | [H | H]]) | (type & size & tn & nm & _ & _ & _ & _ & _ & _ & Htn & ->)];
    try congruence.
  rewrite bind_trace. cbn [emits trace outcome fst snd].
  unfold network_calls. rewrite filter_app.
  replace (filter is_network tn) with (@nil Event)
    by (destruct Htn as [-> | ->]; reflexivity).
  cbn [app]. rewrite bind_trace.
  destruct (part001_fetchSignature_cases env (Part001.handleSignature o))
    as [[_ ->] | (hs & _ & _ & -> & _)].
  - cbn [trace outcome fst snd app]. rewrite bind_trace, prepare_trace.
    cbn [filter is_network app]. eauto.
  - cbn [filter is_network app]. eauto.
Qed.

(** X15: under an acceptable public key, src/index.ts rejects a [File]
    with "File passed in is invalid", before any call, exactly when its
    name or its type is empty or its size is zero.  The [generateSig]
    revision has no such check: every [File] or [Blob], an empty one
    too, gets as far as the network. *)
Theorem X15_file_check_by_revision :
  (forall (o : IndexTs.FactoryOptions) (name type : string) (size : N)
          (options : IndexTs.UploadOptions) (env : Env),
     IndexTs.publicKey o <> "" ->
     Js.startsWith (IndexTs.publicKey o) "sk_" = false ->
     (rejects_before_any_call
        (IndexTs.upload o (IsFile name type size) options env)
        "File passed in is invalid"
      <-> (name = "" \/ type = "" \/ size = 0%N))) /\
  (forall (o : Part001.RestashUploaderOptions) (file : FileArg)
          (options : Part001.UploadOptions) (env : Env),
     Part001.publicKey o <> "" ->
     Js.startsWith (Part001.publicKey o) "sk_" = false ->
     instanceofBlob file = true ->
     exists url init rest,
       network_calls (trace (Part001.upload o file options env))
       = EvFetch url init :: rest).
Proof.
  split.
  - intros o name type size options env Hne Hsk.
    pose proof (truthy_of_nonempty _ Hne) as Ht.
    destruct (IndexTs.validFile (IsFile name type size)) as [[[n t] s]|] eqn:Hv.
    + destruct (validFile_inv _ _ _ _ Hv) as (Hn & Hty & Hsz & Hn0 & Ht0 & Hs0).
      cbn in Hn, Hty, Hsz. injection Hn as <-. injection Hty as <-.
      injection Hsz as <-. split.
      * intros Hrej.
        destruct (index_ts_valid_file_fetches o _ options env _ _ _ Ht Hsk Hv)
          as (url & init & rest & Hcalls).
        rewrite Hrej in Hcalls. discriminate.
      * intros [H | [H | H]]; contradiction.
    + split.
      * intros _. unfold IndexTs.validFile in Hv. cbn [file_name file_type file_size] in Hv.
        destruct name; [now left|]. destruct type; [right; now left|].
        destruct size; [right; now right|]. discriminate.
      * intros _. unfold rejects_before_any_call, IndexTs.upload.
        now rewrite Ht, Hsk, Hv.
  - intros o file options env Hne Hsk Hb.
    apply part001_blob_fetches; [now apply truthy_of_nonempty | assumption..].
Qed.

(** An empty file: refused by src/index.ts, sent on by the other
    revision. *)
Lemma X15_witness :
  rejects_before_any_call
    (IndexTs.upload (IndexTs.mkFactoryOptions "pk_123")
       (IsFile "empty.txt" "text/plain" 0) IndexTs.defaultOptions Scenario.happy)
    "File passed in is invalid" /\
  exists url init rest,
    network_calls
      (trace (Part001.upload (Part001.mkUploaderOptions "pk_123" None)
                (IsFile "empty.txt" "text/plain" 0) Part001.defaultOptions
                Scenario.happy))
    = EvFetch url init :: rest.
Proof.
  split.
  - apply (proj1 X15_file_check_by_revision (IndexTs.mkFactoryOptions "pk_123")
             "empty.txt" "text/plain" 0%N IndexTs.defaultOptions Scenario.happy
             ltac:(discriminate) eq_refl).
    right. right. reflexivity.
  - apply (proj2 X15_file_check_by_revision (Part001.mkUploaderOptions "pk_123" None)
             (IsFile "empty.txt" "text/plain" 0) Part001.defaultOptions
             Scenario.happy ltac:(discriminate) eq_refl eq_refl).
Defined.

(* ===================================================================== *)
(** ** The signature generators, continued *)
(* ===================================================================== *)

Lemma generateSig_inv sk env p :
  outcome (Part001.generateSig sk env) = inr p ->
  sk <> "" /\ Js.startsWith sk "pk_" = false /\ windowDefined env = false /\
  payload p
  = (Crypto.randomUUID (entropy env) ++ ":" ++ Js.string_of_number (dateNow env))%string /\
  signature p = Crypto.createHmac_sha256_hex sk (payload p).
Proof.
  unfold Part001.generateSig.
  destruct (Js.truthy sk) eqn:Ht; [|discriminate].
  destruct (Js.startsWith sk "pk_"); [discriminate|].
  destruct (windowDefined env); [discriminate|].
  cbn [bind emit ret outcome snd]. intros H. injection H as <-.
  cbn [payload signature].
  repeat split. intros ->. discriminate.
Qed.

Lemma generateRestashSig_inv sk env p :
  outcome (IndexTs.generateRestashSig sk env) = inr p ->
  sk <> "" /\ Js.startsWith sk "pk_" = false /\ windowDefined env = false /\
  payload p
  = (nanoid env 32 ++ ":" ++ Js.string_of_number (dateNow env))%string /\
  signature p = Crypto.createHmac_sha256_hex sk (payload p).
Proof.
  unfold IndexTs.generateRestashSig.
  destruct (Js.truthy sk) eqn:Ht; [|discriminate].
  destruct (Js.startsWith sk "pk_"); [discriminate|].
  destruct (windowDefined env); [discriminate|].
  cbn [bind emit ret outcome snd]. intros H. injection H as <-.
  cbn [payload signature].
  repeat split. intros ->. discriminate.
Qed.

(** X16: the generators succeed exactly for a non-empty key without
    the "pk_" prefix outside a browser; an empty key is refused with
    "Secret key is required", in a browser too; and a generator that
    fails has read neither the clock nor the random source and has
    computed no HMAC. *)
Theorem X16_generator_succeeds_exactly_when :
  forall (sk : string) (env : Env),
    (sk = "" ->
     rejects_before_any_call (Part001.generateSig sk env) "Secret key is required" /\
     rejects_before_any_call (IndexTs.generateRestashSig sk env)
       "Secret key is required") /\
    ((exists p, outcome (Part001.generateSig sk env) = inr p)
     <-> (sk <> "" /\ Js.startsWith sk "pk_" = false /\ windowDefined env = false)) /\
    ((exists p, outcome (IndexTs.generateRestashSig sk env) = inr p)
     <-> (sk <> "" /\ Js.startsWith sk "pk_" = false /\ windowDefined env = false)) /\
    (forall e, outcome (Part001.generateSig sk env) = inl e ->
               trace (Part001.generateSig sk env) = []) /\
    (forall e, outcome (IndexTs.generateRestashSig sk env) = inl e ->
               trace (IndexTs.generateRestashSig sk env) = []).
Proof.
  intros sk env. split; [intros ->; split; reflexivity|].
  split; [|split].
  - split.
    + intros [p Hp]. destruct (generateSig_inv _ _ _ Hp) as (? & ? & ? & _). auto.
    + intros (Hne & Hpk & Hw). unfold Part001.generateSig.
      rewrite (truthy_of_nonempty _ Hne), Hpk, Hw.
      cbn [negb bind emit ret outcome snd]. eauto.
  - split.
    + intros [p Hp]. destruct (generateRestashSig_inv _ _ _ Hp) as (? & ? & ? & _). auto.
    + intros (Hne & Hpk & Hw). unfold IndexTs.generateRestashSig.
      rewrite (truthy_of_nonempty _ Hne), Hpk, Hw.
      cbn [negb bind emit ret outcome snd]. eauto.
  - unfold Part001.generateSig, IndexTs.generateRestashSig.
    destruct (Js.truthy sk); cbn [negb]; [|split; reflexivity].
    destruct (Js.startsWith sk "pk_"); [split; reflexivity|].
    destruct (windowDefined env); [split; reflexivity|].
    split; intros e H; cbn [bind emit ret outcome snd] in H; discriminate.
Qed.

(** No key in a browser, and a good key on a server. *)
Lemma X16_witness :
  rejects_before_any_call
    (Part001.generateSig "" (Scenario.inBrowser Scenario.happy))
    "Secret key is required" /\
  exists p, outcome (IndexTs.generateRestashSig "sk_123" Scenario.happy) = inr p.
Proof.
  split.
  - apply (proj1 (X16_generator_succeeds_exactly_when ""
                    (Scenario.inBrowser Scenario.happy)) eq_refl).
  - apply (proj2 (proj1 (proj2 (proj2
             (X16_generator_succeeds_exactly_when "sk_123" Scenario.happy))))).
    repeat split. discriminate.
Defined.

Lemma string_of_number_inj z z' :
  Js.string_of_number z = Js.string_of_number z' -> z = z'.
Proof.
  unfold Js.string_of_number. intros H.
  apply DecimalZ.to_int_inj.
  assert (Hnn : forall x, Z.to_int x <> Decimal.Pos Decimal.Nil /\
                          Z.to_int x <> Decimal.Neg Decimal.Nil).
  { intros [|q|q]; cbn; split; try discriminate;
      intros Hq; injection Hq as Hq;
      exact (DecimalPos.Unsigned.to_uint_nonnil q Hq). }
  destruct (Hnn z) as [H1 H2]. destruct (Hnn z') as [H1' H2'].
  pose proof (NilZero.isi _ H1 H2) as E. pose proof (NilZero.isi _ H1' H2') as E'.
  rewrite H in E. rewrite E in E'. now injection E'.
Qed.

Lemma joined_inj sep (a b a' b' : string) :
  Js.count sep a = 0 -> Js.count sep b = 0 ->
  Js.count sep a' = 0 -> Js.count sep b' = 0 ->
  (a ++ String sep b = a' ++ String sep b')%string -> a = a' /\ b = b'.
Proof.
  intros Ha Hb Ha' Hb' H.
  pose proof (split_joined sep a b Ha Hb) as E.
  rewrite H, (split_joined sep a' b' Ha' Hb') in E.
  injection E as -> ->. auto.
Qed.

(** X17: the payload determines the identifier and the timestamp that
    went into it: two successful runs of a generator, under whatever
    keys, return the same payload only if they drew the same identifier
    and read the same clock value.  For src/index.ts the identifiers
    of [nanoid] are taken to have no ":". *)
Theorem X17_payload_determines_id_and_time :
  (forall (sk sk' : string) (env env' : Env) (p p' : SigPayload),
     outcome (Part001.generateSig sk env) = inr p ->
     outcome (Part001.generateSig sk' env') = inr p' ->
     payload p = payload p' ->
     Crypto.randomUUID (entropy env) = Crypto.randomUUID (entropy env') /\
     dateNow env = dateNow env') /\
  (forall (sk sk' : string) (env env' : Env) (p p' : SigPayload),
     Js.count ":" (nanoid env 32) = 0 -> Js.count ":" (nanoid env' 32) = 0 ->
     outcome (IndexTs.generateRestashSig sk env) = inr p ->
     outcome (IndexTs.generateRestashSig sk' env') = inr p' ->
     payload p = payload p' ->
     nanoid env 32 = nanoid env' 32 /\ dateNow env = dateNow env').
Proof.
  split.
  - intros sk sk' env env' p p' Hp Hp' Heq.
    destruct (generateSig_inv _ _ _ Hp) as (_ & _ & _ & E & _).
    destruct (generateSig_inv _ _ _ Hp') as (_ & _ & _ & E' & _).
    rewrite E, E' in Heq.
    destruct (joined_inj ":" _ _ _ _
                (randomUUID_no_colon (entropy env))
                (string_of_number_no_colon (dateNow env))
                (randomUUID_no_colon (entropy env'))
                (string_of_number_no_colon (dateNow env')) Heq) as [Hid Hts].
    split; [exact Hid | now apply string_of_number_inj].
  - intros sk sk' env env' p p' Hn Hn' Hp Hp' Heq.
    destruct (generateRestashSig_inv _ _ _ Hp) as (_ & _ & _ & E & _).
    destruct (generateRestashSig_inv _ _ _ Hp') as (_ & _ & _ & E' & _).
    rewrite E, E' in Heq.
    destruct (joined_inj ":" _ _ _ _ Hn
                (string_of_number_no_colon (dateNow env)) Hn'
                (string_of_number_no_colon (dateNow env')) Heq) as [Hid Hts].
    split; [exact Hid | now apply string_of_number_inj].
Qed.

(** Two keys on one clock tick with the same identifier give the same
    payload. *)
Lemma X17_witness :
  Crypto.randomUUID (entropy Scenario.happy)
  = Crypto.randomUUID (entropy (Refusal.testMode Scenario.happy)) /\
  dateNow Scenario.happy = dateNow (Refusal.testMode Scenario.happy).
Proof.
  apply (proj1 X17_payload_determines_id_and_time "sk_123" "sk_456"
           Scenario.happy (Refusal.testMode Scenario.happy)
           (mkSig "03142536-4758-497a-8b9c-adbecfe0f102:1700000000000"
              "d059e41946729b7d052d4fb5dffbe6d0502d9640e423657e59ef0d1375f59bf3")
           (mkSig "03142536-4758-497a-8b9c-adbecfe0f102:1700000000000"
              "e76a1f690e5af3d812f7985a9a7d87811283acfe5e68628e93aa3502cb83f42c")).
  - vm_compute. reflexivity.
  - vm_compute. reflexivity.
  - reflexivity.
Defined.

(* ===================================================================== *)
(** ** An upload where every step answers well *)
(* ===================================================================== *)

Lemma network_calls_app t1 t2 :
  network_calls (t1 ++ t2) = network_calls t1 ++ network_calls t2.
Proof. apply filter_app. Qed.

Lemma network_calls_progress onProgress evs :
  network_calls (flat_map (onUploadProgress onProgress) evs) = [].
Proof.
  destruct onProgress; induction evs as [|ev evs IH]; try reflexivity; exact IH.
Qed.

Lemma steps_3_4_succeed env hdrs url fields file onProgress validateStatus tok
      status result :
  settled (transport env url (formDataOf fields file)) = AxiosHttp status ->
  (200 <= status < 300)%Z ->
  match validateStatus with Some v => v status = true | None => True end ->
  fetch env confirmUrl (Some (mkInit "POST" hdrs (ConfirmBody tok)))
  = FetchResponse true (inr result) ->
  outcome (transfer env url fields file onProgress validateStatus ;;
           confirm env hdrs tok) = inr result /\
  network_calls (trace (transfer env url fields file onProgress validateStatus ;;
                        confirm env hdrs tok))
  = [EvAxiosPost url (formDataOf fields file);
     EvFetch confirmUrl (Some (mkInit "POST" hdrs (ConfirmBody tok)))].
Proof.
  intros Hs Hrange Hv Hc.
  assert (Ho : outcome (transfer env url fields file onProgress validateStatus) = inr tt).
  { apply transfer_succeeds_iff. exists status. auto. }
  rewrite transfer_then_confirm_run, Ho. cbn [trace outcome fst snd]. split.
  - rewrite confirm_outcome, Hc. reflexivity.
  - change (EvAxiosPost url (formDataOf fields file) :: ?l)
      with ([EvAxiosPost url (formDataOf fields file)] ++ l).
    rewrite !network_calls_app, network_calls_progress. reflexivity.
Qed.

(** X18: an upload where every step answers well resolves to the body
    of the confirm response.  Under an acceptable key and file, when
    the signature step (if any) succeeds, the prepare endpoint answers
    [ok] with a url, fields and a confirmation token, the destination
    answers with a 2xx status and the confirm endpoint answers [ok],
    the upload resolves to what the confirm endpoint returned, and its
    network calls are those of the signature step, then the prepare
    request, the post to the returned url and the confirm request with
    the returned token. *)
Theorem X18_upload_resolves_when_every_step_succeeds :
  (forall (o : Part001.RestashUploaderOptions) (file : FileArg)
          (options : Part001.UploadOptions) (env : Env)
          (nm type : string) (size : N) (sp : option string * option string)
          (json result : JsonBody) (fields : list (string * string)) (status : Z),
     let hdrs := Part001.requestHeaders env (Part001.publicKey o) in
     let init := prepareInit hdrs
                   (mkFileMeta nm type size (spread_if (Part001.path options))) sp in
     let form := formDataOf fields file in
     let conf := mkInit "POST" hdrs (ConfirmBody (j_confirmToken json)) in
     Part001.publicKey o <> "" ->
     Js.startsWith (Part001.publicKey o) "sk_" = false ->
     instanceofBlob file = true ->
     file_type file = Some type -> file_size file = Some size ->
     outcome (Part001.displayName env file options) = inr nm ->
     outcome (Part001.fetchSignature env (Part001.handleSignature o)) = inr sp ->
     fetch env prepareUrl (Some init) = FetchResponse true (inr json) ->
     j_fields json = Some fields ->
     Js.truthy_opt (j_url json) = true ->
     Js.truthy_opt (j_confirmToken json) = true ->
     settled (transport env (j_url json) form) = AxiosHttp status ->
     (200 <= status < 300)%Z ->
     fetch env confirmUrl (Some conf) = FetchResponse true (inr result) ->
     outcome (Part001.upload o file options env) = inr result /\
     network_calls (trace (Part001.upload o file options env))
     = network_calls (trace (Part001.fetchSignature env (Part001.handleSignature o)))
       ++ [EvFetch prepareUrl (Some init); EvAxiosPost (j_url json) form;
           EvFetch confirmUrl (Some conf)]) /\
  (forall (o : IndexTs.FactoryOptions) (file : FileArg)
          (options : IndexTs.UploadOptions) (env : Env)
          (name type : string) (size : N) (sp : option string * option string)
          (json result : JsonBody) (fields : list (string * string)) (status : Z),
     let hdrs := [("x-public-key", IndexTs.publicKey o)] in
     let init := prepareInit hdrs
                   (mkFileMeta name type size (spread_if (IndexTs.path options))) sp in
     let form := formDataOf fields file in
     let conf := mkInit "POST" hdrs (ConfirmBody (j_confirmToken json)) in
     IndexTs.publicKey o <> "" ->
     Js.startsWith (IndexTs.publicKey o) "sk_" = false ->
     IndexTs.validFile file = Some (name, type, size) ->
     outcome (IndexTs.fetchSignature env (IndexTs.handleSignature options)) = inr sp ->
     fetch env prepareUrl (Some init) = FetchResponse true (inr json) ->
     j_fields json = Some fields ->
     settled (transport env (j_url json) form) = AxiosHttp status ->
     (200 <= status < 300)%Z ->
     fetch env confirmUrl (Some conf) = FetchResponse true (inr result) ->
     outcome (IndexTs.upload o file options env) = inr result /\
     network_calls (trace (IndexTs.upload o file options env))
     = network_calls (trace (IndexTs.fetchSignature env (IndexTs.handleSignature options)))
       ++ [EvFetch prepareUrl (Some init); EvAxiosPost (j_url json) form;
           EvFetch confirmUrl (Some conf)]).
Proof.
  split.
  - intros o file options env nm type size sp json result fields status
           hdrs init form conf Hne Hsk Hb Hty Hsz Hnm Hsp Hprep Hf Hurl Htok Hs
           Hrange Hconf.
    pose proof (truthy_of_nonempty _ Hne) as Ht.
    destruct (part001_blob_fetches o file options env Ht Hsk Hb)
      as (u & i & rest & Hcalls).
    assert (Hin : In (EvFetch u i) (trace (Part001.upload o file options env))).
    { assert (H : In (EvFetch u i)
                     (network_calls (trace (Part001.upload o file options env))))
        by (rewrite Hcalls; now left).
      apply filter_In in H. exact (proj1 H). }
    destruct (displayName_run env file options) as (tn & nm' & Hn & Htn).
    rewrite Hn in Hnm. cbn [outcome snd] in Hnm. injection Hnm as ->.
    rewrite (part001_run_past_prepare o file options env _ tn nm type size sp json
               fields Hin Hn Hty Hsz Hsp Hprep Hf Hurl Htok).
    fold hdrs init.
    destruct (steps_3_4_succeed env hdrs (j_url json) fields file
                (Part001.onProgress options) None (j_confirmToken json) status
                result Hs Hrange I Hconf) as [Ho Hc].
    rewrite bind_run. cbn [emits trace outcome fst snd]. rewrite Ho. split;
      [reflexivity|].
    rewrite !network_calls_app, Hc.
    replace (network_calls tn) with (@nil Event)
      by (destruct Htn as [-> | ->]; reflexivity).
    cbn [app network_calls filter is_network]. rewrite <- app_assoc. reflexivity.
  - intros o file options env name type size sp json result fields status
           hdrs init form conf Hne Hsk Hv Hsp Hprep Hf Hs Hrange Hconf.
    pose proof (truthy_of_nonempty _ Hne) as Ht.
    rewrite (index_ts_run_past_prepare o file options env name type size sp json
               fields Ht Hsk Hv Hsp Hprep Hf).
    fold hdrs init.
    destruct (steps_3_4_succeed env hdrs (j_url json) fields file
                (IndexTs.onProgress options) (Some (fun _ => true))
                (j_confirmToken json) status
                result Hs Hrange eq_refl Hconf) as [Ho Hc].
    rewrite bind_run. cbn [emits trace outcome fst snd]. rewrite Ho. split;
      [reflexivity|].
    rewrite !network_calls_app, Hc.
    cbn [app network_calls filter is_network]. rewrite <- app_assoc. reflexivity.
Qed.

(** The test upload: three requests, and the confirm body as result. *)
Lemma X18_witness :
  outcome (Part001.upload (Part001.mkUploaderOptions "pk_123" None)
             Scenario.testFile Part001.defaultOptions Scenario.happy)
  = inr (resultJson "file_1" "https://cdn.example/uploads/test.txt"
           "uploads/test.txt" "test.txt" 4%N "text/plain") /\
  network_calls
    (trace (Part001.upload (Part001.mkUploaderOptions "pk_123" None)
              Scenario.testFile Part001.defaultOptions Scenario.happy))
  = [EvFetch prepareUrl (Some Scenario.testPrepare);
     EvAxiosPost (Some "https://bucket.example/upload")
       (Scenario.testForm Scenario.testFile);
     EvFetch confirmUrl
       (Some (mkInit "POST" [("x-public-key", "pk_123")]
                (ConfirmBody (Some "tok_1"))))].
Proof.
  refine (proj1 X18_upload_resolves_when_every_step_succeeds
            (Part001.mkUploaderOptions "pk_123" None) Scenario.testFile
            Part001.defaultOptions Scenario.happy "test.txt" "text/plain" 4%N
            (None, None)
            (prepareJson (Some "https://bucket.example/upload")
               (Some [("key", "uploads/test.txt")]) (Some "tok_1"))
            (resultJson "file_1" "https://cdn.example/uploads/test.txt"
               "uploads/test.txt" "test.txt" 4%N "text/plain")
            [("key", "uploads/test.txt")] 204%Z
            _ _ _ _ _ _ _ _ _ _ _ _ _ _);
    try reflexivity; try discriminate; lia.
Defined.

(* ===================================================================== *)
(** ** A transfer that fails in transport *)
(* ===================================================================== *)

Lemma transfer_transport_failure env url fields file onProgress validateStatus reason :
  settled (transport env url (formDataOf fields file)) = AxiosNetworkError reason ->
  outcome (transfer env url fields file onProgress validateStatus)
  = inl (Error reason).
Proof.
  intros Hs. rewrite transfer_outcome, axios_post_outcome, Hs. reflexivity.
Qed.

(** X19: when the post to the destination fails in transport (no HTTP
    response at all), the upload rejects with the reason axios gives,
    and no confirm request is sent. *)
Theorem X19_transport_failure_is_final :
  (forall (o : IndexTs.FactoryOptions) (file : FileArg)
          (options : IndexTs.UploadOptions) (env : Env)
          (url : option string) (data : FormData) (reason : string),
     In (EvAxiosPost url data) (trace (IndexTs.upload o file options env)) ->
     settled (transport env url data) = AxiosNetworkError reason ->
     rejects_with (IndexTs.upload o file options env) reason /\
     forall init,
       ~ In (EvFetch confirmUrl (Some init))
            (trace (IndexTs.upload o file options env))) /\
  (forall (o : Part001.RestashUploaderOptions) (file : FileArg)
          (options : Part001.UploadOptions) (env : Env)
          (url : option string) (data : FormData) (reason : string),
     In (EvAxiosPost url data) (trace (Part001.upload o file options env)) ->
     settled (transport env url data) = AxiosNetworkError reason ->
     rejects_with (Part001.upload o file options env) reason /\
     forall init,
       ~ In (EvFetch confirmUrl (Some init))
            (trace (Part001.upload o file options env))).
Proof.
  split; intros o file options env url data reason Hin Hs.
  - destruct (index_ts_called_means_valid _ _ _ _ _ Hin) as [Ht Hsk].
    destruct (index_ts_events _ _ _ _ _ Hin)
      as [(hs & _ & _ & He) | (name & type & size & sp & Hv & Hsp & He)];
      [discriminate|].
    cbv zeta in He.
    destruct He as [He | (json & fields & Hfetch & Hfields & He)]; [discriminate|].
    destruct He as [He | [(ev & _ & _ & He) | [He _]]]; try discriminate.
    injection He as -> ->.
    pose proof (transfer_transport_failure env (j_url json) fields file
                  (IndexTs.onProgress options) (Some (fun _ => true)) reason Hs)
      as Hfail.
    split.
    + unfold rejects_with.
      rewrite (index_ts_run_past_prepare o file options env name type size sp json
                 fields Ht Hsk Hv Hsp Hfetch Hfields).
      rewrite bind_outcome. cbn [emits outcome snd].
      rewrite transfer_then_confirm_run. cbn [outcome snd]. now rewrite Hfail.
    + intros init Hc.
      destruct (index_ts_events _ _ _ _ _ Hc)
        as [(hs & _ & _ & He) | (name' & type' & size' & sp' & Hv' & Hsp' & He)];
        [discriminate|].
      cbv zeta in He.
      rewrite Hv in Hv'. injection Hv' as <- <- <-.
      rewrite Hsp in Hsp'. injection Hsp' as <-.
      destruct He as [He | (json' & fields' & Hfetch' & Hfields' & He)];
        [discriminate|].
      rewrite Hfetch in Hfetch'. injection Hfetch' as <-.
      rewrite Hfields in Hfields'. injection Hfields' as <-.
      destruct He as [He | [(ev & _ & _ & He) | [_ Hok]]]; try discriminate.
      rewrite Hfail in Hok. discriminate.
  - destruct (part001_events _ _ _ _ _ Hin)
      as [[He _] | [(hs & _ & _ & He)
                   | (tn & nm & type & size & sp & Hn & Hty & Hsz & Hsp & He)]];
      try discriminate.
    cbv zeta in He.
    destruct He as [He | (json & fields & Hfetch & Hfields & Hurl & Htok & He)];
      [discriminate|].
    destruct He as [He | [(ev & _ & _ & He) | [He _]]]; try discriminate.
    injection He as -> ->.
    pose proof (transfer_transport_failure env (j_url json) fields file
                  (Part001.onProgress options) None reason Hs) as Hfail.
    split.
    + unfold rejects_with.
      rewrite (part001_run_past_prepare o file options env _ tn nm type size sp json
                 fields Hin Hn Hty Hsz Hsp Hfetch Hfields Hurl Htok).
      rewrite bind_outcome. cbn [emits outcome snd].
      rewrite transfer_then_confirm_run. cbn [outcome snd]. now rewrite Hfail.
    + intros init Hc.
      destruct (part001_events _ _ _ _ _ Hc)
        as [[He _] | [(hs & _ & _ & He)
                     | (tn' & nm' & type' & size' & sp' & Hn' & Hty' & Hsz' & Hsp' & He)]];
        try discriminate.
      cbv zeta in He.
      rewrite Hn in Hn'. injection Hn' as <- <-.
      rewrite Hty in Hty'. injection Hty' as <-.
      rewrite Hsz in Hsz'. injection Hsz' as <-.
      rewrite Hsp in Hsp'. injection Hsp' as <-.
      destruct He as [He | (json' & fields' & Hfetch' & Hfields' & _ & _ & He)];
        [discriminate|].
      rewrite Hfetch in Hfetch'. injection Hfetch' as <-.
      rewrite Hfields in Hfields'. injection Hfields' as <-.
      destruct He as [He | [(ev & _ & _ & He) | [_ Hok]]]; try discriminate.
      rewrite Hfail in Hok. discriminate.
Qed.

(** The connection to the destination drops. *)
Lemma X19_witness :
  rejects_with
    (Part001.upload (Part001.mkUploaderOptions "pk_123" None) Scenario.testFile
       Part001.defaultOptions Refusal.connectionLost)
    "Network Error" /\
  forall init,
    ~ In (EvFetch confirmUrl (Some init))
         (trace (Part001.upload (Part001.mkUploaderOptions "pk_123" None)
                   Scenario.testFile Part001.defaultOptions Refusal.connectionLost)).
Proof.
  refine (proj2 X19_transport_failure_is_final
            (Part001.mkUploaderOptions "pk_123" None) Scenario.testFile
            Part001.defaultOptions Refusal.connectionLost
            (Some "https://bucket.example/upload")
            (Scenario.testForm Scenario.testFile) "Network Error" _ _).
  - vm_compute. auto.
  - reflexivity.
Defined.
